(** * tap-redash: schema inference and merge

    A shallow embedding of the schema-inference core of [tap_redash.py]
    (class [Redash]): [_singer_type_for_value], [_merge_schemas],
    [_infer_properties] and the stream-name part of
    [generate_stream_entry], together with the properties the
    specification states about them; then the reading of the responses
    ([_get_query_data], [_get_available_queries]), the catalog
    ([do_discover]) and the messages of [output_to_stream], with further
    properties of all of these.

    Python dictionaries are finite maps ([gmap]) keyed by strings: equality
    of maps is Python's [==] on dictionaries, which ignores insertion
    order.  The strings that the code only compares, sorts or puts
    together (dictionary keys, type tags, ids, addresses) are [string]s,
    ordered as Python orders them, lexicographically by code point.  The
    name of a query and the stream name made from it, which the code goes
    through character by character, are lists of Unicode code points, with
    the tables of [str.isalnum], [str.isupper] and [str.lower] of
    Unicode 14.0 (CPython 3.11); where such a name goes on into the
    catalog or a message it is the [string] of its UTF-8 bytes. *)

From Stdlib Require Import ZArith Ascii String OrderedTypeEx Sorting.Sorted.
From Stdlib Require Import Floats.SpecFloat DecimalString DecimalPos DecimalN.
From stdpp Require Import gmap strings list fin_maps sorting.

Set Warnings "-register-all".

(** ** [sorted(set(xs))] on lists of strings *)

Module PyStr.

(** Strict order on strings, by code point. *)
Definition lt (a b : string) : Prop := String.compare a b = Lt.

(** Insert [x] at its place in a strictly increasing list; an element
    already there is not inserted again. *)
Fixpoint insert_sorted (x : string) (l : list string) : list string :=
  match l with
  | [] => [x]
  | y :: l' =>
      match String.compare x y with
      | Lt => x :: y :: l'
      | Eq => y :: l'
      | Gt => y :: insert_sorted x l'
      end
  end.

(** [sorted(set(xs))]: the elements of [xs], each once, in increasing
    order. *)
Definition sorted_set (xs : list string) : list string :=
  foldr insert_sorted [] xs.

(** [str(n)] for a natural number: its decimal digits. *)
Definition str (n : N) : string := NilZero.string_of_uint (N.to_uint n).

End PyStr.

(** ** Unicode strings: [str.isalnum], [str.lower], [str.replace] *)

Module PyUnicode.

(** The code points [c] with [chr(c).isalnum()], as ranges [(first, last)]. *)
Definition alnum_ranges : list (N * N) :=
  [
   (0x30, 0x39); (0x41, 0x5A); (0x61, 0x7A); (0xAA, 0xAA); (0xB2, 0xB3);
   (0xB5, 0xB5); (0xB9, 0xBA); (0xBC, 0xBE); (0xC0, 0xD6); (0xD8, 0xF6);
   (0xF8, 0x2C1); (0x2C6, 0x2D1); (0x2E0, 0x2E4); (0x2EC, 0x2EC);
   (0x2EE, 0x2EE); (0x370, 0x374); (0x376, 0x377); (0x37A, 0x37D);
   (0x37F, 0x37F); (0x386, 0x386); (0x388, 0x38A); (0x38C, 0x38C);
   (0x38E, 0x3A1); (0x3A3, 0x3F5); (0x3F7, 0x481); (0x48A, 0x52F);
   (0x531, 0x556); (0x559, 0x559); (0x560, 0x588); (0x5D0, 0x5EA);
   (0x5EF, 0x5F2); (0x620, 0x64A); (0x660, 0x669); (0x66E, 0x66F);
   (0x671, 0x6D3); (0x6D5, 0x6D5); (0x6E5, 0x6E6); (0x6EE, 0x6FC);
   (0x6FF, 0x6FF); (0x710, 0x710); (0x712, 0x72F); (0x74D, 0x7A5);
   (0x7B1, 0x7B1); (0x7C0, 0x7EA); (0x7F4, 0x7F5); (0x7FA, 0x7FA);
   (0x800, 0x815); (0x81A, 0x81A); (0x824, 0x824); (0x828, 0x828);
   (0x840, 0x858); (0x860, 0x86A); (0x870, 0x887); (0x889, 0x88E);
   (0x8A0, 0x8C9); (0x904, 0x939); (0x93D, 0x93D); (0x950, 0x950);
   (0x958, 0x961); (0x966, 0x96F); (0x971, 0x980); (0x985, 0x98C);
   (0x98F, 0x990); (0x993, 0x9A8); (0x9AA, 0x9B0); (0x9B2, 0x9B2);
   (0x9B6, 0x9B9); (0x9BD, 0x9BD); (0x9CE, 0x9CE); (0x9DC, 0x9DD);
   (0x9DF, 0x9E1); (0x9E6, 0x9F1); (0x9F4, 0x9F9); (0x9FC, 0x9FC);
   (0xA05, 0xA0A); (0xA0F, 0xA10); (0xA13, 0xA28); (0xA2A, 0xA30);
   (0xA32, 0xA33); (0xA35, 0xA36); (0xA38, 0xA39); (0xA59, 0xA5C);
   (0xA5E, 0xA5E); (0xA66, 0xA6F); (0xA72, 0xA74); (0xA85, 0xA8D);
   (0xA8F, 0xA91); (0xA93, 0xAA8); (0xAAA, 0xAB0); (0xAB2, 0xAB3);
   (0xAB5, 0xAB9); (0xABD, 0xABD); (0xAD0, 0xAD0); (0xAE0, 0xAE1);
   (0xAE6, 0xAEF); (0xAF9, 0xAF9); (0xB05, 0xB0C); (0xB0F, 0xB10);
   (0xB13, 0xB28); (0xB2A, 0xB30); (0xB32, 0xB33); (0xB35, 0xB39);
   (0xB3D, 0xB3D); (0xB5C, 0xB5D); (0xB5F, 0xB61); (0xB66, 0xB6F);
   (0xB71, 0xB77); (0xB83, 0xB83); (0xB85, 0xB8A); (0xB8E, 0xB90);
   (0xB92, 0xB95); (0xB99, 0xB9A); (0xB9C, 0xB9C); (0xB9E, 0xB9F);
   (0xBA3, 0xBA4); (0xBA8, 0xBAA); (0xBAE, 0xBB9); (0xBD0, 0xBD0);
   (0xBE6, 0xBF2); (0xC05, 0xC0C); (0xC0E, 0xC10); (0xC12, 0xC28);
   (0xC2A, 0xC39); (0xC3D, 0xC3D); (0xC58, 0xC5A); (0xC5D, 0xC5D);
   (0xC60, 0xC61); (0xC66, 0xC6F); (0xC78, 0xC7E); (0xC80, 0xC80);
   (0xC85, 0xC8C); (0xC8E, 0xC90); (0xC92, 0xCA8); (0xCAA, 0xCB3);
   (0xCB5, 0xCB9); (0xCBD, 0xCBD); (0xCDD, 0xCDE); (0xCE0, 0xCE1);
   (0xCE6, 0xCEF); (0xCF1, 0xCF2); (0xD04, 0xD0C); (0xD0E, 0xD10);
   (0xD12, 0xD3A); (0xD3D, 0xD3D); (0xD4E, 0xD4E); (0xD54, 0xD56);
   (0xD58, 0xD61); (0xD66, 0xD78); (0xD7A, 0xD7F); (0xD85, 0xD96);
   (0xD9A, 0xDB1); (0xDB3, 0xDBB); (0xDBD, 0xDBD); (0xDC0, 0xDC6);
   (0xDE6, 0xDEF); (0xE01, 0xE30); (0xE32, 0xE33); (0xE40, 0xE46);
   (0xE50, 0xE59); (0xE81, 0xE82); (0xE84, 0xE84); (0xE86, 0xE8A);
   (0xE8C, 0xEA3); (0xEA5, 0xEA5); (0xEA7, 0xEB0); (0xEB2, 0xEB3);
   (0xEBD, 0xEBD); (0xEC0, 0xEC4); (0xEC6, 0xEC6); (0xED0, 0xED9);
   (0xEDC, 0xEDF); (0xF00, 0xF00); (0xF20, 0xF33); (0xF40, 0xF47);
   (0xF49, 0xF6C); (0xF88, 0xF8C); (0x1000, 0x102A); (0x103F, 0x1049);
   (0x1050, 0x1055); (0x105A, 0x105D); (0x1061, 0x1061); (0x1065, 0x1066);
   (0x106E, 0x1070); (0x1075, 0x1081); (0x108E, 0x108E); (0x1090, 0x1099);
   (0x10A0, 0x10C5); (0x10C7, 0x10C7); (0x10CD, 0x10CD); (0x10D0, 0x10FA);
   (0x10FC, 0x1248); (0x124A, 0x124D); (0x1250, 0x1256); (0x1258, 0x1258);
   (0x125A, 0x125D); (0x1260, 0x1288); (0x128A, 0x128D); (0x1290, 0x12B0);
   (0x12B2, 0x12B5); (0x12B8, 0x12BE); (0x12C0, 0x12C0); (0x12C2, 0x12C5);
   (0x12C8, 0x12D6); (0x12D8, 0x1310); (0x1312, 0x1315); (0x1318, 0x135A);
   (0x1369, 0x137C); (0x1380, 0x138F); (0x13A0, 0x13F5); (0x13F8, 0x13FD);
   (0x1401, 0x166C); (0x166F, 0x167F); (0x1681, 0x169A); (0x16A0, 0x16EA);
   (0x16EE, 0x16F8); (0x1700, 0x1711); (0x171F, 0x1731); (0x1740, 0x1751);
   (0x1760, 0x176C); (0x176E, 0x1770); (0x1780, 0x17B3); (0x17D7, 0x17D7);
   (0x17DC, 0x17DC); (0x17E0, 0x17E9); (0x17F0, 0x17F9); (0x1810, 0x1819);
   (0x1820, 0x1878); (0x1880, 0x1884); (0x1887, 0x18A8); (0x18AA, 0x18AA);
   (0x18B0, 0x18F5); (0x1900, 0x191E); (0x1946, 0x196D); (0x1970, 0x1974);
   (0x1980, 0x19AB); (0x19B0, 0x19C9); (0x19D0, 0x19DA); (0x1A00, 0x1A16);
   (0x1A20, 0x1A54); (0x1A80, 0x1A89); (0x1A90, 0x1A99); (0x1AA7, 0x1AA7);
   (0x1B05, 0x1B33); (0x1B45, 0x1B4C); (0x1B50, 0x1B59); (0x1B83, 0x1BA0);
   (0x1BAE, 0x1BE5); (0x1C00, 0x1C23); (0x1C40, 0x1C49); (0x1C4D, 0x1C7D);
   (0x1C80, 0x1C88); (0x1C90, 0x1CBA); (0x1CBD, 0x1CBF); (0x1CE9, 0x1CEC);
   (0x1CEE, 0x1CF3); (0x1CF5, 0x1CF6); (0x1CFA, 0x1CFA); (0x1D00, 0x1DBF);
   (0x1E00, 0x1F15); (0x1F18, 0x1F1D); (0x1F20, 0x1F45); (0x1F48, 0x1F4D);
   (0x1F50, 0x1F57); (0x1F59, 0x1F59); (0x1F5B, 0x1F5B); (0x1F5D, 0x1F5D);
   (0x1F5F, 0x1F7D); (0x1F80, 0x1FB4); (0x1FB6, 0x1FBC); (0x1FBE, 0x1FBE);
   (0x1FC2, 0x1FC4); (0x1FC6, 0x1FCC); (0x1FD0, 0x1FD3); (0x1FD6, 0x1FDB);
   (0x1FE0, 0x1FEC); (0x1FF2, 0x1FF4); (0x1FF6, 0x1FFC); (0x2070, 0x2071);
   (0x2074, 0x2079); (0x207F, 0x2089); (0x2090, 0x209C); (0x2102, 0x2102);
   (0x2107, 0x2107); (0x210A, 0x2113); (0x2115, 0x2115); (0x2119, 0x211D);
   (0x2124, 0x2124); (0x2126, 0x2126); (0x2128, 0x2128); (0x212A, 0x212D);
   (0x212F, 0x2139); (0x213C, 0x213F); (0x2145, 0x2149); (0x214E, 0x214E);
   (0x2150, 0x2189); (0x2460, 0x249B); (0x24EA, 0x24FF); (0x2776, 0x2793);
   (0x2C00, 0x2CE4); (0x2CEB, 0x2CEE); (0x2CF2, 0x2CF3); (0x2CFD, 0x2CFD);
   (0x2D00, 0x2D25); (0x2D27, 0x2D27); (0x2D2D, 0x2D2D); (0x2D30, 0x2D67);
   (0x2D6F, 0x2D6F); (0x2D80, 0x2D96); (0x2DA0, 0x2DA6); (0x2DA8, 0x2DAE);
   (0x2DB0, 0x2DB6); (0x2DB8, 0x2DBE); (0x2DC0, 0x2DC6); (0x2DC8, 0x2DCE);
   (0x2DD0, 0x2DD6); (0x2DD8, 0x2DDE); (0x2E2F, 0x2E2F); (0x3005, 0x3007);
   (0x3021, 0x3029); (0x3031, 0x3035); (0x3038, 0x303C); (0x3041, 0x3096);
   (0x309D, 0x309F); (0x30A1, 0x30FA); (0x30FC, 0x30FF); (0x3105, 0x312F);
   (0x3131, 0x318E); (0x3192, 0x3195); (0x31A0, 0x31BF); (0x31F0, 0x31FF);
   (0x3220, 0x3229); (0x3248, 0x324F); (0x3251, 0x325F); (0x3280, 0x3289);
   (0x32B1, 0x32BF); (0x3400, 0x4DBF); (0x4E00, 0xA48C); (0xA4D0, 0xA4FD);
   (0xA500, 0xA60C); (0xA610, 0xA62B); (0xA640, 0xA66E); (0xA67F, 0xA69D);
   (0xA6A0, 0xA6EF); (0xA717, 0xA71F); (0xA722, 0xA788); (0xA78B, 0xA7CA);
   (0xA7D0, 0xA7D1); (0xA7D3, 0xA7D3); (0xA7D5, 0xA7D9); (0xA7F2, 0xA801);
   (0xA803, 0xA805); (0xA807, 0xA80A); (0xA80C, 0xA822); (0xA830, 0xA835);
   (0xA840, 0xA873); (0xA882, 0xA8B3); (0xA8D0, 0xA8D9); (0xA8F2, 0xA8F7);
   (0xA8FB, 0xA8FB); (0xA8FD, 0xA8FE); (0xA900, 0xA925); (0xA930, 0xA946);
   (0xA960, 0xA97C); (0xA984, 0xA9B2); (0xA9CF, 0xA9D9); (0xA9E0, 0xA9E4);
   (0xA9E6, 0xA9FE); (0xAA00, 0xAA28); (0xAA40, 0xAA42); (0xAA44, 0xAA4B);
   (0xAA50, 0xAA59); (0xAA60, 0xAA76); (0xAA7A, 0xAA7A); (0xAA7E, 0xAAAF);
   (0xAAB1, 0xAAB1); (0xAAB5, 0xAAB6); (0xAAB9, 0xAABD); (0xAAC0, 0xAAC0);
   (0xAAC2, 0xAAC2); (0xAADB, 0xAADD); (0xAAE0, 0xAAEA); (0xAAF2, 0xAAF4);
   (0xAB01, 0xAB06); (0xAB09, 0xAB0E); (0xAB11, 0xAB16); (0xAB20, 0xAB26);
   (0xAB28, 0xAB2E); (0xAB30, 0xAB5A); (0xAB5C, 0xAB69); (0xAB70, 0xABE2);
   (0xABF0, 0xABF9); (0xAC00, 0xD7A3); (0xD7B0, 0xD7C6); (0xD7CB, 0xD7FB);
   (0xF900, 0xFA6D); (0xFA70, 0xFAD9); (0xFB00, 0xFB06); (0xFB13, 0xFB17);
   (0xFB1D, 0xFB1D); (0xFB1F, 0xFB28); (0xFB2A, 0xFB36); (0xFB38, 0xFB3C);
   (0xFB3E, 0xFB3E); (0xFB40, 0xFB41); (0xFB43, 0xFB44); (0xFB46, 0xFBB1);
   (0xFBD3, 0xFD3D); (0xFD50, 0xFD8F); (0xFD92, 0xFDC7); (0xFDF0, 0xFDFB);
   (0xFE70, 0xFE74); (0xFE76, 0xFEFC); (0xFF10, 0xFF19); (0xFF21, 0xFF3A);
   (0xFF41, 0xFF5A); (0xFF66, 0xFFBE); (0xFFC2, 0xFFC7); (0xFFCA, 0xFFCF);
   (0xFFD2, 0xFFD7); (0xFFDA, 0xFFDC); (0x10000, 0x1000B); (0x1000D, 0x10026);
   (0x10028, 0x1003A); (0x1003C, 0x1003D); (0x1003F, 0x1004D);
   (0x10050, 0x1005D); (0x10080, 0x100FA); (0x10107, 0x10133);
   (0x10140, 0x10178); (0x1018A, 0x1018B); (0x10280, 0x1029C);
   (0x102A0, 0x102D0); (0x102E1, 0x102FB); (0x10300, 0x10323);
   (0x1032D, 0x1034A); (0x10350, 0x10375); (0x10380, 0x1039D);
   (0x103A0, 0x103C3); (0x103C8, 0x103CF); (0x103D1, 0x103D5);
   (0x10400, 0x1049D); (0x104A0, 0x104A9); (0x104B0, 0x104D3);
   (0x104D8, 0x104FB); (0x10500, 0x10527); (0x10530, 0x10563);
   (0x10570, 0x1057A); (0x1057C, 0x1058A); (0x1058C, 0x10592);
   (0x10594, 0x10595); (0x10597, 0x105A1); (0x105A3, 0x105B1);
   (0x105B3, 0x105B9); (0x105BB, 0x105BC); (0x10600, 0x10736);
   (0x10740, 0x10755); (0x10760, 0x10767); (0x10780, 0x10785);
   (0x10787, 0x107B0); (0x107B2, 0x107BA); (0x10800, 0x10805);
   (0x10808, 0x10808); (0x1080A, 0x10835); (0x10837, 0x10838);
   (0x1083C, 0x1083C); (0x1083F, 0x10855); (0x10858, 0x10876);
   (0x10879, 0x1089E); (0x108A7, 0x108AF); (0x108E0, 0x108F2);
   (0x108F4, 0x108F5); (0x108FB, 0x1091B); (0x10920, 0x10939);
   (0x10980, 0x109B7); (0x109BC, 0x109CF); (0x109D2, 0x10A00);
   (0x10A10, 0x10A13); (0x10A15, 0x10A17); (0x10A19, 0x10A35);
   (0x10A40, 0x10A48); (0x10A60, 0x10A7E); (0x10A80, 0x10A9F);
   (0x10AC0, 0x10AC7); (0x10AC9, 0x10AE4); (0x10AEB, 0x10AEF);
   (0x10B00, 0x10B35); (0x10B40, 0x10B55); (0x10B58, 0x10B72);
   (0x10B78, 0x10B91); (0x10BA9, 0x10BAF); (0x10C00, 0x10C48);
   (0x10C80, 0x10CB2); (0x10CC0, 0x10CF2); (0x10CFA, 0x10D23);
   (0x10D30, 0x10D39); (0x10E60, 0x10E7E); (0x10E80, 0x10EA9);
   (0x10EB0, 0x10EB1); (0x10F00, 0x10F27); (0x10F30, 0x10F45);
   (0x10F51, 0x10F54); (0x10F70, 0x10F81); (0x10FB0, 0x10FCB);
   (0x10FE0, 0x10FF6); (0x11003, 0x11037); (0x11052, 0x1106F);
   (0x11071, 0x11072); (0x11075, 0x11075); (0x11083, 0x110AF);
   (0x110D0, 0x110E8); (0x110F0, 0x110F9); (0x11103, 0x11126);
   (0x11136, 0x1113F); (0x11144, 0x11144); (0x11147, 0x11147);
   (0x11150, 0x11172); (0x11176, 0x11176); (0x11183, 0x111B2);
   (0x111C1, 0x111C4); (0x111D0, 0x111DA); (0x111DC, 0x111DC);
   (0x111E1, 0x111F4); (0x11200, 0x11211); (0x11213, 0x1122B);
   (0x11280, 0x11286); (0x11288, 0x11288); (0x1128A, 0x1128D);
   (0x1128F, 0x1129D); (0x1129F, 0x112A8); (0x112B0, 0x112DE);
   (0x112F0, 0x112F9); (0x11305, 0x1130C); (0x1130F, 0x11310);
   (0x11313, 0x11328); (0x1132A, 0x11330); (0x11332, 0x11333);
   (0x11335, 0x11339); (0x1133D, 0x1133D); (0x11350, 0x11350);
   (0x1135D, 0x11361); (0x11400, 0x11434); (0x11447, 0x1144A);
   (0x11450, 0x11459); (0x1145F, 0x11461); (0x11480, 0x114AF);
   (0x114C4, 0x114C5); (0x114C7, 0x114C7); (0x114D0, 0x114D9);
   (0x11580, 0x115AE); (0x115D8, 0x115DB); (0x11600, 0x1162F);
   (0x11644, 0x11644); (0x11650, 0x11659); (0x11680, 0x116AA);
   (0x116B8, 0x116B8); (0x116C0, 0x116C9); (0x11700, 0x1171A);
   (0x11730, 0x1173B); (0x11740, 0x11746); (0x11800, 0x1182B);
   (0x118A0, 0x118F2); (0x118FF, 0x11906); (0x11909, 0x11909);
   (0x1190C, 0x11913); (0x11915, 0x11916); (0x11918, 0x1192F);
   (0x1193F, 0x1193F); (0x11941, 0x11941); (0x11950, 0x11959);
   (0x119A0, 0x119A7); (0x119AA, 0x119D0); (0x119E1, 0x119E1);
   (0x119E3, 0x119E3); (0x11A00, 0x11A00); (0x11A0B, 0x11A32);
   (0x11A3A, 0x11A3A); (0x11A50, 0x11A50); (0x11A5C, 0x11A89);
   (0x11A9D, 0x11A9D); (0x11AB0, 0x11AF8); (0x11C00, 0x11C08);
   (0x11C0A, 0x11C2E); (0x11C40, 0x11C40); (0x11C50, 0x11C6C);
   (0x11C72, 0x11C8F); (0x11D00, 0x11D06); (0x11D08, 0x11D09);
   (0x11D0B, 0x11D30); (0x11D46, 0x11D46); (0x11D50, 0x11D59);
   (0x11D60, 0x11D65); (0x11D67, 0x11D68); (0x11D6A, 0x11D89);
   (0x11D98, 0x11D98); (0x11DA0, 0x11DA9); (0x11EE0, 0x11EF2);
   (0x11FB0, 0x11FB0); (0x11FC0, 0x11FD4); (0x12000, 0x12399);
   (0x12400, 0x1246E); (0x12480, 0x12543); (0x12F90, 0x12FF0);
   (0x13000, 0x1342E); (0x14400, 0x14646); (0x16800, 0x16A38);
   (0x16A40, 0x16A5E); (0x16A60, 0x16A69); (0x16A70, 0x16ABE);
   (0x16AC0, 0x16AC9); (0x16AD0, 0x16AED); (0x16B00, 0x16B2F);
   (0x16B40, 0x16B43); (0x16B50, 0x16B59); (0x16B5B, 0x16B61);
   (0x16B63, 0x16B77); (0x16B7D, 0x16B8F); (0x16E40, 0x16E96);
   (0x16F00, 0x16F4A); (0x16F50, 0x16F50); (0x16F93, 0x16F9F);
   (0x16FE0, 0x16FE1); (0x16FE3, 0x16FE3); (0x17000, 0x187F7);
   (0x18800, 0x18CD5); (0x18D00, 0x18D08); (0x1AFF0, 0x1AFF3);
   (0x1AFF5, 0x1AFFB); (0x1AFFD, 0x1AFFE); (0x1B000, 0x1B122);
   (0x1B150, 0x1B152); (0x1B164, 0x1B167); (0x1B170, 0x1B2FB);
   (0x1BC00, 0x1BC6A); (0x1BC70, 0x1BC7C); (0x1BC80, 0x1BC88);
   (0x1BC90, 0x1BC99); (0x1D2E0, 0x1D2F3); (0x1D360, 0x1D378);
   (0x1D400, 0x1D454); (0x1D456, 0x1D49C); (0x1D49E, 0x1D49F);
   (0x1D4A2, 0x1D4A2); (0x1D4A5, 0x1D4A6); (0x1D4A9, 0x1D4AC);
   (0x1D4AE, 0x1D4B9); (0x1D4BB, 0x1D4BB); (0x1D4BD, 0x1D4C3);
   (0x1D4C5, 0x1D505); (0x1D507, 0x1D50A); (0x1D50D, 0x1D514);
   (0x1D516, 0x1D51C); (0x1D51E, 0x1D539); (0x1D53B, 0x1D53E);
   (0x1D540, 0x1D544); (0x1D546, 0x1D546); (0x1D54A, 0x1D550);
   (0x1D552, 0x1D6A5); (0x1D6A8, 0x1D6C0); (0x1D6C2, 0x1D6DA);
   (0x1D6DC, 0x1D6FA); (0x1D6FC, 0x1D714); (0x1D716, 0x1D734);
   (0x1D736, 0x1D74E); (0x1D750, 0x1D76E); (0x1D770, 0x1D788);
   (0x1D78A, 0x1D7A8); (0x1D7AA, 0x1D7C2); (0x1D7C4, 0x1D7CB);
   (0x1D7CE, 0x1D7FF); (0x1DF00, 0x1DF1E); (0x1E100, 0x1E12C);
   (0x1E137, 0x1E13D); (0x1E140, 0x1E149); (0x1E14E, 0x1E14E);
   (0x1E290, 0x1E2AD); (0x1E2C0, 0x1E2EB); (0x1E2F0, 0x1E2F9);
   (0x1E7E0, 0x1E7E6); (0x1E7E8, 0x1E7EB); (0x1E7ED, 0x1E7EE);
   (0x1E7F0, 0x1E7FE); (0x1E800, 0x1E8C4); (0x1E8C7, 0x1E8CF);
   (0x1E900, 0x1E943); (0x1E94B, 0x1E94B); (0x1E950, 0x1E959);
   (0x1EC71, 0x1ECAB); (0x1ECAD, 0x1ECAF); (0x1ECB1, 0x1ECB4);
   (0x1ED01, 0x1ED2D); (0x1ED2F, 0x1ED3D); (0x1EE00, 0x1EE03);
   (0x1EE05, 0x1EE1F); (0x1EE21, 0x1EE22); (0x1EE24, 0x1EE24);
   (0x1EE27, 0x1EE27); (0x1EE29, 0x1EE32); (0x1EE34, 0x1EE37);
   (0x1EE39, 0x1EE39); (0x1EE3B, 0x1EE3B); (0x1EE42, 0x1EE42);
   (0x1EE47, 0x1EE47); (0x1EE49, 0x1EE49); (0x1EE4B, 0x1EE4B);
   (0x1EE4D, 0x1EE4F); (0x1EE51, 0x1EE52); (0x1EE54, 0x1EE54);
   (0x1EE57, 0x1EE57); (0x1EE59, 0x1EE59); (0x1EE5B, 0x1EE5B);
   (0x1EE5D, 0x1EE5D); (0x1EE5F, 0x1EE5F); (0x1EE61, 0x1EE62);
   (0x1EE64, 0x1EE64); (0x1EE67, 0x1EE6A); (0x1EE6C, 0x1EE72);
   (0x1EE74, 0x1EE77); (0x1EE79, 0x1EE7C); (0x1EE7E, 0x1EE7E);
   (0x1EE80, 0x1EE89); (0x1EE8B, 0x1EE9B); (0x1EEA1, 0x1EEA3);
   (0x1EEA5, 0x1EEA9); (0x1EEAB, 0x1EEBB); (0x1F100, 0x1F10C);
   (0x1FBF0, 0x1FBF9); (0x20000, 0x2A6DF); (0x2A700, 0x2B738);
   (0x2B740, 0x2B81D); (0x2B820, 0x2CEA1); (0x2CEB0, 0x2EBE0);
   (0x2F800, 0x2FA1D); (0x30000, 0x3134A)
  ]%N.

(** The code points [c] with [chr(c).isupper()], as runs
    [(first, last, step)]. *)
Definition upper_runs : list (N * N * N) :=
  [
   (0x41, 0x5A, 0x1); (0xC0, 0xD6, 0x1); (0xD8, 0xDE, 0x1);
   (0x100, 0x136, 0x2); (0x139, 0x147, 0x2); (0x14A, 0x178, 0x2);
   (0x179, 0x17D, 0x2); (0x181, 0x182, 0x1); (0x184, 0x186, 0x2);
   (0x187, 0x189, 0x2); (0x18A, 0x18B, 0x1); (0x18E, 0x191, 0x1);
   (0x193, 0x194, 0x1); (0x196, 0x198, 0x1); (0x19C, 0x19D, 0x1);
   (0x19F, 0x1A0, 0x1); (0x1A2, 0x1A6, 0x2); (0x1A7, 0x1A9, 0x2);
   (0x1AC, 0x1AE, 0x2); (0x1AF, 0x1B1, 0x2); (0x1B2, 0x1B3, 0x1);
   (0x1B5, 0x1B7, 0x2); (0x1B8, 0x1B8, 0x1); (0x1BC, 0x1BC, 0x1);
   (0x1C4, 0x1C4, 0x1); (0x1C7, 0x1C7, 0x1); (0x1CA, 0x1CA, 0x1);
   (0x1CD, 0x1DB, 0x2); (0x1DE, 0x1EE, 0x2); (0x1F1, 0x1F1, 0x1);
   (0x1F4, 0x1F6, 0x2); (0x1F7, 0x1F8, 0x1); (0x1FA, 0x232, 0x2);
   (0x23A, 0x23B, 0x1); (0x23D, 0x23E, 0x1); (0x241, 0x243, 0x2);
   (0x244, 0x246, 0x1); (0x248, 0x24E, 0x2); (0x370, 0x372, 0x2);
   (0x376, 0x376, 0x1); (0x37F, 0x37F, 0x1); (0x386, 0x388, 0x2);
   (0x389, 0x38A, 0x1); (0x38C, 0x38E, 0x2); (0x38F, 0x391, 0x2);
   (0x392, 0x3A1, 0x1); (0x3A3, 0x3AB, 0x1); (0x3CF, 0x3CF, 0x1);
   (0x3D2, 0x3D4, 0x1); (0x3D8, 0x3EE, 0x2); (0x3F4, 0x3F4, 0x1);
   (0x3F7, 0x3F9, 0x2); (0x3FA, 0x3FA, 0x1); (0x3FD, 0x42F, 0x1);
   (0x460, 0x480, 0x2); (0x48A, 0x4C0, 0x2); (0x4C1, 0x4CD, 0x2);
   (0x4D0, 0x52E, 0x2); (0x531, 0x556, 0x1); (0x10A0, 0x10C5, 0x1);
   (0x10C7, 0x10C7, 0x1); (0x10CD, 0x10CD, 0x1); (0x13A0, 0x13F5, 0x1);
   (0x1C90, 0x1CBA, 0x1); (0x1CBD, 0x1CBF, 0x1); (0x1E00, 0x1E94, 0x2);
   (0x1E9E, 0x1EFE, 0x2); (0x1F08, 0x1F0F, 0x1); (0x1F18, 0x1F1D, 0x1);
   (0x1F28, 0x1F2F, 0x1); (0x1F38, 0x1F3F, 0x1); (0x1F48, 0x1F4D, 0x1);
   (0x1F59, 0x1F5F, 0x2); (0x1F68, 0x1F6F, 0x1); (0x1FB8, 0x1FBB, 0x1);
   (0x1FC8, 0x1FCB, 0x1); (0x1FD8, 0x1FDB, 0x1); (0x1FE8, 0x1FEC, 0x1);
   (0x1FF8, 0x1FFB, 0x1); (0x2102, 0x2102, 0x1); (0x2107, 0x2107, 0x1);
   (0x210B, 0x210D, 0x1); (0x2110, 0x2112, 0x1); (0x2115, 0x2115, 0x1);
   (0x2119, 0x211D, 0x1); (0x2124, 0x212A, 0x2); (0x212B, 0x212D, 0x1);
   (0x2130, 0x2133, 0x1); (0x213E, 0x213F, 0x1); (0x2145, 0x2145, 0x1);
   (0x2160, 0x216F, 0x1); (0x2183, 0x2183, 0x1); (0x24B6, 0x24CF, 0x1);
   (0x2C00, 0x2C2F, 0x1); (0x2C60, 0x2C62, 0x2); (0x2C63, 0x2C64, 0x1);
   (0x2C67, 0x2C6D, 0x2); (0x2C6E, 0x2C70, 0x1); (0x2C72, 0x2C72, 0x1);
   (0x2C75, 0x2C75, 0x1); (0x2C7E, 0x2C80, 0x1); (0x2C82, 0x2CE2, 0x2);
   (0x2CEB, 0x2CED, 0x2); (0x2CF2, 0x2CF2, 0x1); (0xA640, 0xA66C, 0x2);
   (0xA680, 0xA69A, 0x2); (0xA722, 0xA72E, 0x2); (0xA732, 0xA76E, 0x2);
   (0xA779, 0xA77D, 0x2); (0xA77E, 0xA786, 0x2); (0xA78B, 0xA78D, 0x2);
   (0xA790, 0xA792, 0x2); (0xA796, 0xA7AA, 0x2); (0xA7AB, 0xA7AE, 0x1);
   (0xA7B0, 0xA7B4, 0x1); (0xA7B6, 0xA7C4, 0x2); (0xA7C5, 0xA7C7, 0x1);
   (0xA7C9, 0xA7C9, 0x1); (0xA7D0, 0xA7D0, 0x1); (0xA7D6, 0xA7D8, 0x2);
   (0xA7F5, 0xA7F5, 0x1); (0xFF21, 0xFF3A, 0x1); (0x10400, 0x10427, 0x1);
   (0x104B0, 0x104D3, 0x1); (0x10570, 0x1057A, 0x1); (0x1057C, 0x1058A, 0x1);
   (0x1058C, 0x10592, 0x1); (0x10594, 0x10595, 0x1); (0x10C80, 0x10CB2, 0x1);
   (0x118A0, 0x118BF, 0x1); (0x16E40, 0x16E5F, 0x1); (0x1D400, 0x1D419, 0x1);
   (0x1D434, 0x1D44D, 0x1); (0x1D468, 0x1D481, 0x1); (0x1D49C, 0x1D49E, 0x2);
   (0x1D49F, 0x1D49F, 0x1); (0x1D4A2, 0x1D4A2, 0x1); (0x1D4A5, 0x1D4A6, 0x1);
   (0x1D4A9, 0x1D4AC, 0x1); (0x1D4AE, 0x1D4B5, 0x1); (0x1D4D0, 0x1D4E9, 0x1);
   (0x1D504, 0x1D505, 0x1); (0x1D507, 0x1D50A, 0x1); (0x1D50D, 0x1D514, 0x1);
   (0x1D516, 0x1D51C, 0x1); (0x1D538, 0x1D539, 0x1); (0x1D53B, 0x1D53E, 0x1);
   (0x1D540, 0x1D544, 0x1); (0x1D546, 0x1D546, 0x1); (0x1D54A, 0x1D550, 0x1);
   (0x1D56C, 0x1D585, 0x1); (0x1D5A0, 0x1D5B9, 0x1); (0x1D5D4, 0x1D5ED, 0x1);
   (0x1D608, 0x1D621, 0x1); (0x1D63C, 0x1D655, 0x1); (0x1D670, 0x1D689, 0x1);
   (0x1D6A8, 0x1D6C0, 0x1); (0x1D6E2, 0x1D6FA, 0x1); (0x1D71C, 0x1D734, 0x1);
   (0x1D756, 0x1D76E, 0x1); (0x1D790, 0x1D7A8, 0x1); (0x1D7CA, 0x1D7CA, 0x1);
   (0x1E900, 0x1E921, 0x1); (0x1F130, 0x1F149, 0x1); (0x1F150, 0x1F169, 0x1);
   (0x1F170, 0x1F189, 0x1)
  ]%N.

(** The cased code points (lower case, upper case or title case), as
    ranges. *)
Definition cased_ranges : list (N * N) :=
  [
   (0x41, 0x5A); (0x61, 0x7A); (0xAA, 0xAA); (0xB5, 0xB5); (0xBA, 0xBA);
   (0xC0, 0xD6); (0xD8, 0xF6); (0xF8, 0x1BA); (0x1BC, 0x1BF); (0x1C4, 0x293);
   (0x295, 0x2B8); (0x2C0, 0x2C1); (0x2E0, 0x2E4); (0x345, 0x345);
   (0x370, 0x373); (0x376, 0x377); (0x37A, 0x37D); (0x37F, 0x37F);
   (0x386, 0x386); (0x388, 0x38A); (0x38C, 0x38C); (0x38E, 0x3A1);
   (0x3A3, 0x3F5); (0x3F7, 0x481); (0x48A, 0x52F); (0x531, 0x556);
   (0x560, 0x588); (0x10A0, 0x10C5); (0x10C7, 0x10C7); (0x10CD, 0x10CD);
   (0x10D0, 0x10FA); (0x10FD, 0x10FF); (0x13A0, 0x13F5); (0x13F8, 0x13FD);
   (0x1C80, 0x1C88); (0x1C90, 0x1CBA); (0x1CBD, 0x1CBF); (0x1D00, 0x1DBF);
   (0x1E00, 0x1F15); (0x1F18, 0x1F1D); (0x1F20, 0x1F45); (0x1F48, 0x1F4D);
   (0x1F50, 0x1F57); (0x1F59, 0x1F59); (0x1F5B, 0x1F5B); (0x1F5D, 0x1F5D);
   (0x1F5F, 0x1F7D); (0x1F80, 0x1FB4); (0x1FB6, 0x1FBC); (0x1FBE, 0x1FBE);
   (0x1FC2, 0x1FC4); (0x1FC6, 0x1FCC); (0x1FD0, 0x1FD3); (0x1FD6, 0x1FDB);
   (0x1FE0, 0x1FEC); (0x1FF2, 0x1FF4); (0x1FF6, 0x1FFC); (0x2071, 0x2071);
   (0x207F, 0x207F); (0x2090, 0x209C); (0x2102, 0x2102); (0x2107, 0x2107);
   (0x210A, 0x2113); (0x2115, 0x2115); (0x2119, 0x211D); (0x2124, 0x2124);
   (0x2126, 0x2126); (0x2128, 0x2128); (0x212A, 0x212D); (0x212F, 0x2134);
   (0x2139, 0x2139); (0x213C, 0x213F); (0x2145, 0x2149); (0x214E, 0x214E);
   (0x2160, 0x217F); (0x2183, 0x2184); (0x24B6, 0x24E9); (0x2C00, 0x2CE4);
   (0x2CEB, 0x2CEE); (0x2CF2, 0x2CF3); (0x2D00, 0x2D25); (0x2D27, 0x2D27);
   (0x2D2D, 0x2D2D); (0xA640, 0xA66D); (0xA680, 0xA69D); (0xA722, 0xA787);
   (0xA78B, 0xA78E); (0xA790, 0xA7CA); (0xA7D0, 0xA7D1); (0xA7D3, 0xA7D3);
   (0xA7D5, 0xA7D9); (0xA7F5, 0xA7F6); (0xA7F8, 0xA7FA); (0xAB30, 0xAB5A);
   (0xAB5C, 0xAB68); (0xAB70, 0xABBF); (0xFB00, 0xFB06); (0xFB13, 0xFB17);
   (0xFF21, 0xFF3A); (0xFF41, 0xFF5A); (0x10400, 0x1044F); (0x104B0, 0x104D3);
   (0x104D8, 0x104FB); (0x10570, 0x1057A); (0x1057C, 0x1058A);
   (0x1058C, 0x10592); (0x10594, 0x10595); (0x10597, 0x105A1);
   (0x105A3, 0x105B1); (0x105B3, 0x105B9); (0x105BB, 0x105BC);
   (0x10780, 0x10780); (0x10783, 0x10785); (0x10787, 0x107B0);
   (0x107B2, 0x107BA); (0x10C80, 0x10CB2); (0x10CC0, 0x10CF2);
   (0x118A0, 0x118DF); (0x16E40, 0x16E7F); (0x1D400, 0x1D454);
   (0x1D456, 0x1D49C); (0x1D49E, 0x1D49F); (0x1D4A2, 0x1D4A2);
   (0x1D4A5, 0x1D4A6); (0x1D4A9, 0x1D4AC); (0x1D4AE, 0x1D4B9);
   (0x1D4BB, 0x1D4BB); (0x1D4BD, 0x1D4C3); (0x1D4C5, 0x1D505);
   (0x1D507, 0x1D50A); (0x1D50D, 0x1D514); (0x1D516, 0x1D51C);
   (0x1D51E, 0x1D539); (0x1D53B, 0x1D53E); (0x1D540, 0x1D544);
   (0x1D546, 0x1D546); (0x1D54A, 0x1D550); (0x1D552, 0x1D6A5);
   (0x1D6A8, 0x1D6C0); (0x1D6C2, 0x1D6DA); (0x1D6DC, 0x1D6FA);
   (0x1D6FC, 0x1D714); (0x1D716, 0x1D734); (0x1D736, 0x1D74E);
   (0x1D750, 0x1D76E); (0x1D770, 0x1D788); (0x1D78A, 0x1D7A8);
   (0x1D7AA, 0x1D7C2); (0x1D7C4, 0x1D7CB); (0x1DF00, 0x1DF09);
   (0x1DF0B, 0x1DF1E); (0x1E900, 0x1E943); (0x1F130, 0x1F149);
   (0x1F150, 0x1F169); (0x1F170, 0x1F189)
  ]%N.

(** The case-ignorable code points, which the search for a cased letter
    around a capital sigma passes over, as ranges. *)
Definition case_ignorable_ranges : list (N * N) :=
  [
   (0x27, 0x27); (0x2E, 0x2E); (0x3A, 0x3A); (0x5E, 0x5E); (0x60, 0x60);
   (0xA8, 0xA8); (0xAD, 0xAD); (0xAF, 0xAF); (0xB4, 0xB4); (0xB7, 0xB8);
   (0x2B0, 0x36F); (0x374, 0x375); (0x37A, 0x37A); (0x384, 0x385);
   (0x387, 0x387); (0x483, 0x489); (0x559, 0x559); (0x55F, 0x55F);
   (0x591, 0x5BD); (0x5BF, 0x5BF); (0x5C1, 0x5C2); (0x5C4, 0x5C5);
   (0x5C7, 0x5C7); (0x5F4, 0x5F4); (0x600, 0x605); (0x610, 0x61A);
   (0x61C, 0x61C); (0x640, 0x640); (0x64B, 0x65F); (0x670, 0x670);
   (0x6D6, 0x6DD); (0x6DF, 0x6E8); (0x6EA, 0x6ED); (0x70F, 0x70F);
   (0x711, 0x711); (0x730, 0x74A); (0x7A6, 0x7B0); (0x7EB, 0x7F5);
   (0x7FA, 0x7FA); (0x7FD, 0x7FD); (0x816, 0x82D); (0x859, 0x85B);
   (0x888, 0x888); (0x890, 0x891); (0x898, 0x89F); (0x8C9, 0x902);
   (0x93A, 0x93A); (0x93C, 0x93C); (0x941, 0x948); (0x94D, 0x94D);
   (0x951, 0x957); (0x962, 0x963); (0x971, 0x971); (0x981, 0x981);
   (0x9BC, 0x9BC); (0x9C1, 0x9C4); (0x9CD, 0x9CD); (0x9E2, 0x9E3);
   (0x9FE, 0x9FE); (0xA01, 0xA02); (0xA3C, 0xA3C); (0xA41, 0xA42);
   (0xA47, 0xA48); (0xA4B, 0xA4D); (0xA51, 0xA51); (0xA70, 0xA71);
   (0xA75, 0xA75); (0xA81, 0xA82); (0xABC, 0xABC); (0xAC1, 0xAC5);
   (0xAC7, 0xAC8); (0xACD, 0xACD); (0xAE2, 0xAE3); (0xAFA, 0xAFF);
   (0xB01, 0xB01); (0xB3C, 0xB3C); (0xB3F, 0xB3F); (0xB41, 0xB44);
   (0xB4D, 0xB4D); (0xB55, 0xB56); (0xB62, 0xB63); (0xB82, 0xB82);
   (0xBC0, 0xBC0); (0xBCD, 0xBCD); (0xC00, 0xC00); (0xC04, 0xC04);
   (0xC3C, 0xC3C); (0xC3E, 0xC40); (0xC46, 0xC48); (0xC4A, 0xC4D);
   (0xC55, 0xC56); (0xC62, 0xC63); (0xC81, 0xC81); (0xCBC, 0xCBC);
   (0xCBF, 0xCBF); (0xCC6, 0xCC6); (0xCCC, 0xCCD); (0xCE2, 0xCE3);
   (0xD00, 0xD01); (0xD3B, 0xD3C); (0xD41, 0xD44); (0xD4D, 0xD4D);
   (0xD62, 0xD63); (0xD81, 0xD81); (0xDCA, 0xDCA); (0xDD2, 0xDD4);
   (0xDD6, 0xDD6); (0xE31, 0xE31); (0xE34, 0xE3A); (0xE46, 0xE4E);
   (0xEB1, 0xEB1); (0xEB4, 0xEBC); (0xEC6, 0xEC6); (0xEC8, 0xECD);
   (0xF18, 0xF19); (0xF35, 0xF35); (0xF37, 0xF37); (0xF39, 0xF39);
   (0xF71, 0xF7E); (0xF80, 0xF84); (0xF86, 0xF87); (0xF8D, 0xF97);
   (0xF99, 0xFBC); (0xFC6, 0xFC6); (0x102D, 0x1030); (0x1032, 0x1037);
   (0x1039, 0x103A); (0x103D, 0x103E); (0x1058, 0x1059); (0x105E, 0x1060);
   (0x1071, 0x1074); (0x1082, 0x1082); (0x1085, 0x1086); (0x108D, 0x108D);
   (0x109D, 0x109D); (0x10FC, 0x10FC); (0x135D, 0x135F); (0x1712, 0x1714);
   (0x1732, 0x1733); (0x1752, 0x1753); (0x1772, 0x1773); (0x17B4, 0x17B5);
   (0x17B7, 0x17BD); (0x17C6, 0x17C6); (0x17C9, 0x17D3); (0x17D7, 0x17D7);
   (0x17DD, 0x17DD); (0x180B, 0x180F); (0x1843, 0x1843); (0x1885, 0x1886);
   (0x18A9, 0x18A9); (0x1920, 0x1922); (0x1927, 0x1928); (0x1932, 0x1932);
   (0x1939, 0x193B); (0x1A17, 0x1A18); (0x1A1B, 0x1A1B); (0x1A56, 0x1A56);
   (0x1A58, 0x1A5E); (0x1A60, 0x1A60); (0x1A62, 0x1A62); (0x1A65, 0x1A6C);
   (0x1A73, 0x1A7C); (0x1A7F, 0x1A7F); (0x1AA7, 0x1AA7); (0x1AB0, 0x1ACE);
   (0x1B00, 0x1B03); (0x1B34, 0x1B34); (0x1B36, 0x1B3A); (0x1B3C, 0x1B3C);
   (0x1B42, 0x1B42); (0x1B6B, 0x1B73); (0x1B80, 0x1B81); (0x1BA2, 0x1BA5);
   (0x1BA8, 0x1BA9); (0x1BAB, 0x1BAD); (0x1BE6, 0x1BE6); (0x1BE8, 0x1BE9);
   (0x1BED, 0x1BED); (0x1BEF, 0x1BF1); (0x1C2C, 0x1C33); (0x1C36, 0x1C37);
   (0x1C78, 0x1C7D); (0x1CD0, 0x1CD2); (0x1CD4, 0x1CE0); (0x1CE2, 0x1CE8);
   (0x1CED, 0x1CED); (0x1CF4, 0x1CF4); (0x1CF8, 0x1CF9); (0x1D2C, 0x1D6A);
   (0x1D78, 0x1D78); (0x1D9B, 0x1DFF); (0x1FBD, 0x1FBD); (0x1FBF, 0x1FC1);
   (0x1FCD, 0x1FCF); (0x1FDD, 0x1FDF); (0x1FED, 0x1FEF); (0x1FFD, 0x1FFE);
   (0x200B, 0x200F); (0x2018, 0x2019); (0x2024, 0x2024); (0x2027, 0x2027);
   (0x202A, 0x202E); (0x2060, 0x2064); (0x2066, 0x206F); (0x2071, 0x2071);
   (0x207F, 0x207F); (0x2090, 0x209C); (0x20D0, 0x20F0); (0x2C7C, 0x2C7D);
   (0x2CEF, 0x2CF1); (0x2D6F, 0x2D6F); (0x2D7F, 0x2D7F); (0x2DE0, 0x2DFF);
   (0x2E2F, 0x2E2F); (0x3005, 0x3005); (0x302A, 0x302D); (0x3031, 0x3035);
   (0x303B, 0x303B); (0x3099, 0x309E); (0x30FC, 0x30FE); (0xA015, 0xA015);
   (0xA4F8, 0xA4FD); (0xA60C, 0xA60C); (0xA66F, 0xA672); (0xA674, 0xA67D);
   (0xA67F, 0xA67F); (0xA69C, 0xA69F); (0xA6F0, 0xA6F1); (0xA700, 0xA721);
   (0xA770, 0xA770); (0xA788, 0xA78A); (0xA7F2, 0xA7F4); (0xA7F8, 0xA7F9);
   (0xA802, 0xA802); (0xA806, 0xA806); (0xA80B, 0xA80B); (0xA825, 0xA826);
   (0xA82C, 0xA82C); (0xA8C4, 0xA8C5); (0xA8E0, 0xA8F1); (0xA8FF, 0xA8FF);
   (0xA926, 0xA92D); (0xA947, 0xA951); (0xA980, 0xA982); (0xA9B3, 0xA9B3);
   (0xA9B6, 0xA9B9); (0xA9BC, 0xA9BD); (0xA9CF, 0xA9CF); (0xA9E5, 0xA9E6);
   (0xAA29, 0xAA2E); (0xAA31, 0xAA32); (0xAA35, 0xAA36); (0xAA43, 0xAA43);
   (0xAA4C, 0xAA4C); (0xAA70, 0xAA70); (0xAA7C, 0xAA7C); (0xAAB0, 0xAAB0);
   (0xAAB2, 0xAAB4); (0xAAB7, 0xAAB8); (0xAABE, 0xAABF); (0xAAC1, 0xAAC1);
   (0xAADD, 0xAADD); (0xAAEC, 0xAAED); (0xAAF3, 0xAAF4); (0xAAF6, 0xAAF6);
   (0xAB5B, 0xAB5F); (0xAB69, 0xAB6B); (0xABE5, 0xABE5); (0xABE8, 0xABE8);
   (0xABED, 0xABED); (0xFB1E, 0xFB1E); (0xFBB2, 0xFBC2); (0xFE00, 0xFE0F);
   (0xFE13, 0xFE13); (0xFE20, 0xFE2F); (0xFE52, 0xFE52); (0xFE55, 0xFE55);
   (0xFEFF, 0xFEFF); (0xFF07, 0xFF07); (0xFF0E, 0xFF0E); (0xFF1A, 0xFF1A);
   (0xFF3E, 0xFF3E); (0xFF40, 0xFF40); (0xFF70, 0xFF70); (0xFF9E, 0xFF9F);
   (0xFFE3, 0xFFE3); (0xFFF9, 0xFFFB); (0x101FD, 0x101FD); (0x102E0, 0x102E0);
   (0x10376, 0x1037A); (0x10780, 0x10785); (0x10787, 0x107B0);
   (0x107B2, 0x107BA); (0x10A01, 0x10A03); (0x10A05, 0x10A06);
   (0x10A0C, 0x10A0F); (0x10A38, 0x10A3A); (0x10A3F, 0x10A3F);
   (0x10AE5, 0x10AE6); (0x10D24, 0x10D27); (0x10EAB, 0x10EAC);
   (0x10F46, 0x10F50); (0x10F82, 0x10F85); (0x11001, 0x11001);
   (0x11038, 0x11046); (0x11070, 0x11070); (0x11073, 0x11074);
   (0x1107F, 0x11081); (0x110B3, 0x110B6); (0x110B9, 0x110BA);
   (0x110BD, 0x110BD); (0x110C2, 0x110C2); (0x110CD, 0x110CD);
   (0x11100, 0x11102); (0x11127, 0x1112B); (0x1112D, 0x11134);
   (0x11173, 0x11173); (0x11180, 0x11181); (0x111B6, 0x111BE);
   (0x111C9, 0x111CC); (0x111CF, 0x111CF); (0x1122F, 0x11231);
   (0x11234, 0x11234); (0x11236, 0x11237); (0x1123E, 0x1123E);
   (0x112DF, 0x112DF); (0x112E3, 0x112EA); (0x11300, 0x11301);
   (0x1133B, 0x1133C); (0x11340, 0x11340); (0x11366, 0x1136C);
   (0x11370, 0x11374); (0x11438, 0x1143F); (0x11442, 0x11444);
   (0x11446, 0x11446); (0x1145E, 0x1145E); (0x114B3, 0x114B8);
   (0x114BA, 0x114BA); (0x114BF, 0x114C0); (0x114C2, 0x114C3);
   (0x115B2, 0x115B5); (0x115BC, 0x115BD); (0x115BF, 0x115C0);
   (0x115DC, 0x115DD); (0x11633, 0x1163A); (0x1163D, 0x1163D);
   (0x1163F, 0x11640); (0x116AB, 0x116AB); (0x116AD, 0x116AD);
   (0x116B0, 0x116B5); (0x116B7, 0x116B7); (0x1171D, 0x1171F);
   (0x11722, 0x11725); (0x11727, 0x1172B); (0x1182F, 0x11837);
   (0x11839, 0x1183A); (0x1193B, 0x1193C); (0x1193E, 0x1193E);
   (0x11943, 0x11943); (0x119D4, 0x119D7); (0x119DA, 0x119DB);
   (0x119E0, 0x119E0); (0x11A01, 0x11A0A); (0x11A33, 0x11A38);
   (0x11A3B, 0x11A3E); (0x11A47, 0x11A47); (0x11A51, 0x11A56);
   (0x11A59, 0x11A5B); (0x11A8A, 0x11A96); (0x11A98, 0x11A99);
   (0x11C30, 0x11C36); (0x11C38, 0x11C3D); (0x11C3F, 0x11C3F);
   (0x11C92, 0x11CA7); (0x11CAA, 0x11CB0); (0x11CB2, 0x11CB3);
   (0x11CB5, 0x11CB6); (0x11D31, 0x11D36); (0x11D3A, 0x11D3A);
   (0x11D3C, 0x11D3D); (0x11D3F, 0x11D45); (0x11D47, 0x11D47);
   (0x11D90, 0x11D91); (0x11D95, 0x11D95); (0x11D97, 0x11D97);
   (0x11EF3, 0x11EF4); (0x13430, 0x13438); (0x16AF0, 0x16AF4);
   (0x16B30, 0x16B36); (0x16B40, 0x16B43); (0x16F4F, 0x16F4F);
   (0x16F8F, 0x16F9F); (0x16FE0, 0x16FE1); (0x16FE3, 0x16FE4);
   (0x1AFF0, 0x1AFF3); (0x1AFF5, 0x1AFFB); (0x1AFFD, 0x1AFFE);
   (0x1BC9D, 0x1BC9E); (0x1BCA0, 0x1BCA3); (0x1CF00, 0x1CF2D);
   (0x1CF30, 0x1CF46); (0x1D167, 0x1D169); (0x1D173, 0x1D182);
   (0x1D185, 0x1D18B); (0x1D1AA, 0x1D1AD); (0x1D242, 0x1D244);
   (0x1DA00, 0x1DA36); (0x1DA3B, 0x1DA6C); (0x1DA75, 0x1DA75);
   (0x1DA84, 0x1DA84); (0x1DA9B, 0x1DA9F); (0x1DAA1, 0x1DAAF);
   (0x1E000, 0x1E006); (0x1E008, 0x1E018); (0x1E01B, 0x1E021);
   (0x1E023, 0x1E024); (0x1E026, 0x1E02A); (0x1E130, 0x1E13D);
   (0x1E2AE, 0x1E2AE); (0x1E2EC, 0x1E2EF); (0x1E8D0, 0x1E8D6);
   (0x1E944, 0x1E94B); (0x1F3FB, 0x1F3FF); (0xE0001, 0xE0001);
   (0xE0020, 0xE007F); (0xE0100, 0xE01EF)
  ]%N.

(** The lower-case forms that are one code point, as runs
    [(first, last, step, target)]: the code point [first + i * step] of a
    run has the lower-case form [target + i * step].  The capital sigma
    U+03A3 is here with the small sigma U+03C3; [str.lower] looks at what
    is around it first. *)
Definition lower_runs : list (N * N * N * N) :=
  [
   (0x41, 0x5A, 0x1, 0x61); (0xC0, 0xD6, 0x1, 0xE0); (0xD8, 0xDE, 0x1, 0xF8);
   (0x100, 0x12E, 0x2, 0x101); (0x132, 0x136, 0x2, 0x133);
   (0x139, 0x147, 0x2, 0x13A); (0x14A, 0x176, 0x2, 0x14B);
   (0x178, 0x178, 0x1, 0xFF); (0x179, 0x17D, 0x2, 0x17A);
   (0x181, 0x181, 0x1, 0x253); (0x182, 0x184, 0x2, 0x183);
   (0x186, 0x186, 0x1, 0x254); (0x187, 0x187, 0x1, 0x188);
   (0x189, 0x18A, 0x1, 0x256); (0x18B, 0x18B, 0x1, 0x18C);
   (0x18E, 0x18E, 0x1, 0x1DD); (0x18F, 0x18F, 0x1, 0x259);
   (0x190, 0x190, 0x1, 0x25B); (0x191, 0x191, 0x1, 0x192);
   (0x193, 0x193, 0x1, 0x260); (0x194, 0x194, 0x1, 0x263);
   (0x196, 0x196, 0x1, 0x269); (0x197, 0x197, 0x1, 0x268);
   (0x198, 0x198, 0x1, 0x199); (0x19C, 0x19C, 0x1, 0x26F);
   (0x19D, 0x19D, 0x1, 0x272); (0x19F, 0x19F, 0x1, 0x275);
   (0x1A0, 0x1A4, 0x2, 0x1A1); (0x1A6, 0x1A6, 0x1, 0x280);
   (0x1A7, 0x1A7, 0x1, 0x1A8); (0x1A9, 0x1A9, 0x1, 0x283);
   (0x1AC, 0x1AC, 0x1, 0x1AD); (0x1AE, 0x1AE, 0x1, 0x288);
   (0x1AF, 0x1AF, 0x1, 0x1B0); (0x1B1, 0x1B2, 0x1, 0x28A);
   (0x1B3, 0x1B5, 0x2, 0x1B4); (0x1B7, 0x1B7, 0x1, 0x292);
   (0x1B8, 0x1B8, 0x1, 0x1B9); (0x1BC, 0x1BC, 0x1, 0x1BD);
   (0x1C4, 0x1C4, 0x1, 0x1C6); (0x1C5, 0x1C5, 0x1, 0x1C6);
   (0x1C7, 0x1C7, 0x1, 0x1C9); (0x1C8, 0x1C8, 0x1, 0x1C9);
   (0x1CA, 0x1CA, 0x1, 0x1CC); (0x1CB, 0x1DB, 0x2, 0x1CC);
   (0x1DE, 0x1EE, 0x2, 0x1DF); (0x1F1, 0x1F1, 0x1, 0x1F3);
   (0x1F2, 0x1F4, 0x2, 0x1F3); (0x1F6, 0x1F6, 0x1, 0x195);
   (0x1F7, 0x1F7, 0x1, 0x1BF); (0x1F8, 0x21E, 0x2, 0x1F9);
   (0x220, 0x220, 0x1, 0x19E); (0x222, 0x232, 0x2, 0x223);
   (0x23A, 0x23A, 0x1, 0x2C65); (0x23B, 0x23B, 0x1, 0x23C);
   (0x23D, 0x23D, 0x1, 0x19A); (0x23E, 0x23E, 0x1, 0x2C66);
   (0x241, 0x241, 0x1, 0x242); (0x243, 0x243, 0x1, 0x180);
   (0x244, 0x244, 0x1, 0x289); (0x245, 0x245, 0x1, 0x28C);
   (0x246, 0x24E, 0x2, 0x247); (0x370, 0x372, 0x2, 0x371);
   (0x376, 0x376, 0x1, 0x377); (0x37F, 0x37F, 0x1, 0x3F3);
   (0x386, 0x386, 0x1, 0x3AC); (0x388, 0x38A, 0x1, 0x3AD);
   (0x38C, 0x38C, 0x1, 0x3CC); (0x38E, 0x38F, 0x1, 0x3CD);
   (0x391, 0x3A1, 0x1, 0x3B1); (0x3A3, 0x3AB, 0x1, 0x3C3);
   (0x3CF, 0x3CF, 0x1, 0x3D7); (0x3D8, 0x3EE, 0x2, 0x3D9);
   (0x3F4, 0x3F4, 0x1, 0x3B8); (0x3F7, 0x3F7, 0x1, 0x3F8);
   (0x3F9, 0x3F9, 0x1, 0x3F2); (0x3FA, 0x3FA, 0x1, 0x3FB);
   (0x3FD, 0x3FF, 0x1, 0x37B); (0x400, 0x40F, 0x1, 0x450);
   (0x410, 0x42F, 0x1, 0x430); (0x460, 0x480, 0x2, 0x461);
   (0x48A, 0x4BE, 0x2, 0x48B); (0x4C0, 0x4C0, 0x1, 0x4CF);
   (0x4C1, 0x4CD, 0x2, 0x4C2); (0x4D0, 0x52E, 0x2, 0x4D1);
   (0x531, 0x556, 0x1, 0x561); (0x10A0, 0x10C5, 0x1, 0x2D00);
   (0x10C7, 0x10C7, 0x1, 0x2D27); (0x10CD, 0x10CD, 0x1, 0x2D2D);
   (0x13A0, 0x13EF, 0x1, 0xAB70); (0x13F0, 0x13F5, 0x1, 0x13F8);
   (0x1C90, 0x1CBA, 0x1, 0x10D0); (0x1CBD, 0x1CBF, 0x1, 0x10FD);
   (0x1E00, 0x1E94, 0x2, 0x1E01); (0x1E9E, 0x1E9E, 0x1, 0xDF);
   (0x1EA0, 0x1EFE, 0x2, 0x1EA1); (0x1F08, 0x1F0F, 0x1, 0x1F00);
   (0x1F18, 0x1F1D, 0x1, 0x1F10); (0x1F28, 0x1F2F, 0x1, 0x1F20);
   (0x1F38, 0x1F3F, 0x1, 0x1F30); (0x1F48, 0x1F4D, 0x1, 0x1F40);
   (0x1F59, 0x1F5F, 0x2, 0x1F51); (0x1F68, 0x1F6F, 0x1, 0x1F60);
   (0x1F88, 0x1F8F, 0x1, 0x1F80); (0x1F98, 0x1F9F, 0x1, 0x1F90);
   (0x1FA8, 0x1FAF, 0x1, 0x1FA0); (0x1FB8, 0x1FB9, 0x1, 0x1FB0);
   (0x1FBA, 0x1FBB, 0x1, 0x1F70); (0x1FBC, 0x1FBC, 0x1, 0x1FB3);
   (0x1FC8, 0x1FCB, 0x1, 0x1F72); (0x1FCC, 0x1FCC, 0x1, 0x1FC3);
   (0x1FD8, 0x1FD9, 0x1, 0x1FD0); (0x1FDA, 0x1FDB, 0x1, 0x1F76);
   (0x1FE8, 0x1FE9, 0x1, 0x1FE0); (0x1FEA, 0x1FEB, 0x1, 0x1F7A);
   (0x1FEC, 0x1FEC, 0x1, 0x1FE5); (0x1FF8, 0x1FF9, 0x1, 0x1F78);
   (0x1FFA, 0x1FFB, 0x1, 0x1F7C); (0x1FFC, 0x1FFC, 0x1, 0x1FF3);
   (0x2126, 0x2126, 0x1, 0x3C9); (0x212A, 0x212A, 0x1, 0x6B);
   (0x212B, 0x212B, 0x1, 0xE5); (0x2132, 0x2132, 0x1, 0x214E);
   (0x2160, 0x216F, 0x1, 0x2170); (0x2183, 0x2183, 0x1, 0x2184);
   (0x24B6, 0x24CF, 0x1, 0x24D0); (0x2C00, 0x2C2F, 0x1, 0x2C30);
   (0x2C60, 0x2C60, 0x1, 0x2C61); (0x2C62, 0x2C62, 0x1, 0x26B);
   (0x2C63, 0x2C63, 0x1, 0x1D7D); (0x2C64, 0x2C64, 0x1, 0x27D);
   (0x2C67, 0x2C6B, 0x2, 0x2C68); (0x2C6D, 0x2C6D, 0x1, 0x251);
   (0x2C6E, 0x2C6E, 0x1, 0x271); (0x2C6F, 0x2C6F, 0x1, 0x250);
   (0x2C70, 0x2C70, 0x1, 0x252); (0x2C72, 0x2C72, 0x1, 0x2C73);
   (0x2C75, 0x2C75, 0x1, 0x2C76); (0x2C7E, 0x2C7F, 0x1, 0x23F);
   (0x2C80, 0x2CE2, 0x2, 0x2C81); (0x2CEB, 0x2CED, 0x2, 0x2CEC);
   (0x2CF2, 0x2CF2, 0x1, 0x2CF3); (0xA640, 0xA66C, 0x2, 0xA641);
   (0xA680, 0xA69A, 0x2, 0xA681); (0xA722, 0xA72E, 0x2, 0xA723);
   (0xA732, 0xA76E, 0x2, 0xA733); (0xA779, 0xA77B, 0x2, 0xA77A);
   (0xA77D, 0xA77D, 0x1, 0x1D79); (0xA77E, 0xA786, 0x2, 0xA77F);
   (0xA78B, 0xA78B, 0x1, 0xA78C); (0xA78D, 0xA78D, 0x1, 0x265);
   (0xA790, 0xA792, 0x2, 0xA791); (0xA796, 0xA7A8, 0x2, 0xA797);
   (0xA7AA, 0xA7AA, 0x1, 0x266); (0xA7AB, 0xA7AB, 0x1, 0x25C);
   (0xA7AC, 0xA7AC, 0x1, 0x261); (0xA7AD, 0xA7AD, 0x1, 0x26C);
   (0xA7AE, 0xA7AE, 0x1, 0x26A); (0xA7B0, 0xA7B0, 0x1, 0x29E);
   (0xA7B1, 0xA7B1, 0x1, 0x287); (0xA7B2, 0xA7B2, 0x1, 0x29D);
   (0xA7B3, 0xA7B3, 0x1, 0xAB53); (0xA7B4, 0xA7C2, 0x2, 0xA7B5);
   (0xA7C4, 0xA7C4, 0x1, 0xA794); (0xA7C5, 0xA7C5, 0x1, 0x282);
   (0xA7C6, 0xA7C6, 0x1, 0x1D8E); (0xA7C7, 0xA7C9, 0x2, 0xA7C8);
   (0xA7D0, 0xA7D0, 0x1, 0xA7D1); (0xA7D6, 0xA7D8, 0x2, 0xA7D7);
   (0xA7F5, 0xA7F5, 0x1, 0xA7F6); (0xFF21, 0xFF3A, 0x1, 0xFF41);
   (0x10400, 0x10427, 0x1, 0x10428); (0x104B0, 0x104D3, 0x1, 0x104D8);
   (0x10570, 0x1057A, 0x1, 0x10597); (0x1057C, 0x1058A, 0x1, 0x105A3);
   (0x1058C, 0x10592, 0x1, 0x105B3); (0x10594, 0x10595, 0x1, 0x105BB);
   (0x10C80, 0x10CB2, 0x1, 0x10CC0); (0x118A0, 0x118BF, 0x1, 0x118C0);
   (0x16E40, 0x16E5F, 0x1, 0x16E60); (0x1E900, 0x1E921, 0x1, 0x1E922)
  ]%N.

Definition in_ranges (table : list (N * N)) (c : N) : bool :=
  existsb (fun '(first, last) => (first <=? c) && (c <=? last))%N table.

Definition in_runs (table : list (N * N * N)) (c : N) : bool :=
  existsb (fun '(first, last, step) =>
             (first <=? c) && (c <=? last) && ((c - first) mod step =? 0))%N
          table.

(** [chr(c).isalnum()] and [chr(c).isupper()]. *)
Definition isalnum (c : N) : bool := in_ranges alnum_ranges c.
Definition isupper (c : N) : bool := in_runs upper_runs c.

Definition is_cased (c : N) : bool := in_ranges cased_ranges c.
Definition is_case_ignorable (c : N) : bool :=
  in_ranges case_ignorable_ranges c.

Fixpoint simple_lower (table : list (N * N * N * N)) (c : N) : N :=
  match table with
  | [] => c
  | (first, last, step, target) :: table' =>
      if ((first <=? c) && (c <=? last) && ((c - first) mod step =? 0))%N
      then (target + (c - first))%N
      else simple_lower table' c
  end.

(** The lower-case form of one character other than the capital sigma:
    one code point, but for U+0130 (capital I with dot above), whose
    lower-case form is [i] followed by the combining dot above U+0307. *)
Definition lower_full (c : N) : list N :=
  if (c =? 0x130)%N then [0x69; 0x307]%N else [simple_lower lower_runs c].

Fixpoint skip_case_ignorable (s : list N) : list N :=
  match s with
  | [] => []
  | c :: s' => if is_case_ignorable c then skip_case_ignorable s' else s
  end.

(** The capital sigma U+03A3 is final when a cased letter comes before it
    and none after it, case-ignorable characters being passed over;
    [before] holds the characters before it, the nearest first. *)
Definition final_sigma (before after : list N) : bool :=
  match skip_case_ignorable before with
  | [] => false
  | c :: _ =>
      is_cased c
      && match skip_case_ignorable after with
         | [] => true
         | c' :: _ => negb (is_cased c')
         end
  end.

Fixpoint lower_from (before s : list N) : list N :=
  match s with
  | [] => []
  | c :: after =>
      (if (c =? 0x3A3)%N
       then [if final_sigma before after then 0x3C2 else 0x3C3]%N
       else lower_full c)
      ++ lower_from (c :: before) after
  end.

(** [s.lower()] *)
Definition lower (s : list N) : list N := lower_from [] s.

(** [s.replace(a, b)] for one-character [a] and [b]. *)
Definition replace (a b : N) (s : list N) : list N :=
  (fun c => if (c =? a)%N then b else c) <$> s.

(** The code points of a string of ASCII characters. *)
Definition codes (s : string) : list N :=
  N_of_ascii <$> list_ascii_of_string s.

(** The bytes of one code point in UTF-8, and the [string] that stands for
    a list of code points where the code handles it as a whole. *)
Definition utf8_char (c : N) : list N :=
  (if c <? 0x80 then [c]
   else if c <? 0x800 then [0xC0 + c / 0x40; 0x80 + c mod 0x40]
   else if c <? 0x10000 then
     [0xE0 + c / 0x1000; 0x80 + (c / 0x40) mod 0x40; 0x80 + c mod 0x40]
   else
     [0xF0 + c / 0x40000; 0x80 + (c / 0x1000) mod 0x40;
      0x80 + (c / 0x40) mod 0x40; 0x80 + c mod 0x40])%N.

Definition utf8 (s : list N) : string :=
  string_of_list_ascii (ascii_of_N <$> (s ≫= utf8_char)).

End PyUnicode.

(** ** Data model *)

(** A JSON value as [resp.json()] hands it over.  [VOther] stands for any
    Python object of another class. *)
Inductive value : Type :=
| VNull
| VBool (b : bool)
| VInt (z : Z)
| VFloat (f : spec_float)
| VStr (s : string)
| VDict (d : gmap string value)
| VList (l : list value)
| VOther.

(** The value under the key ["type"]: one tag, or a list of tags. *)
Inductive type_value : Type :=
| TStr (t : string)
| TList (ts : list string).

(** A schema dictionary.  The keys ["properties"], ["additionalProperties"]
    and ["items"] may be absent; ["type"] is present in every schema the
    program builds. *)
Inductive schema : Type :=
  Schema {
    stype : type_value;
    sproperties : option (gmap string schema);
    sadditional : option bool;
    sitems : option schema
  }.

(** A schema with the key ["type"] only. *)
Definition leaf (t : string) : schema := Schema (TStr t) None None None.

(** ** [Redash._singer_type_for_value] *)

Fixpoint _singer_type_for_value (v : value) : schema :=
  match v with
  | VNull => leaf "null"
  | VBool _ => leaf "boolean"
  | VInt _ => leaf "integer"
  | VFloat _ => leaf "number"
  | VStr _ => leaf "string"
  | VDict d =>
      Schema (TStr "object") (Some (_singer_type_for_value <$> d))
             (Some false) None
  | VList [] => leaf "array"
  | VList (VNull :: _) =>
      Schema (TStr "array") None None
             (Some (Schema (TStr "array") None None (Some (leaf "string"))))
  | VList (v0 :: _) =>
      Schema (TStr "array") None None (Some (_singer_type_for_value v0))
  | VOther => leaf "string"
  end.

(** ** [Redash._merge_schemas] *)

(** The tags under ["type"], as the first loop reads them. *)
Definition type_tags (s : schema) : list string :=
  match stype s with
  | TList ts => ts
  | TStr t => [t]
  end.

(** The first loop: [types.extend(t)] or [types.append(t)] per schema. *)
Definition collect_types (schemas : list schema) : list string :=
  foldl (fun types s => types ++ type_tags s) [] schemas.

(** [item_schemas = [s.get("items") for s in schemas if "items" in s]] *)
Definition item_schemas (schemas : list schema) : list schema :=
  omap sitems schemas.

Section merge_body.

(** The recursive calls of [_merge_schemas]. *)
Variable rec : list schema -> schema.

(** The body of [for k, v in s["properties"].items()]. *)
Definition merge_property (k : string) (v : schema)
    (props : gmap string schema) : gmap string schema :=
  match props !! k with
  | None => <[k := v]> props
  | Some old => <[k := rec [old; v]]> props
  end.

(** The body of [for s in schemas], for the properties. *)
Definition merge_properties_of (props : gmap string schema) (s : schema)
    : gmap string schema :=
  match sproperties s with
  | Some ps => map_fold merge_property props ps
  | None => props
  end.

Definition merge_properties (schemas : list schema) : gmap string schema :=
  foldl merge_properties_of ∅ schemas.

Definition merge_body (schemas : list schema) : schema :=
  let types := collect_types schemas ++ ["null"] in
  let is_object := bool_decide ("object" ∈ types) in
  {| stype := TList (PyStr.sorted_set types);
     sproperties :=
       if is_object then Some (merge_properties schemas) else None;
     sadditional := if is_object then Some false else None;
     sitems :=
       if bool_decide ("array" ∈ types) then
         match item_schemas schemas with
         | [] => None
         | its => Some (rec its)
         end
       else None |}.

End merge_body.

(** Nesting depth of a schema: the recursion of [_merge_schemas] goes down
    by one level at each call. *)
Fixpoint depth (s : schema) : nat :=
  S (Nat.max
       (match sproperties s with
        | Some ps => map_fold (fun _ v d => Nat.max (depth v) d) 0 ps
        | None => 0
        end)
       (match sitems s with
        | Some i => depth i
        | None => 0
        end)).

Definition depth_list (schemas : list schema) : nat :=
  foldr (fun s d => Nat.max (depth s) d) 0 schemas.

(** [_merge_schemas] with a bound on the depth of recursion; [leaf ""] is
    returned when the bound is used up, which [_merge_schemas] below never
    does (lemma [_merge_schemas_unfold]). *)
Fixpoint merge_fuel (n : nat) (schemas : list schema) : schema :=
  match n with
  | 0 => leaf ""
  | S n' => merge_body (merge_fuel n') schemas
  end.

Definition _merge_schemas (schemas : list schema) : schema :=
  merge_fuel (S (depth_list schemas)) schemas.

(** ** [Redash._infer_properties] *)

(** [union.setdefault(k, []).append(schema)] for one pair of a row. *)
Definition union_append (k : string) (v : value)
    (union : gmap string (list schema)) : gmap string (list schema) :=
  <[k := default [] (union !! k) ++ [_singer_type_for_value v]]> union.

(** The body of [for i in range(MAX_SCAN)] once [row] is read: a row that
    is not a dictionary is passed over. *)
Definition scan_row (union : gmap string (list schema)) (row : value)
    : gmap string (list schema) :=
  match row with
  | VDict d => map_fold union_append union d
  | _ => union
  end.

(** [sample_rows[i]] is in range for every [i] of [range(MAX_SCAN)]; the
    other branch is never taken (lemma [scan_rows_take]). *)
Definition scan_rows (sample_rows : list value) (MAX_SCAN : nat)
    : gmap string (list schema) :=
  foldl (fun union i =>
           match sample_rows !! i with
           | Some row => scan_row union row
           | None => union
           end) ∅ (seq 0 MAX_SCAN).

Definition _infer_properties (sample_rows : list value) : gmap string schema :=
  let MAX_SCAN := Nat.min 100 (length sample_rows) in
  let union := scan_rows sample_rows MAX_SCAN in
  _merge_schemas <$> union.

(** ** [Redash.generate_stream_entry] *)

(** A query object of the Redash API: its numeric [id], and its [name], a
    string, when the key is there. *)
Record query : Type :=
  Query {
    query_id : N;
    query_name : option (list N)
  }.

(** The fields of a stream entry that come from the query and from its
    rows. *)
Record stream_entry : Type :=
  StreamEntry {
    stream : list N;
    tap_stream_id : string;
    entry_schema : schema
  }.

(** The two [replace] calls, the filter on [isalnum] and [lower()]. *)
Definition sanitize (query_name : list N) : list N :=
  let stream_name :=
    PyUnicode.replace 0x2D 0x5F (PyUnicode.replace 0x20 0x5F query_name) in
  let stream_name :=
    List.filter (fun c => PyUnicode.isalnum c || (c =? 0x5F)%N) stream_name in
  PyUnicode.lower stream_name.

(** [data] is what [_get_query_data] returned for the query. *)
Definition generate_stream_entry (q : query) (data : list value) : stream_entry :=
  let query_id := PyStr.str (query_id q) in
  let query_name :=
    default (PyUnicode.codes ("query_" +:+ query_id)) (query_name q) in
  let stream_name := sanitize query_name in
  let stream_name :=
    match stream_name with
    | [] => PyUnicode.codes ("query_" +:+ query_id)
    | _ => stream_name
    end in
  let properties :=
    match data with
    | [] => ∅
    | _ => _infer_properties data
    end in
  {| stream := stream_name;
     tap_stream_id := query_id;
     entry_schema :=
       Schema (TStr "object") (Some properties) (Some false) None |}.

(** ** Notions used in the statements *)

(** The sub-schemas recorded under the property [k], in the order of the
    schemas that carry them. *)
Definition property_values (k : string) (schemas : list schema) : list schema :=
  omap (fun s => sproperties s ≫= (.!! k)) schemas.

(** What the loop over the properties leaves under one name: the first
    sub-schema as it is, each later one merged into the entry so far. *)
Definition merge_chain (rec : list schema -> schema) (vs : list schema)
    : option schema :=
  match vs with
  | [] => None
  | v :: vs' => Some (foldl (fun old v' => rec [old; v']) v vs')
  end.

(** The list [types] of [_merge_schemas] once ["null"] is appended. *)
Definition merged_types (l : list schema) : list string :=
  collect_types l ++ ["null"].

(** A schema with ["null"] added to the type list at every level, a single
    tag being read as the list of that tag: two schemas are equal up to the
    presence of ["null"] when [with_null] sends them to the same schema. *)
Fixpoint with_null (s : schema) : schema :=
  {| stype := TList (PyStr.sorted_set (type_tags s ++ ["null"]));
     sproperties :=
       match sproperties s with
       | Some ps => Some (with_null <$> ps)
       | None => None
       end;
     sadditional := sadditional s;
     sitems :=
       match sitems s with
       | Some i => Some (with_null i)
       | None => None
       end |}.

(** The shape of the schemas the program builds: the keys ["properties"]
    and ["additionalProperties"] go with the tag ["object"], the key
    ["items"] with the tag ["array"], at every level. *)
Inductive well_formed : schema -> Prop :=
| well_formed_intro (s : schema) :
    (is_Some (sproperties s) ↔ "object" ∈ type_tags s) ->
    (sadditional s = if sproperties s is Some _ then Some false else None) ->
    (is_Some (sitems s) -> "array" ∈ type_tags s) ->
    (∀ ps k v, sproperties s = Some ps -> ps !! k = Some v -> well_formed v) ->
    (∀ i, sitems s = Some i -> well_formed i) ->
    well_formed s.

(** [isinstance(row, dict)] *)
Definition is_dict (v : value) : bool :=
  match v with
  | VDict _ => true
  | _ => false
  end.

(** A lower-case alphanumeric character or an underscore: alphanumeric,
    not upper case. *)
Definition lower_alnum_or_underscore (c : N) : bool :=
  (c =? 0x5F)%N || (PyUnicode.isalnum c && negb (PyUnicode.isupper c)).

(** An alphanumeric character that [lower()] does not turn into lower-case
    alphanumeric characters: U+0130, whose lower-case form has the
    combining dot U+0307, and the upper-case characters that have no
    lower-case form, as the double-struck capital C, U+2102. *)
Definition not_lowered (c : N) : bool :=
  PyUnicode.isalnum c
  && ((c =? 0x130)%N
      || (PyUnicode.isupper c
          && (PyUnicode.simple_lower PyUnicode.lower_runs c =? c)%N)).

(** An alphanumeric character or an underscore that [lower()] leaves as it
    is. *)
Definition unchanged_char (c : N) : bool :=
  (PyUnicode.isalnum c || (c =? 0x5F)%N)
  && (PyUnicode.simple_lower PyUnicode.lower_runs c =? c)%N
  && negb (c =? 0x130)%N.

(** The code points of a run of [PyUnicode.lower_runs], and what the
    lower-case form of an alphanumeric character of a run has to be. *)
Definition run_points (run : N * N * N * N) : list N :=
  let '(first, last, step, _) := run in
  (fun i => first + N.of_nat i * step)%N
    <$> seq 0 (S (N.to_nat ((last - first) / step))).

Definition lowered_ok (c : N) : bool :=
  implb (PyUnicode.isalnum c)
    (let c' := PyUnicode.simple_lower PyUnicode.lower_runs c in
     lower_alnum_or_underscore c' && unchanged_char c').

(** The rows of the nested example of the specification. *)
Definition nested_rows : list value :=
  [VDict {[ "meta" := VDict {[ "x" := VInt 1 ]} ]};
   VDict {[ "meta" := VDict {[ "x" := VInt 2; "y" := VStr "z" ]} ]}].

(** Rows with one field each, to fill a sample. *)
Definition row_a : value := VDict {[ "a" := VInt 1 ]}.
Definition row_b : value := VDict {[ "b" := VStr "new" ]}.

(** ** The response of the results endpoint: [Redash._get_query_data] *)

(** What [self._session.get(...)] and [resp.json()] end in: an exception of
    [requests], a body that is not JSON, or the parsed payload. *)
Inductive response : Type :=
| RequestException
| InvalidJSON
| Payload (payload : value).

(** [v[k]] for a string key [k]: a dictionary without the key raises
    [KeyError], any other value [TypeError]; both are [None] here. *)
Definition subscript (v : value) (k : string) : option value :=
  match v with
  | VDict d => d !! k
  | _ => None
  end.

(** The three [except] branches and the test on [rows] all return the
    empty list. *)
Definition _get_query_data (resp : response) : list value :=
  match resp with
  | RequestException => []
  | InvalidJSON => []
  | Payload payload =>
      match subscript payload "query_result" with
      | Some query_result =>
          match subscript query_result "data" with
          | Some data =>
              match subscript data "rows" with
              | Some (VList rows) => rows
              | _ => []
              end
          | None => []
          end
      | None => []
      end
  end.

(** [s.rstrip(a)] for a one-character [a]. *)
Fixpoint rstrip (a : ascii) (s : string) : string :=
  match s with
  | EmptyString => EmptyString
  | String c s' =>
      match rstrip a s' with
      | EmptyString => if Ascii.eqb c a then EmptyString else String c EmptyString
      | r => String c r
      end
  end.

(** The address of the results of a query, from the configured [BASE_URL]:
    [self._base_url] is [BASE_URL.rstrip('/')]. *)
Definition results_url (BASE_URL : string) (query_id : string) : string :=
  let _base_url := rstrip "/" BASE_URL in
  _base_url +:+ "/api/queries/" +:+ query_id +:+ "/results.json".

(** ** The response of the queries endpoint: [Redash._get_available_queries] *)

(** The exceptions that [_get_available_queries] lets out. *)
Inductive exception : Type :=
| RequestError
| ValueError
| TypeError
| AttributeError.

(** [payload.get('results', [])] needs a dictionary: any other payload has
    no method [get], and [AttributeError] is not among the exceptions that
    the function handles; the handled ones are raised again. *)
Definition _get_available_queries (resp : response)
    : exception + list value :=
  match resp with
  | RequestException => inl RequestError
  | InvalidJSON => inl ValueError
  | Payload (VDict payload) =>
      match default (VList []) (payload !! "results") with
      | VList queries => inr queries
      | _ => inl TypeError
      end
  | Payload _ => inl AttributeError
  end.

(** ** The catalog: [do_discover] and [output_to_stream] *)

(** An entry of the list under ["metadata"]: its breadcrumb (none and the
    empty list are both the root) and the dictionary under ["metadata"]
    (none is the empty dictionary). *)
Record metadata_entry : Type :=
  MetadataEntry {
    breadcrumb : list string;
    metadata : gmap string value
  }.

(** A stream of a catalog, with the keys that [output_to_stream] reads;
    ["stream"] and ["schema"] are read by subscript, the others by [get]. *)
Record catalog_stream : Type :=
  CatalogStream {
    cs_stream : string;
    cs_tap_stream_id : option string;
    cs_schema : schema;
    cs_key_properties : option (list value);
    cs_metadata : option (list metadata_entry)
  }.

(** What [singer.write_schema] and [singer.write_records] write: one
    SCHEMA message, one RECORD message per record. *)
Inductive message : Type :=
| SCHEMA (stream_name : string) (schema : schema) (key_props : list value)
| RECORD (stream_name : string) (record : value).

Definition message_stream (m : message) : string :=
  match m with
  | SCHEMA stream_name _ _ => stream_name
  | RECORD stream_name _ => stream_name
  end.

(** The truth value of a Python value, as [not v] reads it. *)
Definition truthy (v : value) : bool :=
  match v with
  | VNull => false
  | VBool b => b
  | VInt z => negb (z =? 0)%Z
  | VFloat (S754_zero _) => false
  | VFloat _ => true
  | VStr s => negb (String.eqb s "")
  | VDict d => match map_to_list d with [] => false | _ => true end
  | VList l => match l with [] => false | _ => true end
  | VOther => true
  end.

(** The whole dictionary that [generate_stream_entry] returns: the fields
    of [generate_stream_entry] above, the key properties of the
    configuration and the metadata, one entry per property and the root
    entry last.  [keys] lists the names of a properties dictionary in the
    order of [properties.keys()], the order in which the rows brought the
    fields, which the map does not record; [respond] is what the results
    endpoint answers for a query id. *)
Definition catalog_entry (key_properties : option value)
    (keys : gmap string schema -> list string)
    (respond : string -> response) (q : query) : catalog_stream :=
  let query_id := PyStr.str (query_id q) in
  let query_name :=
    default (PyUnicode.codes ("query_" +:+ query_id)) (query_name q) in
  let data := _get_query_data (respond query_id) in
  let entry := generate_stream_entry q data in
  let properties := default ∅ (sproperties (entry_schema entry)) in
  let key_props :=
    match key_properties with
    | Some (VList l) => l
    | _ => []
    end in
  let metadata :=
    ((fun prop_name =>
        MetadataEntry ["properties"; prop_name]
                      {[ "inclusion" := VStr "available" ]})
       <$> keys properties)
    ++ [MetadataEntry []
          {[ "query_id" := VStr query_id;
             "query_name" := VStr (PyUnicode.utf8 query_name);
             "selected" := VBool true ]}] in
  {| cs_stream := PyUnicode.utf8 (stream entry);
     cs_tap_stream_id := Some (tap_stream_id entry);
     cs_schema := entry_schema entry;
     cs_key_properties := Some key_props;
     cs_metadata := Some metadata |}.

(** What [generate_stream_entry] reads of a query object of the list of
    [get_queries_for_catalog], a dictionary as its annotation has it: the
    id, a natural number, when the key ["id"] is there, and the value
    under ["name"] when the key is there, a string or a value of another
    type (null, a number, ...). *)
Inductive name_value : Type :=
| NameStr (s : list N)
| NameOther.

Record query_object : Type :=
  QueryObject {
    object_id : option N;
    object_name : option name_value
  }.

(** The query that [generate_stream_entry] works on; there is none when
    it raises: [query['id']] raises [KeyError] without the key, and
    [query_name.replace] raises [AttributeError] when the name is not a
    string. *)
Definition query_of_object (o : query_object) : option query :=
  match object_id o with
  | None => None
  | Some id =>
      match object_name o with
      | None => Some (Query id None)
      | Some (NameStr s) => Some (Query id (Some s))
      | Some NameOther => None
      end
  end.

(** The streams of the catalog of [do_discover], for the query objects
    that [get_queries_for_catalog] returned, none when there is no query:
    a query object for which [generate_stream_entry] raises is passed over
    ([except Exception: ... continue]). *)
Definition do_discover (key_properties : option value)
    (keys : gmap string schema -> list string)
    (respond : string -> response) (queries : list query_object)
    : list catalog_stream :=
  omap (fun query =>
          catalog_entry key_properties keys respond
            <$> query_of_object query) queries.

(** The value of [selected] after the loop over the metadata: each root
    entry sets it, the last one decides. *)
Definition stream_selected (s : catalog_stream) : value :=
  match cs_metadata s with
  | Some entries =>
      foldl (fun selected metadata_entry =>
               match breadcrumb metadata_entry with
               | [] => default (VBool true)
                         (metadata metadata_entry !! "selected")
               | _ => selected
               end) (VBool true) entries
  | None => VBool true
  end.

(** The body of [for stream in catalog["streams"]]. *)
Definition stream_messages (respond : string -> response)
    (s : catalog_stream) : list message :=
  if truthy (stream_selected s) then
    let stream_name := cs_stream s in
    let tap_stream_id := default stream_name (cs_tap_stream_id s) in
    let key_props := default [] (cs_key_properties s) in
    let data := _get_query_data (respond tap_stream_id) in
    SCHEMA stream_name (cs_schema s) key_props
      :: (RECORD stream_name <$> data)
  else [].

(** The messages written for a catalog; [None] is a catalog that is empty
    or has no key ["streams"]. *)
Definition output_to_stream (respond : string -> response)
    (catalog : option (list catalog_stream)) : list message :=
  match catalog with
  | Some streams => streams ≫= stream_messages respond
  | None => []
  end.

(** ** Further notions used in the statements *)

(** The leaf schema a row contributes to the field [k]. *)
Definition field_schema (k : string) (row : value) : option schema :=
  match row with
  | VDict d => _singer_type_for_value <$> d !! k
  | _ => None
  end.

(** The leaf schemas collected for the field [k], row after row. *)
Definition field_schemas (k : string) (rows : list value) : list schema :=
  omap (field_schema k) rows.

(** The seven type tags. *)
Definition type_names : list string :=
  ["null"; "boolean"; "integer"; "number"; "string"; "object"; "array"].

(** * Properties *)

(** ** The order on strings and [sorted(set(xs))] *)

Section sorted_set.

Import PyStr.

Lemma lt_irrefl (a : string) : ¬ lt a a.
Proof.
  unfold lt. intros H.
  assert (String.compare a a = Eq) as E by (by apply String_as_OT.cmp_eq).
  congruence.
Qed.

Lemma lt_trans (a b c : string) : lt a b -> lt b c -> lt a c.
Proof.
  unfold lt. intros H1%String_as_OT.cmp_lt H2%String_as_OT.cmp_lt.
  apply String_as_OT.cmp_lt. eapply String_as_OT.lt_trans; eauto.
Qed.

Lemma compare_Gt_lt (a b : string) : String.compare a b = Gt -> lt b a.
Proof.
  unfold lt. intros H. rewrite String.compare_antisym, H. reflexivity.
Qed.

Lemma elem_of_insert_sorted (x z : string) (l : list string) :
  z ∈ insert_sorted x l ↔ z = x ∨ z ∈ l.
Proof.
  induction l as [|y l IH]; simpl.
  - rewrite list_elem_of_singleton, elem_of_nil. tauto.
  - destruct (String.compare x y) eqn:E.
    + apply String.compare_eq_iff in E. subst.
      rewrite elem_of_cons. tauto.
    + rewrite !elem_of_cons. tauto.
    + rewrite !elem_of_cons, IH. tauto.
Qed.

Lemma insert_sorted_sorted (x : string) (l : list string) :
  StronglySorted lt l -> StronglySorted lt (insert_sorted x l).
Proof.
  induction 1 as [|y l Hl IH Hy]; simpl.
  - repeat constructor.
  - destruct (String.compare x y) eqn:E.
    + by constructor.
    + constructor; [by constructor|].
      constructor; [done|].
      eapply Forall_impl; [exact Hy|]. intros z Hz. by eapply lt_trans.
    + constructor; [done|].
      apply Forall_forall. intros z [->|Hz]%elem_of_insert_sorted.
      * by apply compare_Gt_lt.
      * rewrite Forall_forall in Hy. by apply Hy.
Qed.

Lemma elem_of_sorted_set (x : string) (xs : list string) :
  x ∈ sorted_set xs ↔ x ∈ xs.
Proof.
  unfold sorted_set. induction xs as [|y xs IH]; simpl; [done|].
  rewrite elem_of_insert_sorted, IH, elem_of_cons. tauto.
Qed.

Lemma sorted_set_sorted (xs : list string) :
  StronglySorted lt (sorted_set xs).
Proof.
  unfold sorted_set. induction xs; simpl.
  - constructor.
  - by apply insert_sorted_sorted.
Qed.

Lemma sorted_NoDup (l : list string) : StronglySorted lt l -> NoDup l.
Proof.
  induction 1 as [|y l Hl IH Hy]; constructor; [|done].
  intros Hin. rewrite Forall_forall in Hy. by apply (lt_irrefl y), Hy.
Qed.

(** A strictly increasing list is determined by its elements. *)
Lemma sorted_unique (l1 l2 : list string) :
  StronglySorted lt l1 -> StronglySorted lt l2 ->
  (∀ x, x ∈ l1 ↔ x ∈ l2) -> l1 = l2.
Proof.
  intros H1 H2 Hel.
  apply (StronglySorted_unique_strong lt); [|done|done|].
  - intros x1 x2 _ _ Ha Hb. destruct (lt_irrefl x1). by eapply lt_trans.
  - apply NoDup_Permutation; auto using sorted_NoDup.
Qed.

Lemma sorted_set_ext (xs ys : list string) :
  (∀ x, x ∈ xs ↔ x ∈ ys) -> sorted_set xs = sorted_set ys.
Proof.
  intros H. apply sorted_unique; auto using sorted_set_sorted.
  intros x. by rewrite !elem_of_sorted_set.
Qed.

End sorted_set.

(** ** Depth of schemas *)

Lemma depth_eq (s : schema) :
  depth s =
  S (Nat.max
       (match sproperties s with
        | Some ps => map_fold (fun _ v d => Nat.max (depth v) d) 0 ps
        | None => 0
        end)
       (match sitems s with Some i => depth i | None => 0 end)).
Proof. by destruct s. Qed.

Lemma depth_pos (s : schema) : 0 < depth s.
Proof. rewrite depth_eq. lia. Qed.

Lemma depth_properties_le (ps : gmap string schema) :
  ∀ d, map_fold (fun _ v d => Nat.max (depth v) d) 0 ps ≤ d
       ↔ map_Forall (fun _ v => depth v ≤ d) ps.
Proof.
  apply (map_fold_weak_ind
           (fun r (m : gmap string schema) =>
              ∀ d, r ≤ d ↔ map_Forall (fun _ v => depth v ≤ d) m)).
  - intros d. split; [intros _; apply map_Forall_empty | lia].
  - intros i x m r Hi IH d. rewrite map_Forall_insert by done.
    rewrite <- IH. lia.
Qed.

Lemma depth_property_lt (s : schema) (ps : gmap string schema)
    (k : string) (v : schema) :
  sproperties s = Some ps -> ps !! k = Some v -> depth v < depth s.
Proof.
  intros Hs Hk. rewrite (depth_eq s), Hs.
  pose proof (proj1 (depth_properties_le ps _) (le_n _) k v Hk) as H.
  simpl in H. lia.
Qed.

Lemma depth_items_lt (s i : schema) : sitems s = Some i -> depth i < depth s.
Proof. intros Hs. rewrite (depth_eq s), Hs. lia. Qed.

Lemma depth_list_le (l : list schema) (d : nat) :
  depth_list l ≤ d ↔ Forall (fun s => depth s ≤ d) l.
Proof.
  unfold depth_list. induction l as [|s l IH]; simpl.
  - split; [constructor | lia].
  - rewrite Forall_cons, <- IH. lia.
Qed.

Lemma depth_list_elem (l : list schema) (s : schema) :
  s ∈ l -> depth s ≤ depth_list l.
Proof.
  intros Hs. pose proof (proj1 (depth_list_le l _) (le_n _)) as H.
  rewrite Forall_forall in H. by apply H.
Qed.

Lemma depth_list_lt (l : list schema) (d : nat) :
  l ≠ [] -> Forall (fun s => depth s < d) l -> depth_list l < d.
Proof.
  intros Hne Hl. destruct d as [|d].
  - destruct l as [|s l]; [done|]. apply Forall_cons in Hl as [Hs _]. lia.
  - apply Nat.lt_succ_r, depth_list_le.
    eapply Forall_impl; [exact Hl|]. simpl. lia.
Qed.

Lemma depth_Schema_le (t : type_value) (ps : option (gmap string schema))
    (a : option bool) (i : option schema) (d : nat) :
  (∀ m k v, ps = Some m -> m !! k = Some v -> depth v < d) ->
  (∀ j, i = Some j -> depth j < d) ->
  depth (Schema t ps a i) ≤ Nat.max 1 d.
Proof.
  intros Hps Hi. simpl.
  assert (match ps with
          | Some m => map_fold (fun _ v d => Nat.max (depth v) d) 0 m
          | None => 0
          end ≤ d - 1) as H1.
  { destruct ps as [m|]; [|lia]. apply depth_properties_le.
    intros k v Hk. specialize (Hps m k v eq_refl Hk). lia. }
  assert (match i with Some j => depth j | None => 0 end ≤ d - 1) as H2.
  { destruct i as [j|]; [|lia]. specialize (Hi j eq_refl). lia. }
  lia.
Qed.

Lemma property_values_depth (k : string) (l : list schema) :
  Forall (fun v => depth v < depth_list l) (property_values k l).
Proof.
  apply Forall_forall. intros v (s & Hs & Hv)%list_elem_of_omap.
  destruct (sproperties s) as [ps|] eqn:E; [|done]. simpl in Hv.
  pose proof (depth_property_lt s ps k v E Hv).
  pose proof (depth_list_elem l s Hs). lia.
Qed.

Lemma item_schemas_depth (l : list schema) :
  Forall (fun v => depth v < depth_list l) (item_schemas l).
Proof.
  apply Forall_forall. intros v (s & Hs & Hv)%list_elem_of_omap.
  pose proof (depth_items_lt s v Hv).
  pose proof (depth_list_elem l s Hs). lia.
Qed.

(** ** The loops of [_merge_schemas] *)

Lemma collect_types_bind (l : list schema) :
  collect_types l = l ≫= type_tags.
Proof.
  unfold collect_types.
  assert (∀ acc, foldl (fun types s => types ++ type_tags s) acc l
                 = acc ++ (l ≫= type_tags)) as H.
  { induction l as [|s l IH]; intros acc; simpl.
    - by rewrite app_nil_r.
    - by rewrite IH, app_assoc. }
  apply H.
Qed.

Lemma elem_of_collect_types (t : string) (l : list schema) :
  t ∈ collect_types l ↔ ∃ s, s ∈ l ∧ t ∈ type_tags s.
Proof.
  rewrite collect_types_bind, list_elem_of_bind.
  split; intros (s & ? & ?); eauto.
Qed.

Section loops.

Variable rec : list schema -> schema.

(** One pass over the properties of a schema is a union that merges the
    entries of the names present on both sides. *)
Lemma merge_property_fold (props ps : gmap string schema) :
  map_fold (merge_property rec) props ps
  = union_with (fun old v => Some (rec [old; v])) props ps.
Proof.
  apply (map_fold_weak_ind
           (fun r (m : gmap string schema) =>
              r = union_with (fun old v => Some (rec [old; v])) props m)).
  - apply map_eq. intros j. rewrite lookup_union_with, lookup_empty.
    by destruct (props !! j).
  - intros i x m r Hi ->. apply map_eq. intros j.
    unfold merge_property.
    rewrite !lookup_union_with, Hi.
    destruct (decide (i = j)) as [->|Hne].
    + rewrite lookup_insert_eq.
      destruct (props !! j) as [old|] eqn:E; simpl;
        by rewrite lookup_insert_eq.
    + rewrite lookup_insert_ne by done.
      destruct (props !! i) as [old|] eqn:E; simpl;
        by rewrite lookup_insert_ne, lookup_union_with by done.
Qed.

Lemma merge_properties_of_lookup (props : gmap string schema) (s : schema)
    (k : string) :
  merge_properties_of rec props s !! k
  = match sproperties s ≫= (.!! k) with
    | Some v => Some (match props !! k with
                      | Some old => rec [old; v]
                      | None => v
                      end)
    | None => props !! k
    end.
Proof.
  unfold merge_properties_of. destruct (sproperties s) as [ps|]; simpl.
  - rewrite merge_property_fold, lookup_union_with.
    by destruct (props !! k), (ps !! k).
  - done.
Qed.

Lemma merge_properties_from_lookup (l : list schema)
    (props : gmap string schema) (k : string) :
  foldl (merge_properties_of rec) props l !! k
  = match props !! k with
    | Some old =>
        Some (foldl (fun old v' => rec [old; v']) old (property_values k l))
    | None => merge_chain rec (property_values k l)
    end.
Proof.
  revert props. induction l as [|s l IH]; intros props; simpl.
  - by destruct (props !! k).
  - rewrite IH, merge_properties_of_lookup. unfold property_values. simpl.
    destruct (sproperties s ≫= (.!! k)) as [v|]; simpl; [|done].
    by destruct (props !! k).
Qed.

(** The entry of a name after the loop over all schemas. *)
Lemma merge_properties_lookup (l : list schema) (k : string) :
  merge_properties rec l !! k = merge_chain rec (property_values k l).
Proof.
  unfold merge_properties.
  by rewrite merge_properties_from_lookup, lookup_empty.
Qed.

End loops.

(** [merge_body] looks at its recursive calls only on schemas nested in its
    argument, and its result is no deeper than its argument. *)
Lemma merge_chain_ext (rec1 rec2 : list schema -> schema) (d : nat)
    (vs : list schema) :
  (∀ l', depth_list l' < d ->
         rec1 l' = rec2 l' ∧ depth (rec1 l') ≤ Nat.max 1 (depth_list l')) ->
  Forall (fun v => depth v < d) vs ->
  merge_chain rec1 vs = merge_chain rec2 vs
  ∧ ∀ r, merge_chain rec1 vs = Some r -> depth r < d.
Proof.
  intros Hrec Hvs. destruct vs as [|v vs]; simpl; [done|].
  apply Forall_cons in Hvs as [Hv Hvs].
  assert (foldl (fun old v' => rec1 [old; v']) v vs
          = foldl (fun old v' => rec2 [old; v']) v vs
          ∧ depth (foldl (fun old v' => rec1 [old; v']) v vs) < d) as [E B].
  { revert v Hv. induction Hvs as [|w vs Hw Hvs IH]; intros v Hv; simpl.
    - done.
    - assert (depth_list [v; w] < d) as Hd by (simpl; lia).
      destruct (Hrec _ Hd) as [E B]. rewrite <- E. apply IH.
      pose proof (depth_pos v). simpl in B. lia. }
  split; [by rewrite E|]. by intros r [= <-].
Qed.

Lemma merge_body_ext (rec1 rec2 : list schema -> schema) (l : list schema) :
  (∀ l', depth_list l' < depth_list l ->
         rec1 l' = rec2 l' ∧ depth (rec1 l') ≤ Nat.max 1 (depth_list l')) ->
  merge_body rec1 l = merge_body rec2 l
  ∧ depth (merge_body rec1 l) ≤ Nat.max 1 (depth_list l).
Proof.
  intros Hrec.
  assert (merge_properties rec1 l = merge_properties rec2 l) as Eprops.
  { apply map_eq. intros k. rewrite !merge_properties_lookup.
    apply (merge_chain_ext rec1 rec2 (depth_list l)); [done|].
    apply property_values_depth. }
  assert (item_schemas l ≠ [] -> depth_list (item_schemas l) < depth_list l)
    as Hits.
  { intros Hne. apply depth_list_lt; [done|]. apply item_schemas_depth. }
  unfold merge_body. split.
  - rewrite Eprops. f_equal.
    destruct (item_schemas l) as [|i its] eqn:E; [done|].
    destruct (Hrec (i :: its)) as [-> _]; [by apply Hits|done].
  - apply depth_Schema_le.
    + intros m k v Hm Hk. case_bool_decide; [|done].
      injection Hm as <-. rewrite merge_properties_lookup in Hk.
      eapply (merge_chain_ext rec1 rec2 (depth_list l)); [done| |done].
      apply property_values_depth.
    + intros j Hj. case_bool_decide; [|done].
      destruct (item_schemas l) as [|i its] eqn:E; [done|].
      injection Hj as <-.
      destruct (Hrec (i :: its)) as [_ B]; [by apply Hits|].
      specialize (Hits ltac:(done)).
      assert (0 < depth_list (i :: its))
        by (pose proof (depth_pos i); simpl; lia).
      lia.
Qed.

(** The bound on the recursion is never used up: with any bound above the
    depth of the argument the result is the same. *)
Lemma merge_fuel_stable (n : nat) (l : list schema) :
  depth_list l < n ->
  (∀ m, depth_list l < m -> merge_fuel m l = merge_fuel n l)
  ∧ depth (merge_fuel n l) ≤ Nat.max 1 (depth_list l).
Proof.
  revert l. induction n as [|n IH]; intros l Hl; [lia|].
  assert (∀ m l', depth_list l' < depth_list l -> depth_list l < S m ->
            merge_fuel n l' = merge_fuel m l'
            ∧ depth (merge_fuel n l') ≤ Nat.max 1 (depth_list l')) as Hrec.
  { intros m l' Hl' Hm. destruct (IH l') as [E B]; [lia|].
    split; [|done]. symmetry. apply E. lia. }
  split.
  - intros [|m] Hm; [lia|]. simpl. symmetry.
    apply merge_body_ext. intros l' Hl'. by apply Hrec.
  - simpl. apply (merge_body_ext _ (merge_fuel n)).
    intros l' Hl'. by apply (Hrec n).
Qed.

(** [_merge_schemas] satisfies the equation of the source function. *)
Lemma _merge_schemas_unfold (l : list schema) :
  _merge_schemas l = merge_body _merge_schemas l.
Proof.
  unfold _merge_schemas at 1. simpl. apply merge_body_ext.
  intros l' Hl'. destruct (merge_fuel_stable (depth_list l) l' Hl') as [E B].
  split; [|done]. unfold _merge_schemas. symmetry. apply E. lia.
Qed.

Lemma _merge_schemas_depth (l : list schema) :
  depth (_merge_schemas l) ≤ Nat.max 1 (depth_list l).
Proof. apply merge_fuel_stable. lia. Qed.

(** ** The fields of a merged schema *)

Lemma elem_of_merged_types (t : string) (l : list schema) :
  t ∈ merged_types l ↔ t = "null" ∨ ∃ s, s ∈ l ∧ t ∈ type_tags s.
Proof.
  unfold merged_types.
  rewrite elem_of_app, list_elem_of_singleton, elem_of_collect_types. tauto.
Qed.

Lemma _merge_schemas_type (l : list schema) :
  stype (_merge_schemas l) = TList (PyStr.sorted_set (merged_types l)).
Proof. by rewrite _merge_schemas_unfold. Qed.

Lemma _merge_schemas_properties (l : list schema) :
  sproperties (_merge_schemas l)
  = if bool_decide ("object" ∈ merged_types l)
    then Some (merge_properties _merge_schemas l) else None.
Proof. by rewrite _merge_schemas_unfold. Qed.

Lemma _merge_schemas_additional (l : list schema) :
  sadditional (_merge_schemas l)
  = if bool_decide ("object" ∈ merged_types l) then Some false else None.
Proof. by rewrite _merge_schemas_unfold. Qed.

Lemma _merge_schemas_items (l : list schema) :
  sitems (_merge_schemas l)
  = if bool_decide ("array" ∈ merged_types l) then
      match item_schemas l with
      | [] => None
      | its => Some (_merge_schemas its)
      end
    else None.
Proof. by rewrite _merge_schemas_unfold. Qed.

Lemma merged_types_sorted (l : list schema) :
  ∃ ts, stype (_merge_schemas l) = TList ts
        ∧ "null" ∈ ts ∧ StronglySorted PyStr.lt ts ∧ NoDup ts.
Proof.
  exists (PyStr.sorted_set (merged_types l)).
  split; [apply _merge_schemas_type|]. split; [|split].
  - apply elem_of_sorted_set, elem_of_merged_types. by left.
  - apply sorted_set_sorted.
  - apply sorted_NoDup, sorted_set_sorted.
Qed.

(** ** Commutativity on two schemas *)

Lemma property_values_pair (k : string) (a b : schema) :
  property_values k [a; b]
  = option_list (sproperties a ≫= (.!! k))
    ++ option_list (sproperties b ≫= (.!! k)).
Proof.
  unfold property_values. simpl.
  by destruct (sproperties a ≫= (.!! k)), (sproperties b ≫= (.!! k)).
Qed.

Lemma merged_types_pair_comm (t : string) (a b : schema) :
  t ∈ merged_types [a; b] ↔ t ∈ merged_types [b; a].
Proof.
  rewrite !elem_of_merged_types.
  split; (intros [->|(s & Hs & Ht)]; [by left|right; exists s; split; [|done]]);
    rewrite !elem_of_cons in Hs |- *; tauto.
Qed.

Lemma merge_body_comm (rec : list schema -> schema) (a b : schema) :
  (∀ x y, depth x < depth a -> depth y < depth b -> rec [x; y] = rec [y; x]) ->
  merge_body rec [a; b] = merge_body rec [b; a].
Proof.
  intros Hrec.
  assert (PyStr.sorted_set (merged_types [a; b])
          = PyStr.sorted_set (merged_types [b; a])) as Et.
  { apply sorted_set_ext. intros t. apply merged_types_pair_comm. }
  assert (∀ t, bool_decide (t ∈ merged_types [a; b])
               = bool_decide (t ∈ merged_types [b; a])) as Eb.
  { intros t. apply bool_decide_ext, merged_types_pair_comm. }
  assert (merge_properties rec [a; b] = merge_properties rec [b; a]) as Ep.
  { apply map_eq. intros k.
    rewrite !merge_properties_lookup, !property_values_pair.
    destruct (sproperties a) as [pa|] eqn:Ea, (sproperties b) as [pb|] eqn:Eb';
      simpl; try done.
    - destruct (pa !! k) as [x|] eqn:Ex, (pb !! k) as [y|] eqn:Ey;
        simpl; try done.
      f_equal. apply Hrec; eauto using depth_property_lt.
    - by rewrite app_nil_r.
    - by rewrite app_nil_r. }
  assert (match item_schemas [a; b] with
          | [] => None
          | its => Some (rec its)
          end
          = match item_schemas [b; a] with
            | [] => None
            | its => Some (rec its)
            end) as Ei.
  { unfold item_schemas. simpl.
    destruct (sitems a) as [x|] eqn:Ex, (sitems b) as [y|] eqn:Ey;
      simpl; try done.
    f_equal. apply Hrec; eauto using depth_items_lt. }
  unfold merge_body. fold (merged_types [a; b]) (merged_types [b; a]).
  by rewrite Et, !Eb, Ep, Ei.
Qed.

Lemma _merge_schemas_comm (a b : schema) :
  _merge_schemas [a; b] = _merge_schemas [b; a].
Proof.
  remember (depth a + depth b) as n eqn:Hn.
  revert a b Hn. induction (lt_wf n) as [n _ IH]. intros a b ->.
  rewrite (_merge_schemas_unfold [a; b]), (_merge_schemas_unfold [b; a]).
  apply merge_body_comm. intros x y Hx Hy.
  apply (IH (depth x + depth y)); [lia|done].
Qed.

(** ** Well-formed schemas *)

Lemma well_formed_leaf (t : string) : t ≠ "object" -> well_formed (leaf t).
Proof.
  intros Ht. constructor; simpl.
  - split; [by intros [? ?]|]. intros H%list_elem_of_singleton. congruence.
  - reflexivity.
  - by intros [? ?].
  - intros ps k v [=].
  - intros i [=].
Qed.

Lemma well_formed_array (i : schema) :
  well_formed i -> well_formed (Schema (TStr "array") None None (Some i)).
Proof.
  intros Hi. constructor; simpl.
  - split; [by intros [? ?]|]. intros H%list_elem_of_singleton. discriminate.
  - reflexivity.
  - intros _. by apply list_elem_of_singleton.
  - intros ps k v [=].
  - by intros ? [= <-].
Qed.

Lemma well_formed_object (ps : gmap string schema) :
  map_Forall (fun _ v => well_formed v) ps ->
  well_formed (Schema (TStr "object") (Some ps) (Some false) None).
Proof.
  intros Hps. constructor; simpl.
  - split; [intros _; by apply list_elem_of_singleton|by eexists].
  - reflexivity.
  - by intros [? ?].
  - intros ? k v [= <-] Hk. by apply (Hps k).
  - intros i [=].
Qed.

(** Every schema of [_singer_type_for_value] is well formed. *)
Lemma _singer_type_for_value_well_formed (v : value) :
  well_formed (_singer_type_for_value v).
Proof.
  remember (depth (_singer_type_for_value v)) as n eqn:Hn.
  revert v Hn. induction (lt_wf n) as [n _ IH]. intros v ->.
  destruct v as [| | | | |d|l|]; simpl; try by apply well_formed_leaf.
  - apply well_formed_object. intros k x Hk.
    apply lookup_fmap_Some in Hk as (v' & <- & Hv').
    eapply IH; [|done].
    apply (depth_property_lt _ (_singer_type_for_value <$> d) k); [done|].
    by rewrite lookup_fmap, Hv'.
  - destruct l as [|v0 rest]; [by apply well_formed_leaf|].
    assert (well_formed (Schema (TStr "array") None None
                           (Some (_singer_type_for_value v0)))) as H0.
    { apply well_formed_array. eapply IH; [|done].
      destruct v0; simpl; lia. }
    destruct v0; try exact H0.
    by apply well_formed_array, well_formed_array, well_formed_leaf.
Qed.

Lemma type_tags_merge (l : list schema) :
  type_tags (_merge_schemas l) = PyStr.sorted_set (merged_types l).
Proof. unfold type_tags. by rewrite _merge_schemas_type. Qed.

(** What holds of the sub-schemas under one name, and is kept by the merge
    of two schemas, holds of the entry the loop leaves under that name. *)
Lemma merge_chain_invariant (P : schema -> Prop) (d : nat)
    (vs : list schema) (r : schema) :
  (∀ x y, depth x < d -> depth y < d -> P x -> P y ->
          P (_merge_schemas [x; y])) ->
  Forall (fun v => depth v < d ∧ P v) vs ->
  merge_chain _merge_schemas vs = Some r -> P r.
Proof.
  intros Hpair Hvs. destruct vs as [|v vs]; simpl; [done|].
  apply Forall_cons in Hvs as [[Hd Hv] Hvs]. intros [= <-].
  revert v Hd Hv. induction Hvs as [|w vs [Hdw Hw] Hvs IH]; intros v Hd Hv.
  - done.
  - simpl. apply IH.
    + pose proof (_merge_schemas_depth [v; w]) as B.
      pose proof (depth_pos v).
      change (depth_list [v; w])
        with (Nat.max (depth v) (Nat.max (depth w) 0)) in B.
      lia.
    + by apply Hpair.
Qed.

Lemma _merge_schemas_well_formed (l : list schema) :
  Forall well_formed l -> well_formed (_merge_schemas l).
Proof.
  remember (depth_list l) as n eqn:Hn.
  revert l Hn. induction (lt_wf n) as [n _ IH]. intros l -> Hl.
  rewrite Forall_forall in Hl.
  constructor.
  - rewrite _merge_schemas_properties, type_tags_merge, elem_of_sorted_set.
    case_bool_decide; split; done.
  - rewrite _merge_schemas_properties, _merge_schemas_additional.
    by case_bool_decide.
  - rewrite _merge_schemas_items, type_tags_merge, elem_of_sorted_set.
    case_bool_decide; [done|by intros [? ?]].
  - intros ps k v. rewrite _merge_schemas_properties.
    case_bool_decide; [|done]. intros [= <-].
    rewrite merge_properties_lookup.
    apply (merge_chain_invariant well_formed (depth_list l)).
    + intros x y Hx Hy Wx Wy. apply (IH (depth_list [x; y])).
      * simpl. lia.
      * done.
      * constructor; [done|]. constructor; [done|]. constructor.
    + pose proof (property_values_depth k l) as Hd.
      rewrite Forall_forall in Hd |- *. intros x Hx.
      split; [by apply Hd|].
      apply list_elem_of_omap in Hx as (s & Hs & Hv).
      destruct (sproperties s) as [ps|] eqn:E; [|done].
      destruct (Hl s Hs) as [s _ _ _ Hsub _]. by apply (Hsub ps k).
  - intros i. rewrite _merge_schemas_items.
    case_bool_decide; [|done].
    destruct (item_schemas l) as [|i0 its] eqn:E; [done|]. intros [= <-].
    apply (IH (depth_list (i0 :: its))); [|done|].
    + rewrite <- E. apply depth_list_lt; [by rewrite E|].
      apply item_schemas_depth.
    + rewrite <- E. apply Forall_forall.
      intros x (s & Hs & Hv)%list_elem_of_omap.
      destruct (Hl s Hs) as [s _ _ _ _ Hsub]. by apply Hsub.
Qed.

(** ** Merging a schema with itself *)

Lemma with_null_eq (s : schema) :
  with_null s
  = {| stype := TList (PyStr.sorted_set (type_tags s ++ ["null"]));
       sproperties :=
         match sproperties s with
         | Some ps => Some (with_null <$> ps)
         | None => None
         end;
       sadditional := sadditional s;
       sitems :=
         match sitems s with
         | Some i => Some (with_null i)
         | None => None
         end |}.
Proof. by destruct s. Qed.

Lemma elem_of_merged_types_twice (t : string) (s : schema) :
  t ∈ merged_types [s; s] ↔ t = "null" ∨ t ∈ type_tags s.
Proof.
  rewrite elem_of_merged_types. split.
  - intros [->|(s' & Hs' & Ht)]; [by left|right].
    rewrite !elem_of_cons, elem_of_nil in Hs'. by destruct Hs' as [->|[->|[]]].
  - intros [->|Ht]; [by left|right]. exists s. split; [by left|done].
Qed.

Lemma remerge_with_null (s : schema) :
  well_formed s -> with_null (_merge_schemas [s; s]) = with_null s.
Proof.
  remember (depth s) as n eqn:Hn.
  revert s Hn. induction (lt_wf n) as [n _ IH]. intros s -> Hs.
  destruct Hs as [s Hobj Hadd Harr Hps Hit].
  assert (∀ t, t ≠ "null" ->
            bool_decide (t ∈ merged_types [s; s]) = bool_decide (t ∈ type_tags s))
    as Hdec.
  { intros t Ht. apply bool_decide_ext. rewrite elem_of_merged_types_twice.
    tauto. }
  rewrite (with_null_eq (_merge_schemas [s; s])), (with_null_eq s).
  rewrite type_tags_merge, _merge_schemas_properties,
    _merge_schemas_additional, _merge_schemas_items, !Hdec by done.
  f_equal.
  - f_equal. apply sorted_set_ext. intros t.
    rewrite !elem_of_app, elem_of_sorted_set, elem_of_merged_types_twice,
      list_elem_of_singleton. tauto.
  - destruct (sproperties s) as [ps|] eqn:E.
    + rewrite bool_decide_eq_true_2 by (by apply Hobj).
      f_equal. apply map_eq. intros k.
      rewrite !lookup_fmap, merge_properties_lookup, property_values_pair, E.
      simpl. destruct (ps !! k) as [v|] eqn:Ek; simpl; [|done].
      f_equal. apply (IH (depth v)); [|done|].
      * by apply (depth_property_lt s ps k).
      * by apply (Hps ps k).
    + rewrite bool_decide_eq_false_2; [done|].
      intros H. apply Hobj in H as [? [=]].
  - rewrite Hadd. destruct (sproperties s) as [ps|] eqn:E.
    + by rewrite bool_decide_eq_true_2 by (by apply Hobj).
    + rewrite bool_decide_eq_false_2; [done|].
      intros H. apply Hobj in H as [? [=]].
  - unfold item_schemas. simpl. destruct (sitems s) as [i|] eqn:E; simpl.
    + rewrite bool_decide_eq_true_2 by (by apply Harr).
      f_equal. apply (IH (depth i)); [|done|].
      * by apply depth_items_lt.
      * by apply Hit.
    + by case_bool_decide.
Qed.

(** Merging a merged schema with itself leaves its type list as it is. *)
Lemma remerge_type (l : list schema) :
  stype (_merge_schemas [_merge_schemas l; _merge_schemas l])
  = stype (_merge_schemas l).
Proof.
  rewrite (_merge_schemas_type [_; _]), (_merge_schemas_type l). f_equal.
  apply sorted_set_ext. intros t.
  rewrite elem_of_merged_types_twice, type_tags_merge, elem_of_sorted_set,
    elem_of_merged_types.
  tauto.
Qed.

(** Exact equality would fail: a property seen in one of the two schemas
    only is copied as it is by the first merge and made nullable by the
    second. *)
Lemma remerge_not_identity :
  let m := _merge_schemas
             [_singer_type_for_value (VDict {[ "x" := VInt 1 ]});
              _singer_type_for_value (VDict ∅)] in
  sproperties m = Some {[ "x" := leaf "integer" ]}
  ∧ sproperties (_merge_schemas [m; m])
    = Some {[ "x" := Schema (TList ["integer"; "null"]) None None None ]}.
Proof. split; vm_compute; reflexivity. Qed.

(** ** A property carried by one schema only *)

Lemma omap_None {A B : Type} (f : A -> option B) (l : list A) :
  (∀ x, x ∈ l -> f x = None) -> omap f l = [].
Proof.
  induction l as [|x l IH]; intros H; simpl; [done|].
  rewrite (H x) by (by left). apply IH. intros y Hy. apply H. by right.
Qed.

Lemma property_values_single (k : string) (l1 l2 : list schema) (s : schema)
    (v : schema) :
  sproperties s ≫= (.!! k) = Some v ->
  (∀ s', s' ∈ l1 ++ l2 -> sproperties s' ≫= (.!! k) = None) ->
  property_values k (l1 ++ s :: l2) = [v].
Proof.
  intros Hs Hothers. unfold property_values.
  rewrite omap_app. simpl. rewrite Hs.
  rewrite !omap_None; [done| |];
    intros s' Hs'; apply Hothers, elem_of_app; auto.
Qed.

(** ** The sample of [_infer_properties] *)

Lemma scan_rows_take (rows : list value) (n : nat) :
  n ≤ length rows -> scan_rows rows n = foldl scan_row ∅ (take n rows).
Proof.
  unfold scan_rows. induction n as [|n IH]; intros Hn; [done|].
  destruct (lookup_lt_is_Some_2 rows n) as [row Hrow]; [lia|].
  rewrite seq_S, foldl_app, (take_S_r rows n row), foldl_app by done.
  simpl. rewrite Hrow, IH by lia. done.
Qed.

(** Only the first 100 rows are read. *)
Lemma _infer_properties_take (rows : list value) :
  _infer_properties rows = _merge_schemas <$> foldl scan_row ∅ (take 100 rows).
Proof.
  unfold _infer_properties. rewrite scan_rows_take by lia.
  destruct (Nat.min_spec 100 (length rows)) as [[_ ->]|[Hle ->]]; [done|].
  by rewrite !firstn_all2 by lia.
Qed.

(** Rows after the first 100 bring nothing. *)
Lemma _infer_properties_app (rows extra : list value) :
  100 ≤ length rows ->
  _infer_properties (rows ++ extra) = _infer_properties rows.
Proof.
  intros Hlen. rewrite !_infer_properties_take. by rewrite take_app_le.
Qed.

Lemma scan_row_not_dict (union : gmap string (list schema)) (row : value) :
  is_dict row = false -> scan_row union row = union.
Proof. by destruct row. Qed.

Lemma scan_rows_skip (l1 l2 : list value) (row : value)
    (union : gmap string (list schema)) :
  is_dict row = false ->
  foldl scan_row union (l1 ++ row :: l2) = foldl scan_row union (l1 ++ l2).
Proof.
  intros Hrow. rewrite !foldl_app. simpl. by rewrite scan_row_not_dict.
Qed.

(** ** Stream names *)

Lemma elem_of_forallb {A} (p : A -> bool) (l : list A) :
  forallb p l = true ↔ ∀ x, x ∈ l -> p x = true.
Proof.
  rewrite forallb_forall.
  split; intros H x Hx; apply H; by apply list_elem_of_In.
Qed.

Lemma elem_of_existsb {A} (p : A -> bool) (l : list A) :
  existsb p l = true ↔ ∃ x, x ∈ l ∧ p x = true.
Proof.
  rewrite existsb_exists.
  split; intros (x & Hx & Hp); exists x; (split; [|done]);
    by apply list_elem_of_In.
Qed.

Lemma elem_of_List_filter {A} (p : A -> bool) (l : list A) (x : A) :
  x ∈ List.filter p l ↔ x ∈ l ∧ p x = true.
Proof. by rewrite !list_elem_of_In, filter_In. Qed.

(** The characters that have a lower-case form of their own are those of
    the runs of the table. *)
Lemma in_run_points (first last step target c : N) :
  ((first <=? c) && (c <=? last) && ((c - first) mod step =? 0))%N = true ->
  c ∈ run_points (first, last, step, target).
Proof.
  intros [[H1%N.leb_le H2%N.leb_le]%andb_true_iff H3%N.eqb_eq]%andb_true_iff.
  unfold run_points. apply list_elem_of_fmap.
  exists (N.to_nat ((c - first) / step)). split.
  - rewrite N2Nat.id. pose proof (N.div_mod' (c - first) step) as H.
    rewrite H3, N.add_0_r, N.mul_comm in H. lia.
  - apply elem_of_seq. split; [apply Nat.le_0_l|].
    assert ((c - first) / step <= (last - first) / step)%N as H.
    { apply N.Div0.div_le_mono. lia. }
    clear H3. revert H.
    generalize ((c - first) / step)%N ((last - first) / step)%N. lia.
Qed.

Lemma simple_lower_run (table : list (N * N * N * N)) (c : N) :
  PyUnicode.simple_lower table c ≠ c -> c ∈ table ≫= run_points.
Proof.
  induction table as [|[[[first last] step] target] table IH];
    cbn [PyUnicode.simple_lower]; [done|].
  intros H. rewrite bind_cons. apply elem_of_app.
  destruct ((first <=? c) && (c <=? last) && ((c - first) mod step =? 0))%N
    eqn:E.
  - left. by eapply in_run_points.
  - right. by apply IH.
Qed.

(** Checked on the code points of the runs: the lower-case form of an
    alphanumeric character is a lower-case alphanumeric character that
    [lower()] leaves as it is. *)
Lemma lower_runs_ok :
  forallb lowered_ok (PyUnicode.lower_runs ≫= run_points) = true.
Proof. vm_compute. reflexivity. Qed.

Lemma simple_lower_ok (c : N) :
  PyUnicode.isalnum c = true ->
  PyUnicode.simple_lower PyUnicode.lower_runs c ≠ c ->
  lower_alnum_or_underscore (PyUnicode.simple_lower PyUnicode.lower_runs c)
  = true
  ∧ unchanged_char (PyUnicode.simple_lower PyUnicode.lower_runs c) = true.
Proof.
  intros Ha Hn. pose proof lower_runs_ok as H.
  rewrite elem_of_forallb in H.
  specialize (H c (simple_lower_run _ _ Hn)).
  unfold lowered_ok in H. rewrite Ha in H. by apply andb_true_iff in H.
Qed.

(** What [lower()] writes for a character that the filter kept, other than
    U+0130. *)
Lemma lower_out (c c' : N) :
  PyUnicode.isalnum c || (c =? 0x5F)%N = true ->
  c ≠ 0x130%N ->
  c' ∈ PyUnicode.lower_full c ∨ c = 0x3A3%N ∧ c' = 0x3C2%N ->
  unchanged_char c' = true
  ∧ (not_lowered c = false -> lower_alnum_or_underscore c' = true).
Proof.
  intros Hk Hn [H|[-> ->]]; [|by vm_compute].
  unfold PyUnicode.lower_full in H.
  rewrite (proj2 (N.eqb_neq c 0x130)) in H by done.
  apply list_elem_of_singleton in H as ->.
  destruct (N.eq_dec (PyUnicode.simple_lower PyUnicode.lower_runs c) c)
    as [E|E].
  - rewrite E. unfold unchanged_char, not_lowered, lower_alnum_or_underscore.
    rewrite E, Hk, N.eqb_refl, (proj2 (N.eqb_neq c 0x130)) by done.
    split; [done|]. rewrite andb_true_r. cbn [orb].
    destruct (PyUnicode.isalnum c), (c =? 0x5F)%N, (PyUnicode.isupper c);
      done.
  - destruct (PyUnicode.isalnum c) eqn:Ha.
    + destruct (simple_lower_ok c Ha E) as [H1 H2]. done.
    + cbn [orb] in Hk. apply N.eqb_eq in Hk as ->. by vm_compute in E.
Qed.

Lemma elem_of_lower_from (c' : N) (before s : list N) :
  c' ∈ PyUnicode.lower_from before s ->
  ∃ c, c ∈ s
       ∧ (c' ∈ PyUnicode.lower_full c ∨ c = 0x3A3%N ∧ c' = 0x3C2%N).
Proof.
  revert before. induction s as [|c s IH]; intros before;
    cbn [PyUnicode.lower_from]; [by intros ?%elem_of_nil|].
  intros [H|H]%elem_of_app.
  - exists c. split; [apply list_elem_of_here|].
    destruct (c =? 0x3A3)%N eqn:E; [|by left].
    apply N.eqb_eq in E as ->.
    destruct (PyUnicode.final_sigma before s);
      apply list_elem_of_singleton in H as ->; [by right|left].
    assert (PyUnicode.lower_full 0x3A3 = [0x3C3]%N) as -> by by vm_compute.
    apply list_elem_of_here.
  - destruct (IH _ H) as (c0 & ? & ?). exists c0.
    split; [by apply list_elem_of_further|done].
Qed.

Lemma lower_from_elem (c c' : N) (before s : list N) :
  c ∈ s -> c ≠ 0x3A3%N -> c' ∈ PyUnicode.lower_full c ->
  c' ∈ PyUnicode.lower_from before s.
Proof.
  intros Hc Hn Hc'. revert before.
  induction s as [|c0 s IH]; intros before; [by apply elem_of_nil in Hc|].
  cbn [PyUnicode.lower_from]. apply elem_of_app.
  apply elem_of_cons in Hc as [<-|Hc].
  - left. by rewrite (proj2 (N.eqb_neq c 0x3A3)).
  - right. by apply IH.
Qed.

(** The characters of a sanitized name: each comes from a character of the
    name, or from an underscore written for a space or a hyphen, that the
    filter kept. *)
Lemma elem_of_sanitize (c' : N) (name : list N) :
  c' ∈ sanitize name ->
  ∃ c, (c ∈ name ∨ c = 0x5F%N)
       ∧ PyUnicode.isalnum c || (c =? 0x5F)%N = true
       ∧ (c' ∈ PyUnicode.lower_full c ∨ c = 0x3A3%N ∧ c' = 0x3C2%N).
Proof.
  unfold sanitize, PyUnicode.lower, PyUnicode.replace.
  intros (c & Hc & Hout)%elem_of_lower_from.
  apply elem_of_List_filter in Hc as [Hc Hk].
  exists c. split; [|done].
  apply list_elem_of_fmap in Hc as (c1 & -> & Hc).
  apply list_elem_of_fmap in Hc as (c0 & -> & Hc).
  destruct (c0 =? 0x20)%N; [by right|].
  destruct (c0 =? 0x2D)%N; [by right|by left].
Qed.

Lemma sanitize_elem (c c' : N) (name : list N) :
  c ∈ name -> PyUnicode.isalnum c = true -> c ≠ 0x3A3%N ->
  c' ∈ PyUnicode.lower_full c -> c' ∈ sanitize name.
Proof.
  intros Hc Ha Hn Hc'.
  unfold sanitize, PyUnicode.lower, PyUnicode.replace.
  apply (lower_from_elem c); [|done..].
  apply elem_of_List_filter. rewrite Ha. split; [|done].
  assert (c ≠ 0x20%N) as H1 by (intros ->; by vm_compute in Ha).
  assert (c ≠ 0x2D%N) as H2 by (intros ->; by vm_compute in Ha).
  apply list_elem_of_fmap. exists c.
  rewrite (proj2 (N.eqb_neq c 0x2D)) by done. split; [done|].
  apply list_elem_of_fmap. exists c.
  by rewrite (proj2 (N.eqb_neq c 0x20)).
Qed.

(** A sanitized name has no U+0130, and without one in the name all its
    characters are left as they are by [lower()]. *)
Lemma sanitize_unchanged_chars (c' : N) (name : list N) :
  0x130%N ∉ name -> c' ∈ sanitize name -> unchanged_char c' = true.
Proof.
  intros Hn (c & Hc & Hk & Hout)%elem_of_sanitize.
  apply (lower_out c c'); [done| |done].
  intros ->. by destruct Hc as [Hc|Hc].
Qed.

Lemma sanitize_no_dotted_I (name : list N) : 0x130%N ∉ sanitize name.
Proof.
  intros (c & Hc & Hk & Hout)%elem_of_sanitize.
  destruct (N.eq_dec c 0x130%N) as [->|Hn].
  - destruct Hout as [Hout|[Hout _]]; [|done].
    vm_compute in Hout.
    apply elem_of_cons in Hout as [Hout|Hout]; [done|].
    apply list_elem_of_singleton in Hout. done.
  - by destruct (lower_out c _ Hk Hn Hout) as [H _].
Qed.

Lemma unchanged_char_spec (c : N) :
  unchanged_char c = true ->
  PyUnicode.isalnum c || (c =? 0x5F)%N = true
  ∧ PyUnicode.simple_lower PyUnicode.lower_runs c = c
  ∧ c ≠ 0x130%N ∧ c ≠ 0x3A3%N ∧ c ≠ 0x20%N ∧ c ≠ 0x2D%N.
Proof.
  intros H.
  assert (c ≠ 0x3A3%N) as H1 by (intros ->; by vm_compute in H).
  assert (c ≠ 0x20%N) as H2 by (intros ->; by vm_compute in H).
  assert (c ≠ 0x2D%N) as H3 by (intros ->; by vm_compute in H).
  unfold unchanged_char in H.
  apply andb_true_iff in H as [[H4 H5%N.eqb_eq]%andb_true_iff H6].
  apply negb_true_iff, N.eqb_neq in H6. done.
Qed.

Lemma sanitize_unchanged (s : list N) :
  forallb unchanged_char s = true -> sanitize s = s.
Proof.
  unfold sanitize, PyUnicode.lower, PyUnicode.replace.
  generalize (@nil N) as before.
  induction s as [|c s IH]; intros before; [done|].
  cbn [forallb]. intros [Hc Hs]%andb_true_iff.
  destruct (unchanged_char_spec c Hc) as (Hk & Hl & H1 & H2 & H3 & H4).
  cbn [fmap list_fmap].
  rewrite (proj2 (N.eqb_neq c 0x20)), (proj2 (N.eqb_neq c 0x2D)) by done.
  cbn [List.filter]. rewrite Hk. cbn [PyUnicode.lower_from].
  rewrite (proj2 (N.eqb_neq c 0x3A3)) by done.
  unfold PyUnicode.lower_full at 1.
  rewrite (proj2 (N.eqb_neq c 0x130)), Hl by done.
  cbn [app]. f_equal. by apply IH.
Qed.

(** The characters of [query_<id>]. *)
Lemma digits_codes (d : Decimal.uint) (c : N) :
  c ∈ PyUnicode.codes (NilEmpty.string_of_uint d) ->
  c ∈ PyUnicode.codes "0123456789".
Proof.
  unfold PyUnicode.codes.
  induction d; cbn; intros H; [by apply elem_of_nil in H|..];
    (apply elem_of_cons in H as [->|H]; [|by apply IHd]);
    repeat first [apply list_elem_of_here | apply list_elem_of_further].
Qed.

Lemma query_id_codes (n c : N) :
  c ∈ PyUnicode.codes ("query_" +:+ PyStr.str n) ->
  c ∈ PyUnicode.codes "query_0123456789".
Proof.
  change (PyUnicode.codes ("query_" +:+ PyStr.str n))
    with (PyUnicode.codes "query_" ++ PyUnicode.codes (PyStr.str n)).
  change (PyUnicode.codes "query_0123456789")
    with (PyUnicode.codes "query_" ++ PyUnicode.codes "0123456789").
  intros [H|H]%elem_of_app; apply elem_of_app; [by left|right].
  unfold PyStr.str, NilZero.string_of_uint in H.
  destruct (N.to_uint n) eqn:E; try by apply digits_codes in H.
  cbn in H. apply list_elem_of_singleton in H as ->.
  apply list_elem_of_here.
Qed.

Lemma query_id_chars (p : N -> bool) (n : N) :
  forallb p (PyUnicode.codes "query_0123456789") = true ->
  forallb p (PyUnicode.codes ("query_" +:+ PyStr.str n)) = true.
Proof.
  rewrite !elem_of_forallb. intros H c Hc. eapply H, query_id_codes, Hc.
Qed.

(** The stream name of a query whose name has an alphanumeric character
    that [lower()] does not turn into lower-case alphanumeric characters
    has a character that is not a lower-case alphanumeric character or an
    underscore. *)
Lemma not_lowered_stream (q : query) (data : list value) :
  existsb not_lowered
    (default (PyUnicode.codes ("query_" +:+ PyStr.str (query_id q)))
             (query_name q)) = true ->
  forallb lower_alnum_or_underscore (stream (generate_stream_entry q data))
  = false.
Proof.
  set (name := default _ _).
  change (stream (generate_stream_entry q data))
    with (match sanitize name with
          | [] => PyUnicode.codes ("query_" +:+ PyStr.str (query_id q))
          | _ :: _ => sanitize name
          end).
  intros (c & Hc & Hbad)%elem_of_existsb. apply not_true_is_false.
  intros Hsafe.
  assert (∃ c', c' ∈ sanitize name ∧ lower_alnum_or_underscore c' = false)
    as (c' & Hc' & Hc'bad).
  { assert (c ≠ 0x3A3%N) as Hsigma by (intros ->; by vm_compute in Hbad).
    unfold not_lowered in Hbad.
    apply andb_true_iff in Hbad as [Ha Hbad].
    destruct (N.eq_dec c 0x130%N) as [->|Hn].
    - exists 0x307%N. split; [|by vm_compute].
      apply (sanitize_elem 0x130); [done..|].
      apply list_elem_of_further, list_elem_of_here.
    - rewrite (proj2 (N.eqb_neq c 0x130)) in Hbad by done.
      apply andb_true_iff in Hbad as [Hu Hl%N.eqb_eq].
      exists c. split.
      + apply (sanitize_elem c); [done..|].
        unfold PyUnicode.lower_full.
        rewrite (proj2 (N.eqb_neq c 0x130)), Hl by done.
        apply list_elem_of_here.
      + unfold lower_alnum_or_underscore. rewrite Hu, andb_false_r.
        rewrite orb_false_r. apply N.eqb_neq.
        intros ->. by vm_compute in Hu. }
  destruct (sanitize name) as [|c0 s] eqn:E;
    [by apply elem_of_nil in Hc'|].
  rewrite elem_of_forallb in Hsafe. rewrite (Hsafe c' Hc') in Hc'bad.
  done.
Qed.

(** ** The nested example *)

Lemma nested_example_meta :
  _infer_properties nested_rows !! "meta"
  = Some (Schema (TList ["null"; "object"])
            (Some {[ "x" := Schema (TList ["integer"; "null"]) None None None;
                     "y" := leaf "string" ]})
            (Some false) None).
Proof. vm_compute. reflexivity. Qed.

(** * The claims of the specification *)

(** C1, as stated, fails: on the rows
    [[{"meta": {"x": 1}}, {"meta": {"x": 2, "y": "z"}}]] the schema of
    [meta] is not the one with the property [y] of type
    [["null", "string"]]. *)
Lemma nested_example_not_as_stated :
  _infer_properties nested_rows !! "meta"
  ≠ Some (Schema (TList ["null"; "object"])
            (Some {[ "x" := Schema (TList ["integer"; "null"]) None None None;
                     "y" := Schema (TList ["null"; "string"]) None None None ]})
            (Some false) None).
Proof.
  rewrite nested_example_meta. intros H. discriminate H.
Qed.

(** C1, amended. On the rows
    [[{"meta": {"x": 1}}, {"meta": {"x": 2, "y": "z"}}]] the field [meta]
    is merged to the schema of type [["null", "object"]] with
    [additionalProperties] false whose property [x], seen in both rows,
    has the type list [["integer", "null"]] and whose property [y], seen
    in one row only, keeps its leaf schema [{"type": "string"}]. *)
Theorem nested_example_result :
  _infer_properties nested_rows !! "meta"
  = Some (Schema (TList ["null"; "object"])
            (Some {[ "x" := Schema (TList ["integer"; "null"]) None None None;
                     "y" := leaf "string" ]})
            (Some false) None).
Proof. apply nested_example_meta. Qed.

(** C2, as stated, fails: with 101 rows, the first of them not an object,
    the last row is outside the sample; once the first row is removed the
    last row is sampled and brings its field. *)
Lemma row_skip_beyond_cap :
  is_dict VNull = false
  ∧ _infer_properties ([] ++ VNull :: (replicate 99 row_a ++ [row_b]))
    ≠ _infer_properties ([] ++ (replicate 99 row_a ++ [row_b])).
Proof.
  split; [reflexivity|]. intros H.
  apply (f_equal (fun m : gmap string schema => m !! "b")) in H.
  vm_compute in H. discriminate H.
Qed.

(** C2, amended. For every list of sample rows with a row that is not an
    object, the list being no longer than the 100 rows of the sample, or
    the row coming after the first 100 rows, [_infer_properties] gives the
    same mapping as on the list without that row. *)
Theorem row_skip (l1 l2 : list value) (row : value) :
  is_dict row = false ->
  length (l1 ++ row :: l2) ≤ 100 ∨ 100 ≤ length l1 ->
  _infer_properties (l1 ++ row :: l2) = _infer_properties (l1 ++ l2).
Proof.
  intros Hrow Hlen. rewrite !_infer_properties_take. f_equal.
  destruct Hlen as [Hlen|Hlen].
  - rewrite length_app in Hlen. simpl in Hlen.
    rewrite !firstn_all2 by (rewrite ?length_app; simpl; lia).
    by apply scan_rows_skip.
  - by rewrite !take_app_le by done.
Qed.

Lemma row_skip_witness :
  is_dict (VStr "oops") = false
  ∧ (length ([row_a] ++ VStr "oops" :: [row_b]) ≤ 100 ∨ 100 ≤ length [row_a])
  ∧ _infer_properties ([row_a] ++ VStr "oops" :: [row_b])
    = _infer_properties ([row_a] ++ [row_b]).
Proof.
  assert (length ([row_a] ++ VStr "oops" :: [row_b]) ≤ 100
          ∨ 100 ≤ length [row_a]) as H by (left; simpl; lia).
  split; [reflexivity|]. split; [exact H|].
  exact (row_skip [row_a] [row_b] (VStr "oops") eq_refl H).
Defined.

(** C3. For every two leaf schemas [a] and [b] (indeed for every two
    schemas), merging [[a, b]] and merging [[b, a]] give the same schema:
    the same type list, the same properties mapping and the same items
    schema, at every level. *)
Theorem merge_commutative (a b : schema) :
  _merge_schemas [a; b] = _merge_schemas [b; a].
Proof. apply _merge_schemas_comm. Qed.

(** C4. For every two leaf schemas [a] and [b], merging [merge([a, b])]
    with itself gives [merge([a, b])] again up to the presence of ["null"]
    in the type lists: the two schemas are the same once ["null"] is added
    to the type list at every level, and their own type lists, which
    already hold ["null"], are the same list. *)
Theorem remerge_idempotent_up_to_null (va vb : value) :
  let m := _merge_schemas
             [_singer_type_for_value va; _singer_type_for_value vb] in
  with_null (_merge_schemas [m; m]) = with_null m
  ∧ stype (_merge_schemas [m; m]) = stype m.
Proof.
  intros m. split.
  - apply remerge_with_null, _merge_schemas_well_formed.
    constructor; [apply _singer_type_for_value_well_formed|].
    constructor; [apply _singer_type_for_value_well_formed|].
    constructor.
  - apply remerge_type.
Qed.

(** C5. For every non-empty sequence of schemas, the type list of the
    merged schema contains ["null"], is sorted in increasing order and has
    no duplicates. *)
Theorem merged_type_nullable_sorted (schemas : list schema) :
  schemas ≠ [] ->
  ∃ ts, stype (_merge_schemas schemas) = TList ts
        ∧ "null" ∈ ts ∧ StronglySorted PyStr.lt ts ∧ NoDup ts.
Proof. intros _. apply merged_types_sorted. Qed.

Lemma merged_type_nullable_sorted_witness :
  [leaf "string"; leaf "integer"] ≠ []
  ∧ ∃ ts, stype (_merge_schemas [leaf "string"; leaf "integer"]) = TList ts
          ∧ "null" ∈ ts ∧ StronglySorted PyStr.lt ts ∧ NoDup ts.
Proof.
  split; [discriminate|].
  apply (merged_type_nullable_sorted [leaf "string"; leaf "integer"]).
  discriminate.
Defined.

(** C6. For every non-empty array whose first element is null,
    [_singer_type_for_value] returns exactly
    [{"type": "array", "items": {"type": "array", "items": {"type": "string"}}}],
    whatever the later elements are. *)
Theorem leading_null_array_quirk (rest : list value) :
  _singer_type_for_value (VList (VNull :: rest))
  = Schema (TStr "array") None None
      (Some (Schema (TStr "array") None None (Some (leaf "string")))).
Proof. reflexivity. Qed.

(** C7. Two sequences of at least 100 rows with the same first 100 rows
    have the same inferred properties: the rows after the first 100 never
    change the result, whatever fields they bring. *)
Theorem sample_cap (rows1 rows2 : list value) :
  100 ≤ length rows1 -> 100 ≤ length rows2 ->
  take 100 rows1 = take 100 rows2 ->
  _infer_properties rows1 = _infer_properties rows2.
Proof.
  intros _ _ H. rewrite !_infer_properties_take. by rewrite H.
Qed.

Lemma sample_cap_witness :
  100 ≤ length (replicate 100 row_a ++ replicate 50 row_b)
  ∧ 100 ≤ length (replicate 100 row_a ++ replicate 50 row_a)
  ∧ take 100 (replicate 100 row_a ++ replicate 50 row_b)
    = take 100 (replicate 100 row_a ++ replicate 50 row_a)
  ∧ _infer_properties (replicate 100 row_a ++ replicate 50 row_b)
    = _infer_properties (replicate 100 row_a ++ replicate 50 row_a).
Proof.
  assert (100 ≤ length (replicate 100 row_a ++ replicate 50 row_b)) as H1
    by (vm_compute; lia).
  assert (100 ≤ length (replicate 100 row_a ++ replicate 50 row_a)) as H2
    by (vm_compute; lia).
  assert (take 100 (replicate 100 row_a ++ replicate 50 row_b)
          = take 100 (replicate 100 row_a ++ replicate 50 row_a)) as H3
    by reflexivity.
  split; [exact H1|]. split; [exact H2|]. split; [exact H3|].
  exact (sample_cap _ _ H1 H2 H3).
Defined.




(** C9. When a property name occurs in the properties mapping of exactly
    one schema of the sequence, an object schema, the merged schema has
    under that name exactly the sub-schema of that input, copied
    unchanged: no ["null"] is added to it and its type tag is not turned
    into a list. *)
Theorem single_property_copied (l1 l2 : list schema) (s : schema)
    (ps : gmap string schema) (k : string) (v : schema) :
  "object" ∈ type_tags s ->
  sproperties s = Some ps ->
  ps !! k = Some v ->
  (∀ s', s' ∈ l1 ++ l2 -> sproperties s' ≫= (.!! k) = None) ->
  ∃ mps, sproperties (_merge_schemas (l1 ++ s :: l2)) = Some mps
         ∧ mps !! k = Some v.
Proof.
  intros Hobj Hps Hk Hothers.
  exists (merge_properties _merge_schemas (l1 ++ s :: l2)). split.
  - rewrite _merge_schemas_properties, bool_decide_eq_true_2; [done|].
    apply elem_of_merged_types. right. exists s. split; [|done].
    apply elem_of_app. right. by left.
  - rewrite merge_properties_lookup.
    rewrite (property_values_single k l1 l2 s v); [done| |done].
    by rewrite Hps.
Qed.

Lemma single_property_copied_witness :
  let s := _singer_type_for_value (VDict {[ "y" := VStr "z" ]}) in
  let o := _singer_type_for_value (VDict {[ "x" := VInt 1 ]}) in
  "object" ∈ type_tags s
  ∧ sproperties s = Some {[ "y" := leaf "string" ]}
  ∧ ({[ "y" := leaf "string" ]} : gmap string schema) !! "y"
    = Some (leaf "string")
  ∧ (∀ s', s' ∈ [o] ++ [leaf "integer"] -> sproperties s' ≫= (.!! "y") = None)
  ∧ ∃ mps, sproperties (_merge_schemas ([o] ++ s :: [leaf "integer"]))
           = Some mps
           ∧ mps !! "y" = Some (leaf "string").
Proof.
  intros s o.
  assert ("object" ∈ type_tags s) as H1 by (by apply list_elem_of_singleton).
  assert (sproperties s = Some {[ "y" := leaf "string" ]}) as H2
    by (vm_compute; reflexivity).
  assert (({[ "y" := leaf "string" ]} : gmap string schema) !! "y"
          = Some (leaf "string")) as H3 by reflexivity.
  assert (∀ s', s' ∈ [o] ++ [leaf "integer"] ->
                sproperties s' ≫= (.!! "y") = None) as H4.
  { intros s' Hs'. simpl in Hs'.
    rewrite !elem_of_cons, elem_of_nil in Hs'.
    destruct Hs' as [->|[->|[]]]; vm_compute; reflexivity. }
  split; [exact H1|]. split; [exact H2|]. split; [exact H3|].
  split; [exact H4|].
  exact (single_property_copied [o] [leaf "integer"] s _ "y" _ H1 H2 H3 H4).
Defined.

(** C10. Merging the empty sequence of schemas does not fail and returns
    exactly [{"type": ["null"]}], with no other key. *)
Theorem merge_empty :
  _merge_schemas [] = Schema (TList ["null"]) None None None.
Proof. reflexivity. Qed.

(** * Further properties of the merge *)

Lemma schema_eq (a b : schema) :
  stype a = stype b -> sproperties a = sproperties b ->
  sadditional a = sadditional b -> sitems a = sitems b -> a = b.
Proof. destruct a, b; simpl; congruence. Qed.

Lemma elem_of_merged_types_cons (t : string) (s : schema) (l : list schema) :
  t ∈ merged_types (s :: l) ↔ t ∈ type_tags s ∨ t ∈ merged_types l.
Proof.
  rewrite !elem_of_merged_types. split.
  - intros [->|(s' & [->|Hs']%elem_of_cons & Ht)]; eauto.
  - intros [Ht|[->|(s' & Hs' & Ht)]]; [right|by left|right].
    + exists s. split; [by left|done].
    + exists s'. split; [by right|done].
Qed.

Lemma elem_of_merged_types_app (t : string) (l1 l2 : list schema) :
  t ∈ merged_types (l1 ++ l2) ↔ t ∈ merged_types l1 ∨ t ∈ merged_types l2.
Proof.
  rewrite !elem_of_merged_types. split.
  - intros [->|(s & [Hs|Hs]%elem_of_app & Ht)]; eauto.
  - intros [[->|(s & Hs & Ht)]|[->|(s & Hs & Ht)]]; try (by left);
      right; exists s; (split; [|done]); apply elem_of_app; auto.
Qed.

(** Two lists of schemas with the same tags give merged schemas that
    agree on everything that depends on the tags only. *)
Lemma merge_same_tags (l l' : list schema) :
  (∀ t, t ∈ merged_types l ↔ t ∈ merged_types l') ->
  sproperties (_merge_schemas l) = sproperties (_merge_schemas l') ->
  sitems (_merge_schemas l) = sitems (_merge_schemas l') ->
  _merge_schemas l = _merge_schemas l'.
Proof.
  intros Ht Hp Hi. apply schema_eq; [| done | | done].
  - rewrite !_merge_schemas_type. f_equal. by apply sorted_set_ext.
  - rewrite !_merge_schemas_additional. by rewrite (bool_decide_ext _ _ (Ht _)).
Qed.

Lemma property_values_cons (k : string) (s : schema) (l : list schema) :
  property_values k (s :: l)
  = option_list (sproperties s ≫= (.!! k)) ++ property_values k l.
Proof.
  unfold property_values. simpl. by destruct (sproperties s ≫= (.!! k)).
Qed.

Lemma property_values_app (k : string) (l1 l2 : list schema) :
  property_values k (l1 ++ l2) = property_values k l1 ++ property_values k l2.
Proof. apply omap_app. Qed.

Lemma item_schemas_cons (s : schema) (l : list schema) :
  item_schemas (s :: l) = option_list (sitems s) ++ item_schemas l.
Proof. unfold item_schemas. simpl. by destruct (sitems s). Qed.

(** The entry of a name in the merged schema, whether or not the merged
    schema has properties. *)
Lemma _merge_schemas_property (l : list schema) (k : string) :
  Forall well_formed l ->
  sproperties (_merge_schemas l) ≫= (.!! k)
  = merge_chain _merge_schemas (property_values k l).
Proof.
  intros Hl. rewrite _merge_schemas_properties. case_bool_decide as Hobj; simpl.
  - apply merge_properties_lookup.
  - destruct (property_values k l) as [|v vs] eqn:E; [done|]. exfalso.
    assert (v ∈ property_values k l) as Hv by (rewrite E; by left).
    apply list_elem_of_omap in Hv as (s & Hs & Hv).
    destruct (sproperties s) as [ps|] eqn:Eps; [|done].
    rewrite Forall_forall in Hl. destruct (Hl s Hs) as [s Hobj' _ _ _ _].
    apply Hobj, elem_of_merged_types. right. exists s. split; [done|].
    apply Hobj'. by rewrite Eps.
Qed.

(** The sub-schema under ["items"] of the merged schema. *)
Lemma _merge_schemas_items_wf (l : list schema) :
  Forall well_formed l ->
  sitems (_merge_schemas l)
  = match item_schemas l with
    | [] => None
    | its => Some (_merge_schemas its)
    end.
Proof.
  intros Hl. rewrite _merge_schemas_items. case_bool_decide as Harr; [done|].
  destruct (item_schemas l) as [|v vs] eqn:E; [done|]. exfalso.
  assert (v ∈ item_schemas l) as Hv by (rewrite E; by left).
  apply list_elem_of_omap in Hv as (s & Hs & Hv).
  rewrite Forall_forall in Hl. destruct (Hl s Hs) as [s _ _ Harr' _ _].
  apply Harr, elem_of_merged_types. right. exists s. split; [done|].
  apply Harr'. by rewrite Hv.
Qed.

Lemma item_schemas_app (l1 l2 : list schema) :
  item_schemas (l1 ++ l2) = item_schemas l1 ++ item_schemas l2.
Proof. apply omap_app. Qed.

Lemma item_schemas_well_formed (l : list schema) :
  Forall well_formed l -> Forall well_formed (item_schemas l).
Proof.
  intros Hl. rewrite Forall_forall in Hl. apply Forall_forall.
  intros x (s & Hs & Hv)%list_elem_of_omap.
  destruct (Hl s Hs) as [s _ _ _ _ Hsub]. by apply Hsub.
Qed.

Lemma property_values_well_formed (k : string) (l : list schema) :
  Forall well_formed l -> Forall well_formed (property_values k l).
Proof.
  intros Hl. rewrite Forall_forall in Hl. apply Forall_forall.
  intros x (s & Hs & Hv)%list_elem_of_omap.
  destruct (sproperties s) as [ps|] eqn:E; [|done].
  destruct (Hl s Hs) as [s _ _ _ Hsub _]. by apply (Hsub ps k).
Qed.

Lemma merge_chain_app (rec : list schema -> schema) (vs ws : list schema) :
  merge_chain rec (option_list (merge_chain rec vs) ++ ws)
  = merge_chain rec (vs ++ ws).
Proof.
  destruct vs as [|v vs]; simpl; [done|]. by rewrite foldl_app.
Qed.

(** Merging a merged schema alone gives it back. *)
Lemma _merge_schemas_idem (l : list schema) :
  _merge_schemas [_merge_schemas l] = _merge_schemas l.
Proof.
  remember (depth_list l) as n eqn:Hn.
  revert l Hn. induction (lt_wf n) as [n _ IH]. intros l ->.
  assert (∀ t, t ∈ merged_types [_merge_schemas l] ↔ t ∈ merged_types l) as Ht.
  { intros t. rewrite elem_of_merged_types_cons, type_tags_merge,
      elem_of_sorted_set, !elem_of_merged_types.
    split; [intros [H|[->|(s & []%elem_of_nil & _)]]; auto|auto]. }
  apply merge_same_tags; [done| |].
  - rewrite (_merge_schemas_properties [_]), (bool_decide_ext _ _ (Ht _)).
    rewrite (_merge_schemas_properties l).
    case_bool_decide; [|done]. f_equal. apply map_eq. intros k.
    rewrite merge_properties_lookup, property_values_cons.
    rewrite _merge_schemas_properties, bool_decide_eq_true_2 by done.
    simpl. by destruct (merge_properties _merge_schemas l !! k).
  - rewrite (_merge_schemas_items [_]), (bool_decide_ext _ _ (Ht _)).
    rewrite item_schemas_cons, (_merge_schemas_items l).
    case_bool_decide; [|done].
    destruct (item_schemas l) as [|i its] eqn:E; [done|]. simpl. f_equal.
    apply (IH (depth_list (i :: its))); [|done].
    rewrite <- E. apply depth_list_lt; [by rewrite E|apply item_schemas_depth].
Qed.

(** Merging in two steps: a merged schema stands for the schemas it was
    merged from. *)
Lemma _merge_schemas_flatten (l1 l2 : list schema) :
  Forall well_formed l1 ->
  _merge_schemas (_merge_schemas l1 :: l2) = _merge_schemas (l1 ++ l2).
Proof.
  remember (depth_list (l1 ++ l2)) as n eqn:Hn.
  revert l1 l2 Hn. induction (lt_wf n) as [n _ IH]. intros l1 l2 -> Hl1.
  assert (∀ t, t ∈ merged_types (_merge_schemas l1 :: l2)
               ↔ t ∈ merged_types (l1 ++ l2)) as Ht.
  { intros t. rewrite elem_of_merged_types_cons, type_tags_merge,
      elem_of_sorted_set, elem_of_merged_types_app. tauto. }
  apply merge_same_tags; [done| |].
  - rewrite !_merge_schemas_properties, (bool_decide_ext _ _ (Ht _)).
    case_bool_decide; [|done]. f_equal. apply map_eq. intros k.
    rewrite !merge_properties_lookup, property_values_cons,
      property_values_app, _merge_schemas_property by done.
    apply merge_chain_app.
  - rewrite !_merge_schemas_items, (bool_decide_ext _ _ (Ht _)).
    case_bool_decide; [|done].
    rewrite item_schemas_cons, item_schemas_app, _merge_schemas_items_wf
      by done.
    pose proof (item_schemas_well_formed l1 Hl1) as Hw.
    pose proof (item_schemas_depth (l1 ++ l2)) as Hd.
    rewrite item_schemas_app in Hd.
    destruct (item_schemas l1) as [|i its] eqn:E; [done|].
    simpl. f_equal.
    change (i :: its ++ item_schemas l2) with ((i :: its) ++ item_schemas l2).
    apply (IH (depth_list ((i :: its) ++ item_schemas l2))); [|done|done].
    by apply depth_list_lt.
Qed.

(** The loop over the properties merges pair by pair; with two or more
    sub-schemas under a name this is their merge at once. *)
Lemma merge_chain_merge (v1 v2 : schema) (vs : list schema) :
  Forall well_formed (v1 :: v2 :: vs) ->
  merge_chain _merge_schemas (v1 :: v2 :: vs)
  = Some (_merge_schemas (v1 :: v2 :: vs)).
Proof.
  simpl. induction vs as [|w vs IH] using rev_ind; intros Hwf; [done|].
  rewrite foldl_app. simpl. f_equal.
  assert (Forall well_formed (v1 :: v2 :: vs)) as Hwf'.
  { rewrite !app_comm_cons in Hwf. by apply Forall_app in Hwf as [? _]. }
  injection (IH Hwf') as ->.
  by rewrite _merge_schemas_flatten.
Qed.

(** The merged schema does not depend on the order of the schemas. *)
Lemma _merge_schemas_Permutation (l l' : list schema) :
  Forall well_formed l -> l ≡ₚ l' -> _merge_schemas l = _merge_schemas l'.
Proof.
  remember (depth_list l) as n eqn:Hn.
  revert l l' Hn. induction (lt_wf n) as [n _ IH]. intros l l' -> Hl Hperm.
  assert (Forall well_formed l') as Hl' by (by rewrite <- Hperm).
  assert (∀ t, t ∈ merged_types l ↔ t ∈ merged_types l') as Ht.
  { intros t. rewrite !elem_of_merged_types.
    by setoid_rewrite Hperm. }
  apply merge_same_tags; [done| |].
  - rewrite !_merge_schemas_properties, (bool_decide_ext _ _ (Ht _)).
    case_bool_decide; [|done]. f_equal. apply map_eq. intros k.
    rewrite !merge_properties_lookup.
    assert (property_values k l ≡ₚ property_values k l') as Hpv
      by (unfold property_values; by rewrite Hperm).
    pose proof (property_values_well_formed k l Hl) as Hw.
    pose proof (property_values_well_formed k l' Hl') as Hw'.
    pose proof (property_values_depth k l) as Hd.
    destruct (property_values k l) as [|v1 [|v2 vs]] eqn:E.
    + apply Permutation_nil_l in Hpv. by rewrite <- Hpv.
    + apply Permutation_singleton_l in Hpv. by rewrite <- Hpv.
    + pose proof (Permutation_length Hpv) as Hlen.
      destruct (property_values k l') as [|w1 [|w2 ws]] eqn:E';
        [done|done|].
      rewrite !merge_chain_merge by done. f_equal.
      apply (IH (depth_list (v1 :: v2 :: vs))); [|done|done|done].
      by apply depth_list_lt.
  - rewrite !_merge_schemas_items, (bool_decide_ext _ _ (Ht _)).
    case_bool_decide; [|done].
    assert (item_schemas l ≡ₚ item_schemas l') as Hit
      by (unfold item_schemas; by rewrite Hperm).
    pose proof (item_schemas_well_formed l Hl) as Hw.
    pose proof (item_schemas_depth l) as Hd.
    destruct (item_schemas l) as [|i its] eqn:E.
    + apply Permutation_nil_l in Hit. by rewrite <- Hit.
    + destruct (item_schemas l') as [|i' its'] eqn:E'.
      { by apply Permutation_nil_r in Hit. }
      f_equal. apply (IH (depth_list (i :: its))); [|done|done|done].
      by apply depth_list_lt.
Qed.

(** A schema with the key ["type"] only, whose tag is already among the
    merged ones, changes nothing. *)
Lemma _merge_schemas_leaf_neutral (l1 l2 : list schema) (t : string) :
  t ∈ merged_types (l1 ++ l2) ->
  _merge_schemas (l1 ++ leaf t :: l2) = _merge_schemas (l1 ++ l2).
Proof.
  intros Ht.
  assert (∀ t', t' ∈ merged_types (l1 ++ leaf t :: l2)
                ↔ t' ∈ merged_types (l1 ++ l2)) as Hts.
  { intros t'. rewrite !elem_of_merged_types_app, elem_of_merged_types_cons.
    unfold type_tags at 1. simpl. rewrite list_elem_of_singleton.
    split; [|tauto]. intros [H|[->|H]]; [tauto| |tauto].
    by apply elem_of_merged_types_app. }
  apply merge_same_tags; [done| |].
  - rewrite !_merge_schemas_properties, (bool_decide_ext _ _ (Hts _)).
    case_bool_decide; [|done]. f_equal. apply map_eq. intros k.
    by rewrite !merge_properties_lookup, !property_values_app,
      property_values_cons.
  - rewrite !_merge_schemas_items, (bool_decide_ext _ _ (Hts _)).
    by rewrite !item_schemas_app, item_schemas_cons.
Qed.

(** ** Further properties of the sample *)

Lemma union_append_fold (union : gmap string (list schema))
    (d : gmap string value) (k : string) :
  map_fold union_append union d !! k
  = match d !! k with
    | Some v => Some (default [] (union !! k) ++ [_singer_type_for_value v])
    | None => union !! k
    end.
Proof.
  revert k.
  apply (map_fold_weak_ind
           (fun r (m : gmap string value) =>
              ∀ k, r !! k
                   = match m !! k with
                     | Some v =>
                         Some (default [] (union !! k)
                                 ++ [_singer_type_for_value v])
                     | None => union !! k
                     end)).
  - intros k. by rewrite lookup_empty.
  - intros i x m r Hi IH k. unfold union_append.
    destruct (decide (i = k)) as [->|Hne].
    + by rewrite !lookup_insert_eq, IH, Hi.
    + by rewrite !lookup_insert_ne, IH by done.
Qed.

Lemma scan_row_lookup (union : gmap string (list schema)) (row : value)
    (k : string) :
  scan_row union row !! k
  = match field_schema k row with
    | Some s => Some (default [] (union !! k) ++ [s])
    | None => union !! k
    end.
Proof.
  destruct row; try done. simpl. rewrite union_append_fold.
  by destruct (d !! k).
Qed.

Lemma scan_rows_lookup (rows : list value)
    (union : gmap string (list schema)) (k : string) :
  foldl scan_row union rows !! k
  = match field_schemas k rows with
    | [] => union !! k
    | vs => Some (default [] (union !! k) ++ vs)
    end.
Proof.
  revert union. induction rows as [|row rows IH]; intros union; [done|].
  simpl. rewrite IH, scan_row_lookup. unfold field_schemas. simpl.
  destruct (field_schema k row) as [s|]; simpl; [|done].
  destruct (omap (field_schema k) rows); simpl; [done|].
  by rewrite <- app_assoc.
Qed.

(** The schema of a field: the merge of the leaf schemas of its values in
    the first 100 rows; no entry for a field that these rows do not have. *)
Lemma _infer_properties_lookup (rows : list value) (k : string) :
  _infer_properties rows !! k
  = match field_schemas k (take 100 rows) with
    | [] => None
    | vs => Some (_merge_schemas vs)
    end.
Proof.
  rewrite _infer_properties_take, lookup_fmap, scan_rows_lookup, lookup_empty.
  by destruct (field_schemas k (take 100 rows)).
Qed.

Lemma field_schemas_well_formed (k : string) (rows : list value) :
  Forall well_formed (field_schemas k rows).
Proof.
  apply Forall_forall. intros s (row & _ & Hs)%list_elem_of_omap.
  destruct row as [| | | | |d| |]; simpl in Hs; try discriminate Hs.
  destruct (d !! k) as [v|]; simpl in Hs; [|discriminate Hs].
  injection Hs as <-. apply _singer_type_for_value_well_formed.
Qed.

Lemma field_schemas_app (k : string) (rows1 rows2 : list value) :
  field_schemas k (rows1 ++ rows2)
  = field_schemas k rows1 ++ field_schemas k rows2.
Proof. apply omap_app. Qed.

(** ** Further properties of stream names and addresses *)

Lemma to_uint_nonnil (n : N) : N.to_uint n ≠ Decimal.Nil.
Proof.
  destruct n as [|p]; [discriminate|].
  apply DecimalPos.Unsigned.to_uint_nonnil.
Qed.

Lemma str_inj (n m : N) : PyStr.str n = PyStr.str m -> n = m.
Proof.
  unfold PyStr.str. intros H.
  apply (f_equal NilZero.uint_of_string) in H.
  rewrite !NilZero.usu in H by apply to_uint_nonnil.
  injection H as H. by apply DecimalN.Unsigned.to_uint_inj.
Qed.

Lemma rstrip_snoc (a : ascii) (s : string) :
  rstrip a (s +:+ String a EmptyString) = rstrip a s.
Proof.
  induction s as [|c s IH]; simpl.
  - by rewrite Ascii.eqb_refl.
  - by rewrite IH.
Qed.

(** * Further verified properties *)

(** ** [_singer_type_for_value] *)

(** X1. The type of a leaf schema is always a single tag, never a list,
    and the tag is one of the seven type names. *)
Theorem leaf_type_single_tag (v : value) :
  ∃ t, stype (_singer_type_for_value v) = TStr t ∧ t ∈ type_names.
Proof.
  assert (∀ t, t ∈ type_names -> ∃ t', TStr t = TStr t' ∧ t' ∈ type_names)
    as H by eauto.
  unfold type_names in *.
  destruct v as [| | | | |d|[|[] rest]|]; simpl; apply H;
    repeat first [apply list_elem_of_here | apply list_elem_of_further].
Qed.

(** X2. Every leaf schema is well formed at every level: ["properties"] and
    ["additionalProperties": false] go with the tag ["object"], ["items"]
    with the tag ["array"]. *)
Theorem leaf_schema_well_formed (v : value) :
  well_formed (_singer_type_for_value v).
Proof. apply _singer_type_for_value_well_formed. Qed.

(** ** [_merge_schemas] *)

(** X3. The tags of the merged schema are ["null"] and the tags of the
    merged schemas, nothing else. *)
Theorem merged_tags_union (schemas : list schema) (t : string) :
  t ∈ type_tags (_merge_schemas schemas)
  ↔ t = "null" ∨ ∃ s, s ∈ schemas ∧ t ∈ type_tags s.
Proof.
  by rewrite type_tags_merge, elem_of_sorted_set, elem_of_merged_types.
Qed.

(** X4. When the merged schema has properties, their names are exactly the
    names that occur in the properties of some merged schema. *)
Theorem merged_property_names (schemas : list schema)
    (mps : gmap string schema) (k : string) :
  sproperties (_merge_schemas schemas) = Some mps ->
  is_Some (mps !! k)
  ↔ ∃ s ps, s ∈ schemas ∧ sproperties s = Some ps ∧ is_Some (ps !! k).
Proof.
  rewrite _merge_schemas_properties. case_bool_decide; [|done].
  intros [= <-]. rewrite merge_properties_lookup. split.
  - intros [v Hv].
    destruct (property_values k schemas) as [|v0 vs] eqn:E; [done|].
    assert (v0 ∈ property_values k schemas) as Hv0 by (rewrite E; by left).
    apply list_elem_of_omap in Hv0 as (s & Hs & Hv0).
    destruct (sproperties s) as [ps|] eqn:Eps; [|done].
    exists s, ps. by rewrite <- Eps.
  - intros (s & ps & Hs & Hps & [v Hv]).
    assert (v ∈ property_values k schemas) as Hin.
    { apply list_elem_of_omap. exists s. by rewrite Hps. }
    destruct (property_values k schemas) as [|v0 vs]; [|by eexists].
    by apply elem_of_nil in Hin.
Qed.

Lemma merged_property_names_witness :
  let a := _singer_type_for_value (VDict {[ "x" := VInt 1 ]}) in
  let b := _singer_type_for_value (VDict {[ "y" := VStr "z" ]}) in
  let mps : gmap string schema :=
    {[ "x" := leaf "integer"; "y" := leaf "string" ]} in
  sproperties (_merge_schemas [a; b]) = Some mps
  ∧ (is_Some (mps !! "y")
     ↔ ∃ s ps, s ∈ [a; b] ∧ sproperties s = Some ps ∧ is_Some (ps !! "y")).
Proof.
  intros a b mps.
  assert (sproperties (_merge_schemas [a; b]) = Some mps) as H
    by (vm_compute; reflexivity).
  split; [exact H|]. exact (merged_property_names [a; b] mps "y" H).
Defined.

(** X5. Merging well-formed schemas gives a well-formed schema. *)
Theorem merge_well_formed (schemas : list schema) :
  Forall well_formed schemas -> well_formed (_merge_schemas schemas).
Proof. apply _merge_schemas_well_formed. Qed.

Lemma merge_well_formed_witness :
  Forall well_formed [_singer_type_for_value (VList [VInt 1]);
                      _singer_type_for_value (VStr "a")]
  ∧ well_formed (_merge_schemas [_singer_type_for_value (VList [VInt 1]);
                                 _singer_type_for_value (VStr "a")]).
Proof.
  assert (Forall well_formed [_singer_type_for_value (VList [VInt 1]);
                              _singer_type_for_value (VStr "a")]) as H.
  { constructor; [apply _singer_type_for_value_well_formed|].
    constructor; [apply _singer_type_for_value_well_formed|]. constructor. }
  split; [exact H|]. exact (merge_well_formed _ H).
Defined.

(** X6. Merging a merged schema alone gives the same schema again: the
    result of a merge is a fixed point of merging. *)
Theorem merge_of_merged (schemas : list schema) :
  _merge_schemas [_merge_schemas schemas] = _merge_schemas schemas.
Proof. apply _merge_schemas_idem. Qed.

(** X7. Merging can be done in steps: for well-formed schemas, merging the
    result of a first merge with further schemas gives the same schema as
    merging all of them at once. *)
Theorem merge_in_steps (schemas more : list schema) :
  Forall well_formed schemas ->
  _merge_schemas (_merge_schemas schemas :: more)
  = _merge_schemas (schemas ++ more).
Proof. apply _merge_schemas_flatten. Qed.

Lemma merge_in_steps_witness :
  let a := _singer_type_for_value (VDict {[ "x" := VInt 1 ]}) in
  let b := _singer_type_for_value (VDict {[ "x" := VStr "s" ]}) in
  let c := _singer_type_for_value (VDict {[ "x" := VNull; "y" := VBool true ]}) in
  Forall well_formed [a; b]
  ∧ _merge_schemas (_merge_schemas [a; b] :: [c])
    = _merge_schemas ([a; b] ++ [c]).
Proof.
  intros a b c.
  assert (Forall well_formed [a; b]) as H.
  { constructor; [apply _singer_type_for_value_well_formed|].
    constructor; [apply _singer_type_for_value_well_formed|]. constructor. }
  split; [exact H|]. exact (merge_in_steps [a; b] [c] H).
Defined.

(** X8. For well-formed schemas the merged schema does not depend on the
    order of the schemas in the sequence. *)
Theorem merge_order_independent (schemas schemas' : list schema) :
  Forall well_formed schemas -> schemas ≡ₚ schemas' ->
  _merge_schemas schemas = _merge_schemas schemas'.
Proof. apply _merge_schemas_Permutation. Qed.

Lemma merge_order_independent_witness :
  let a := _singer_type_for_value (VDict {[ "x" := VInt 1 ]}) in
  let b := _singer_type_for_value (VDict {[ "x" := VStr "s" ]}) in
  let c := _singer_type_for_value (VList [VDict {[ "y" := VBool true ]}]) in
  Forall well_formed [a; b; c]
  ∧ [a; b; c] ≡ₚ [c; a; b]
  ∧ _merge_schemas [a; b; c] = _merge_schemas [c; a; b].
Proof.
  intros a b c.
  assert (Forall well_formed [a; b; c]) as H.
  { constructor; [apply _singer_type_for_value_well_formed|].
    constructor; [apply _singer_type_for_value_well_formed|].
    constructor; [apply _singer_type_for_value_well_formed|]. constructor. }
  assert ([a; b; c] ≡ₚ [c; a; b]) as Hp.
  { symmetry. apply (Permutation_cons_append [a; b] c). }
  split; [exact H|]. split; [exact Hp|].
  exact (merge_order_independent _ _ H Hp).
Defined.

(** X9. For well-formed schemas, a property name carried by two or more
    of them has in the merged schema the merge of all the sub-schemas
    recorded under that name. *)
Theorem property_seen_twice_merged (schemas : list schema) (k : string) :
  Forall well_formed schemas ->
  2 ≤ length (property_values k schemas) ->
  ∃ mps, sproperties (_merge_schemas schemas) = Some mps
         ∧ mps !! k = Some (_merge_schemas (property_values k schemas)).
Proof.
  intros Hwf Hlen.
  pose proof (_merge_schemas_property schemas k Hwf) as H.
  pose proof (property_values_well_formed k schemas Hwf) as Hw.
  destruct (property_values k schemas) as [|v1 [|v2 vs]];
    [simpl in Hlen; lia|simpl in Hlen; lia|].
  rewrite merge_chain_merge in H by done.
  destruct (sproperties (_merge_schemas schemas)) as [mps|]; [|done].
  by exists mps.
Qed.

Lemma property_seen_twice_merged_witness :
  let a := _singer_type_for_value (VDict {[ "x" := VInt 1 ]}) in
  let b := _singer_type_for_value (VDict {[ "x" := VStr "s" ]}) in
  let c := _singer_type_for_value (VDict {[ "x" := VList [] ]}) in
  Forall well_formed [a; b; c]
  ∧ 2 ≤ length (property_values "x" [a; b; c])
  ∧ ∃ mps, sproperties (_merge_schemas [a; b; c]) = Some mps
           ∧ mps !! "x"
             = Some (_merge_schemas (property_values "x" [a; b; c])).
Proof.
  intros a b c.
  assert (Forall well_formed [a; b; c]) as H.
  { constructor; [apply _singer_type_for_value_well_formed|].
    constructor; [apply _singer_type_for_value_well_formed|].
    constructor; [apply _singer_type_for_value_well_formed|]. constructor. }
  assert (2 ≤ length (property_values "x" [a; b; c])) as Hl
    by (vm_compute; lia).
  split; [exact H|]. split; [exact Hl|].
  exact (property_seen_twice_merged [a; b; c] "x" H Hl).
Defined.

(** X10. A schema that has the key ["type"] only, with a tag that another
    schema of the sequence has or the tag ["null"], changes nothing in the
    merged schema: repeated scalar values, nulls and empty arrays next to
    other arrays leave no trace. *)
Theorem repeated_leaf_neutral (l1 l2 : list schema) (t : string) :
  t = "null" ∨ (∃ s, s ∈ l1 ++ l2 ∧ t ∈ type_tags s) ->
  _merge_schemas (l1 ++ leaf t :: l2) = _merge_schemas (l1 ++ l2).
Proof.
  intros Ht. by apply _merge_schemas_leaf_neutral, elem_of_merged_types.
Qed.

Lemma repeated_leaf_neutral_witness :
  let a := _singer_type_for_value (VList [VInt 1; VInt 2]) in
  ("array" = "null" ∨ ∃ s, s ∈ [a] ++ [leaf "string"] ∧ "array" ∈ type_tags s)
  ∧ _merge_schemas ([a] ++ leaf "array" :: [leaf "string"])
    = _merge_schemas ([a] ++ [leaf "string"]).
Proof.
  intros a.
  assert ("array" = "null"
          ∨ ∃ s, s ∈ [a] ++ [leaf "string"] ∧ "array" ∈ type_tags s) as H.
  { right. exists a. split; [apply list_elem_of_here|].
    apply list_elem_of_here. }
  split; [exact H|]. exact (repeated_leaf_neutral [a] [leaf "string"] _ H).
Defined.

(** ** [_infer_properties] *)

(** X11. The schema inferred for a field is the merge of the leaf schemas
    of its values in the first 100 rows, over the rows that are objects
    and have the field; a field that none of these rows has is absent from
    the result. *)
Theorem inferred_field_schema (sample_rows : list value) (k : string) :
  _infer_properties sample_rows !! k
  = match field_schemas k (take 100 sample_rows) with
    | [] => None
    | vs => Some (_merge_schemas vs)
    end.
Proof. apply _infer_properties_lookup. Qed.

(** X12. Every inferred field schema is nullable, with a sorted type list,
    and well formed at every level. *)
Theorem inferred_field_nullable (sample_rows : list value) (k : string)
    (s : schema) :
  _infer_properties sample_rows !! k = Some s ->
  well_formed s
  ∧ ∃ ts, stype s = TList ts ∧ "null" ∈ ts ∧ StronglySorted PyStr.lt ts.
Proof.
  rewrite _infer_properties_lookup.
  pose proof (field_schemas_well_formed k (take 100 sample_rows)) as Hw.
  destruct (field_schemas k (take 100 sample_rows)) as [|v vs]; [done|].
  intros [= <-]. split; [by apply _merge_schemas_well_formed|].
  destruct (merged_types_sorted (v :: vs)) as (ts & H1 & H2 & H3 & _).
  by exists ts.
Qed.

Lemma inferred_field_nullable_witness :
  let s := Schema (TList ["null"; "object"])
             (Some {[ "x" := Schema (TList ["integer"; "null"]) None None None;
                      "y" := leaf "string" ]})
             (Some false) None in
  _infer_properties nested_rows !! "meta" = Some s
  ∧ well_formed s
  ∧ ∃ ts, stype s = TList ts ∧ "null" ∈ ts ∧ StronglySorted PyStr.lt ts.
Proof.
  intros s.
  assert (_infer_properties nested_rows !! "meta" = Some s) as H
    by (vm_compute; reflexivity).
  split; [exact H|]. exact (inferred_field_nullable nested_rows "meta" s H).
Defined.

(** X13. Within the sample of 100 rows the order of the rows does not
    matter. *)
Theorem infer_row_order (rows rows' : list value) :
  length rows ≤ 100 -> rows ≡ₚ rows' ->
  _infer_properties rows = _infer_properties rows'.
Proof.
  intros Hlen Hperm. apply map_eq. intros k.
  rewrite !_infer_properties_lookup.
  rewrite !firstn_all2 by (by rewrite <- ?Hperm).
  assert (field_schemas k rows ≡ₚ field_schemas k rows') as Hfs
    by (unfold field_schemas; by rewrite Hperm).
  pose proof (field_schemas_well_formed k rows) as Hw.
  destruct (field_schemas k rows) as [|v vs].
  - apply Permutation_nil_l in Hfs. by rewrite <- Hfs.
  - destruct (field_schemas k rows') as [|v' vs'].
    { by apply Permutation_nil_r in Hfs. }
    f_equal. by apply _merge_schemas_Permutation.
Qed.

Lemma infer_row_order_witness :
  length [row_a; VNull; row_b] ≤ 100
  ∧ [row_a; VNull; row_b] ≡ₚ [row_b; row_a; VNull]
  ∧ _infer_properties [row_a; VNull; row_b]
    = _infer_properties [row_b; row_a; VNull].
Proof.
  assert (length [row_a; VNull; row_b] ≤ 100) as H by (simpl; lia).
  assert ([row_a; VNull; row_b] ≡ₚ [row_b; row_a; VNull]) as Hp.
  { symmetry. apply (Permutation_cons_append [row_a; VNull] row_b). }
  split; [exact H|]. split; [exact Hp|]. exact (infer_row_order _ _ H Hp).
Defined.

Lemma field_schemas_filter (k : string) (rows : list value) :
  field_schemas k (filter (fun row => is_dict row = true) rows)
  = field_schemas k rows.
Proof.
  induction rows as [|row rows IH]; [done|].
  change (field_schemas k (row :: rows))
    with (field_schemas k ([row] ++ rows)).
  rewrite (field_schemas_app k [row] rows), <- IH.
  destruct (is_dict row) eqn:E.
  - rewrite filter_cons_True by done.
    apply (field_schemas_app k [row]).
  - rewrite filter_cons_False by (by rewrite E).
    by destruct row.
Qed.

(** X14. Within the sample of 100 rows, the rows that are not objects can
    all be left out: the result is that of the object rows alone. *)
Theorem infer_object_rows_only (rows : list value) :
  length rows ≤ 100 ->
  _infer_properties rows
  = _infer_properties (filter (fun row => is_dict row = true) rows).
Proof.
  intros Hlen. apply map_eq. intros k.
  rewrite !_infer_properties_lookup.
  rewrite !firstn_all2; [by rewrite field_schemas_filter| |done].
  etrans; [apply length_filter|done].
Qed.

Lemma infer_object_rows_only_witness :
  length [VInt 3; row_a; VList [row_b]; row_b; VNull] ≤ 100
  ∧ _infer_properties [VInt 3; row_a; VList [row_b]; row_b; VNull]
    = _infer_properties
        (filter (fun row => is_dict row = true)
           [VInt 3; row_a; VList [row_b]; row_b; VNull]).
Proof.
  assert (length [VInt 3; row_a; VList [row_b]; row_b; VNull] ≤ 100) as H
    by (simpl; lia).
  split; [exact H|]. exact (infer_object_rows_only _ H).
Defined.

(** X15. Sampling more rows only widens the result: a field inferred from
    a list of rows is still there when rows are added at the end, and its
    type list keeps all its tags. *)
Theorem infer_more_rows_widen (rows more : list value) (k : string)
    (s : schema) :
  _infer_properties rows !! k = Some s ->
  ∃ s', _infer_properties (rows ++ more) !! k = Some s'
        ∧ ∀ t, t ∈ type_tags s -> t ∈ type_tags s'.
Proof.
  rewrite !_infer_properties_lookup, take_app, field_schemas_app.
  destruct (field_schemas k (take 100 rows)) as [|v vs]; [done|].
  intros [= <-].
  exists (_merge_schemas
            ((v :: vs)
             ++ field_schemas k (take (100 - length rows) more))).
  split; [done|]. intros t.
  rewrite !type_tags_merge, !elem_of_sorted_set, elem_of_merged_types_app.
  tauto.
Qed.

Lemma infer_more_rows_widen_witness :
  let s := Schema (TList ["integer"; "null"]) None None None in
  _infer_properties [row_a] !! "a" = Some s
  ∧ ∃ s', _infer_properties ([row_a] ++ [VDict {[ "a" := VStr "x" ]}]) !! "a"
          = Some s'
          ∧ ∀ t, t ∈ type_tags s -> t ∈ type_tags s'.
Proof.
  intros s.
  assert (_infer_properties [row_a] !! "a" = Some s) as H
    by (vm_compute; reflexivity).
  split; [exact H|]. exact (infer_more_rows_widen [row_a] _ "a" s H).
Defined.

Lemma field_schemas_middle (k : string) (l1 l2 : list value) (row : value) :
  field_schemas k (l1 ++ row :: l2)
  = field_schemas k l1 ++ option_list (field_schema k row)
    ++ field_schemas k l2.
Proof.
  unfold field_schemas. rewrite omap_app. simpl.
  by destruct (field_schema k row).
Qed.

Lemma merged_nonempty (vs : list schema) :
  vs ≠ [] ->
  match vs with
  | [] => None
  | v :: vs' => Some (_merge_schemas (v :: vs'))
  end = Some (_merge_schemas vs).
Proof. by destruct vs. Qed.

(** X16. Within the sample of 100 rows, a field that is null in a row
    counts as if the row did not have it, provided another row has the
    field. *)
Theorem null_field_as_absent (l1 l2 : list value) (d : gmap string value)
    (k : string) :
  length (l1 ++ VDict d :: l2) ≤ 100 ->
  d !! k = Some VNull ->
  (∃ d', VDict d' ∈ l1 ++ l2 ∧ is_Some (d' !! k)) ->
  _infer_properties (l1 ++ VDict (delete k d) :: l2)
  = _infer_properties (l1 ++ VDict d :: l2).
Proof.
  intros Hlen Hk (d' & Hd' & [v' Hv']). apply map_eq. intros j.
  rewrite !_infer_properties_lookup.
  rewrite !firstn_all2
    by (rewrite length_app in *; simpl in *; lia).
  rewrite !field_schemas_middle. unfold field_schema.
  destruct (decide (j = k)) as [->|Hne].
  - rewrite lookup_delete_eq, Hk.
    change (option_list (_singer_type_for_value <$> None)
            ++ field_schemas k l2) with (field_schemas k l2).
    change (option_list (_singer_type_for_value <$> Some VNull)
            ++ field_schemas k l2) with (leaf "null" :: field_schemas k l2).
    assert (field_schemas k l1 ++ field_schemas k l2 ≠ []) as Hne.
    { rewrite <- field_schemas_app. intros E.
      assert (_singer_type_for_value v' ∈ field_schemas k (l1 ++ l2)) as Hin.
      { apply list_elem_of_omap. exists (VDict d'). split; [done|].
        simpl. by rewrite Hv'. }
      rewrite E in Hin. by apply elem_of_nil in Hin. }
    rewrite (merged_nonempty (field_schemas k l1 ++ field_schemas k l2))
      by done.
    rewrite (merged_nonempty
               (field_schemas k l1 ++ leaf "null" :: field_schemas k l2))
      by (by destruct (field_schemas k l1)).
    f_equal. symmetry. apply _merge_schemas_leaf_neutral.
    apply elem_of_merged_types. by left.
  - by rewrite lookup_delete_ne by done.
Qed.

Lemma null_field_as_absent_witness :
  let d : gmap string value := {[ "a" := VNull; "b" := VInt 7 ]} in
  length ([row_a] ++ VDict d :: []) ≤ 100
  ∧ d !! "a" = Some VNull
  ∧ (∃ d', VDict d' ∈ [row_a] ++ [] ∧ is_Some (d' !! "a"))
  ∧ _infer_properties ([row_a] ++ VDict (delete "a" d) :: [])
    = _infer_properties ([row_a] ++ VDict d :: []).
Proof.
  intros d.
  assert (length ([row_a] ++ VDict d :: []) ≤ 100) as H1 by (simpl; lia).
  assert (d !! "a" = Some VNull) as H2 by reflexivity.
  assert (∃ d', VDict d' ∈ [row_a] ++ [] ∧ is_Some (d' !! "a")) as H3.
  { exists {[ "a" := VInt 1 ]}. split; [apply list_elem_of_here|].
    by eexists. }
  split; [exact H1|]. split; [exact H2|]. split; [exact H3|].
  exact (null_field_as_absent [row_a] [] d "a" H1 H2 H3).
Defined.

(** ** [generate_stream_entry] *)

(** X17. The stream name of an entry is never empty. *)
Theorem stream_name_nonempty (q : query) (data : list value) :
  stream (generate_stream_entry q data) ≠ [].
Proof.
  change (stream (generate_stream_entry q data))
    with (let name :=
            sanitize (default (PyUnicode.codes
                                 ("query_" +:+ PyStr.str (query_id q)))
                              (query_name q)) in
          match name with
          | [] => PyUnicode.codes ("query_" +:+ PyStr.str (query_id q))
          | _ :: _ => name
          end).
  cbn zeta. by destruct (sanitize _).
Qed.

(** X18. The names that the sanitization leaves as they are are exactly
    the names made of underscores and of alphanumeric characters that
    [lower()] leaves as they are; and sanitizing twice is sanitizing once
    exactly for the names without U+0130, whose combining dot goes away
    only the second time. *)
Theorem sanitize_fixed_points (name : list N) :
  (sanitize name = name ↔ forallb unchanged_char name = true)
  ∧ (sanitize (sanitize name) = sanitize name ↔ 0x130%N ∉ name).
Proof.
  assert (∀ s, sanitize s = s -> forallb unchanged_char s = true) as Hfix.
  { intros s Hs. apply elem_of_forallb. intros c Hc.
    apply (sanitize_unchanged_chars c s); [|by rewrite Hs].
    rewrite <- Hs. apply sanitize_no_dotted_I. }
  split; [split; [apply Hfix|apply sanitize_unchanged]|].
  split.
  - intros H%Hfix Hin. rewrite elem_of_forallb in H.
    assert (unchanged_char 0x307 = true) as Hdot; [|by vm_compute in Hdot].
    apply H, (sanitize_elem 0x130); [done..|].
    apply list_elem_of_further, list_elem_of_here.
  - intros Hn. apply sanitize_unchanged, elem_of_forallb.
    intros c Hc. by apply (sanitize_unchanged_chars c name).
Qed.

(** X19. A query object without a name gets the stream name
    [query_<id>]. *)
Theorem nameless_query_stream (id : N) (data : list value) :
  stream (generate_stream_entry (Query id None) data)
  = PyUnicode.codes ("query_" +:+ PyStr.str id).
Proof.
  change (stream (generate_stream_entry (Query id None) data))
    with (let name :=
            sanitize (PyUnicode.codes ("query_" +:+ PyStr.str id)) in
          match name with
          | [] => PyUnicode.codes ("query_" +:+ PyStr.str id)
          | _ :: _ => name
          end).
  rewrite sanitize_unchanged; [cbn zeta; by destruct (PyUnicode.codes _)|].
  apply query_id_chars. by vm_compute.
Qed.

(** X20. Entries with the same [tap_stream_id] come from queries with the
    same id: the decimal rendering of an id determines it. *)
Theorem tap_stream_id_determines_query (q1 q2 : query)
    (data1 data2 : list value) :
  tap_stream_id (generate_stream_entry q1 data1)
  = tap_stream_id (generate_stream_entry q2 data2) ->
  query_id q1 = query_id q2.
Proof. apply str_inj. Qed.

Lemma tap_stream_id_determines_query_witness :
  let sales := PyUnicode.codes "Sales" in
  tap_stream_id (generate_stream_entry (Query 42 (Some sales)) [])
  = tap_stream_id (generate_stream_entry (Query 42 None) [row_a])
  ∧ query_id (Query 42 (Some sales)) = query_id (Query 42 None).
Proof.
  intros sales.
  assert (tap_stream_id (generate_stream_entry (Query 42 (Some sales)) [])
          = tap_stream_id (generate_stream_entry (Query 42 None) [row_a]))
    as H by reflexivity.
  split; [exact H|].
  exact (tap_stream_id_determines_query _ _ _ _ H).
Defined.

(** ** [_get_query_data] and the address of the results *)

(** X21. [_get_query_data] returns a non-empty list of rows exactly when
    the response is a payload with a list under
    [payload['query_result']['data']['rows']], and the rows are that list;
    a request error, a body that is not JSON, a missing key or a value of
    another shape on the way all give the empty list. *)
Theorem query_data_shape (resp : response) (rows : list value) :
  rows ≠ [] ->
  _get_query_data resp = rows
  ↔ ∃ payload query_result data,
      resp = Payload (VDict payload)
      ∧ payload !! "query_result" = Some (VDict query_result)
      ∧ query_result !! "data" = Some (VDict data)
      ∧ data !! "rows" = Some (VList rows).
Proof.
  intros Hne. split.
  - intros H. destruct resp as [| |p]; simpl in H; try congruence.
    destruct p as [| | | | |payload| |]; simpl in H; try congruence.
    destruct (payload !! "query_result") as [r|] eqn:E1; [|congruence].
    destruct r as [| | | | |query_result| |]; simpl in H; try congruence.
    destruct (query_result !! "data") as [r|] eqn:E2; [|congruence].
    destruct r as [| | | | |data| |]; simpl in H; try congruence.
    destruct (data !! "rows") as [r|] eqn:E3; [|congruence].
    destruct r; try congruence. subst. by exists payload, query_result, data.
  - intros (payload & query_result & data & -> & H1 & H2 & H3).
    simpl. rewrite H1. simpl. rewrite H2. simpl. by rewrite H3.
Qed.

Lemma query_data_shape_witness :
  let rows := [row_a; row_b] in
  let resp :=
    Payload (VDict {[ "query_result" :=
      VDict {[ "id" := VInt 9;
               "data" := VDict {[ "columns" := VList [];
                                  "rows" := VList rows ]} ]} ]}) in
  rows ≠ []
  ∧ (_get_query_data resp = rows
     ↔ ∃ payload query_result data,
         resp = Payload (VDict payload)
         ∧ payload !! "query_result" = Some (VDict query_result)
         ∧ query_result !! "data" = Some (VDict data)
         ∧ data !! "rows" = Some (VList rows)).
Proof.
  intros rows resp.
  assert (rows ≠ []) as H by discriminate.
  split; [exact H|]. exact (query_data_shape resp rows H).
Defined.

(** X22. A slash at the end of the configured [BASE_URL] does not change the
    address of the results of a query. *)
Theorem results_url_trailing_slash (BASE_URL query_id : string) :
  results_url (BASE_URL +:+ "/") query_id = results_url BASE_URL query_id.
Proof. unfold results_url. by rewrite rstrip_snoc. Qed.

(** ** [do_discover] and [output_to_stream] *)

Lemma stream_selected_entry (key_properties : option value)
    (keys : gmap string schema -> list string)
    (respond : string -> response) (q : query) :
  stream_selected (catalog_entry key_properties keys respond q) = VBool true.
Proof.
  unfold stream_selected, catalog_entry. cbn [cs_metadata].
  rewrite foldl_app. cbn [foldl breadcrumb metadata].
  rewrite (lookup_insert_ne _ "query_id" "selected") by done.
  rewrite (lookup_insert_ne _ "query_name" "selected") by done.
  by rewrite lookup_singleton_eq.
Qed.

Lemma do_discover_entries (key_properties : option value)
    (keys : gmap string schema -> list string)
    (respond : string -> response) (queries : list query_object) :
  do_discover key_properties keys respond queries
  = catalog_entry key_properties keys respond
      <$> omap query_of_object queries.
Proof.
  unfold do_discover. induction queries as [|o queries IH]; [done|].
  cbn [omap list_omap]. destruct (query_of_object o); cbn; by rewrite IH.
Qed.

(** X23. Every stream that discovery writes is selected, whatever the
    query and its rows are. *)
Theorem discovered_stream_selected (key_properties : option value)
    (keys : gmap string schema -> list string)
    (respond : string -> response) (queries : list query_object)
    (s : catalog_stream) :
  s ∈ do_discover key_properties keys respond queries ->
  truthy (stream_selected s) = true.
Proof.
  rewrite do_discover_entries.
  intros (q & -> & _)%list_elem_of_fmap. by rewrite stream_selected_entry.
Qed.

Lemma discovered_stream_selected_witness :
  let respond := fun _ : string => RequestException in
  let keys := fun _ : gmap string schema => @nil string in
  let queries :=
    [QueryObject (Some 1%N) (Some (NameStr (PyUnicode.codes "Sales")));
     QueryObject (Some 2%N) None] in
  catalog_entry None keys respond (Query 2 None)
    ∈ do_discover None keys respond queries
  ∧ truthy (stream_selected (catalog_entry None keys respond (Query 2 None)))
    = true.
Proof.
  intros respond keys queries.
  assert (catalog_entry None keys respond (Query 2 None)
            ∈ do_discover None keys respond queries) as H.
  { apply list_elem_of_further, list_elem_of_here. }
  split; [exact H|].
  exact (discovered_stream_selected None keys respond queries _ H).
Defined.

(** X24. Discovery passes over the query objects for which
    [generate_stream_entry] raises, those without an id and those whose
    name is not a string.  Syncing the catalog that discovery wrote emits,
    for the other query objects one after the other, the schema of the
    stream and then one record per row of the query, under the stream
    name of the query. *)
Theorem sync_of_discovered_catalog (key_properties : option value)
    (keys : gmap string schema -> list string)
    (respond : string -> response) (queries : list query_object) :
  output_to_stream respond
    (Some (do_discover key_properties keys respond queries))
  = omap query_of_object queries ≫= (fun q =>
      let data := _get_query_data (respond (PyStr.str (query_id q))) in
      let entry := generate_stream_entry q data in
      SCHEMA (PyUnicode.utf8 (stream entry)) (entry_schema entry)
             (match key_properties with
              | Some (VList l) => l
              | _ => []
              end)
        :: (RECORD (PyUnicode.utf8 (stream entry)) <$> data))
  ∧ ∀ o, query_of_object o = None
         ↔ object_id o = None ∨ object_name o = Some NameOther.
Proof.
  split.
  - rewrite do_discover_entries. unfold output_to_stream.
    rewrite list_fmap_bind. apply list_bind_ext; [|done]. intros q. simpl.
    unfold stream_messages. by rewrite stream_selected_entry.
  - intros [[id|] [[s|]|]]; cbn; split; try done;
      try (intros [H|H]; done); by (left + right).
Qed.

(** X25. Every message written comes from a selected stream of the
    catalog and bears its name. *)
Theorem messages_of_selected_streams (respond : string -> response)
    (streams : list catalog_stream) (m : message) :
  m ∈ output_to_stream respond (Some streams) ->
  ∃ s, s ∈ streams ∧ truthy (stream_selected s) = true
       ∧ message_stream m = cs_stream s.
Proof.
  simpl. intros (s & Hm & Hs)%list_elem_of_bind. exists s.
  unfold stream_messages in Hm.
  destruct (truthy (stream_selected s)); [|by apply elem_of_nil in Hm].
  split; [done|]. split; [done|].
  apply elem_of_cons in Hm as [->|(r & -> & _)%list_elem_of_fmap]; done.
Qed.

Lemma messages_of_selected_streams_witness :
  let respond := fun _ : string =>
    Payload (VDict {[ "query_result" :=
      VDict {[ "data" := VDict {[ "rows" := VList [row_a] ]} ]} ]}) in
  let s := CatalogStream "sales" (Some "7") (leaf "object") None None in
  RECORD "sales" row_a ∈ output_to_stream respond (Some [s])
  ∧ ∃ s', s' ∈ [s] ∧ truthy (stream_selected s') = true
          ∧ message_stream (RECORD "sales" row_a) = cs_stream s'.
Proof.
  intros respond s.
  assert (RECORD "sales" row_a ∈ output_to_stream respond (Some [s])) as H.
  { apply list_elem_of_further, list_elem_of_here. }
  split; [exact H|].
  exact (messages_of_selected_streams respond [s] _ H).
Defined.

(** X26. A stream whose root metadata deselects it writes nothing, and the
    messages of the other streams are as without it. *)
Theorem unselected_stream_skipped (respond : string -> response)
    (l1 l2 : list catalog_stream) (s : catalog_stream) :
  truthy (stream_selected s) = false ->
  output_to_stream respond (Some (l1 ++ s :: l2))
  = output_to_stream respond (Some (l1 ++ l2)).
Proof.
  intros Hs. simpl. rewrite !bind_app, bind_cons.
  unfold stream_messages at 2. by rewrite Hs.
Qed.

Lemma unselected_stream_skipped_witness :
  let respond := fun _ : string => InvalidJSON in
  let s := CatalogStream "sales" None (leaf "object") None
             (Some [MetadataEntry [] {[ "selected" := VBool false ]}]) in
  let o := CatalogStream "costs" None (leaf "object") None None in
  truthy (stream_selected s) = false
  ∧ output_to_stream respond (Some ([o] ++ s :: [o]))
    = output_to_stream respond (Some ([o] ++ [o])).
Proof.
  intros respond s o.
  assert (truthy (stream_selected s) = false) as H by reflexivity.
  split; [exact H|]. exact (unselected_stream_skipped respond [o] [o] s H).
Defined.

(** ** [_get_available_queries] *)

(** X27. [_get_available_queries] returns a list exactly when the payload
    is a dictionary whose ["results"], the empty list when the key is
    missing, is a list, and it returns that list; it ends in an
    [AttributeError], which it does not handle, exactly when the payload
    is not a dictionary. *)
Theorem available_queries_shape (resp : response) (queries : list value) :
  (_get_available_queries resp = inr queries
   ↔ ∃ payload, resp = Payload (VDict payload)
       ∧ default (VList []) (payload !! "results") = VList queries)
  ∧ (_get_available_queries resp = inl AttributeError
     ↔ ∃ payload, resp = Payload payload ∧ is_dict payload = false).
Proof.
  split; split.
  - destruct resp as [| |p]; [done|done|].
    destruct p as [| | | | |payload| |]; try done. simpl.
    destruct (default (VList []) (payload !! "results")) eqn:E; try done.
    intros [= <-]. by exists payload.
  - intros (payload & -> & H). simpl. by rewrite H.
  - destruct resp as [| |p]; [done|done|].
    destruct p as [| | | | |payload| |]; try (by eexists). simpl.
    by destruct (default (VList []) (payload !! "results")).
  - intros (payload & -> & H). by destruct payload.
Qed.
